(** * Student-Sentinel: the attendance store and its HTTP handlers

    A shallow embedding of [shared/schema.ts], [server/storage.ts],
    [server/routes.ts] and the state handling of the attendance and
    student pages of the client.  The relational store is a record of three tables
    kept in insertion order; every statement the storage layer sends to it
    is a function from stores to a result and a new store, with the
    constraints that [shared/schema.ts] declares on the tables (identity
    primary keys, the unique and length-bounded [student_id], the two
    cascading foreign keys of [attendance_records]). *)

From Stdlib Require Import ZArith String Ascii List Bool Lia.
From Stdlib Require Import Permutation Sorted SpecFloat.
Import ListNotations.

Local Open Scope Z_scope.

(** ** Results of fallible statements *)

Inductive result (E A : Type) : Type :=
| Ok (a : A)
| Err (e : E).

Arguments Ok {E A} a.
Arguments Err {E A} e.

Definition bind {E A B : Type} (r : result E A) (k : A -> result E B)
  : result E B :=
  match r with
  | Ok a => k a
  | Err e => Err e
  end.

(** ** Text ordering and ORDER BY

    The order of two [text] values is the collation of the database, which
    the repository does not fix: the queries are stated over any total
    preorder on strings. *)

Class Collation : Type := {
  text_leb : string -> string -> bool;
  text_leb_total : forall a b, text_leb a b = true \/ text_leb b a = true;
  text_leb_trans : forall a b c,
      text_leb a b = true -> text_leb b c = true -> text_leb a c = true
}.

Section OrderBy.
Context {A : Type} (leb : A -> A -> bool).

Fixpoint insert_by (x : A) (l : list A) : list A :=
  match l with
  | [] => [x]
  | y :: l' => if leb x y then x :: l else y :: insert_by x l'
  end.

(** The rows of [l] in ascending [leb] order; rows that compare equal
    keep the order they had in [l]. *)
Definition order_by (l : list A) : list A :=
  fold_right insert_by [] l.
End OrderBy.

(** [a INNER JOIN b ON on] *)
Definition inner_join {A B : Type} (on : A -> B -> bool)
           (l : list A) (r : list B) : list (A * B) :=
  flat_map (fun a => map (pair a) (filter (on a) r)) l.

(** ** shared/schema.ts *)

Module Schema.

(** Calendar dates as the store keeps them: a day number. *)
Definition date := Z.
(** Timestamps ([defaultNow()]). *)
Definition timestamp := Z.

(** [attendanceStatusValues] *)
Inductive AttendanceStatus : Type :=
| present
| absent
| late
| excused.

Definition status_eqb (a b : AttendanceStatus) : bool :=
  match a, b with
  | present, present | absent, absent | late, late | excused, excused => true
  | _, _ => false
  end.

(** [typeof students.$inferSelect] *)
Record Student : Type := mkStudent {
  id : Z;
  studentId : string;
  firstName : string;
  lastName : string;
  email : string;
  photoUrl : option string
}.

(** [z.infer<typeof insertStudentSchema>] *)
Record InsertStudent : Type := mkInsertStudent {
  ins_studentId : string;
  ins_firstName : string;
  ins_lastName : string;
  ins_email : string;
  ins_photoUrl : option (option string)
}.

(** [Partial<InsertStudent>]: [None] is an absent key; for [photoUrl]
    [Some None] is an explicit [null]. *)
Record PartialInsertStudent : Type := mkPartialStudent {
  upd_studentId : option string;
  upd_firstName : option string;
  upd_lastName : option string;
  upd_email : option string;
  upd_photoUrl : option (option string)
}.

(** [typeof sessions.$inferSelect] *)
Record Session : Type := mkSession {
  session_id : Z;
  name : string;
  session_date : date;
  createdAt : timestamp
}.

Record InsertSession : Type := mkInsertSession {
  ins_name : string;
  ins_date : date
}.

(** [typeof attendanceRecords.$inferSelect] *)
Record AttendanceRecord : Type := mkAttendanceRecord {
  record_id : Z;
  record_studentId : Z;
  record_sessionId : Z;
  status : AttendanceStatus;
  notes : option string;
  recordedAt : timestamp
}.

(** [z.infer<typeof insertAttendanceRecordSchema>] *)
Record InsertAttendanceRecord : Type := mkInsertAttendanceRecord {
  ins_record_studentId : Z;
  ins_record_sessionId : Z;
  ins_status : AttendanceStatus;
  ins_notes : option (option string)
}.

(** [AttendanceRecordWithStudent] *)
Record AttendanceRecordWithStudent : Type := mkJoined {
  joined_record : AttendanceRecord;
  joined_student : Student;
  joined_session : Session
}.

End Schema.

Import Schema.

(** ** The relational store behind [db] *)

Module Db.

Inductive DbError : Type :=
| UniqueViolation       (* students.student_id is unique *)
| ForeignKeyViolation   (* attendance_records references both parents *)
| ValueTooLong          (* varchar("student_id", { length: 50 }) *)
| NoValuesToSet         (* update ... set with no column *)
| NoValuesToInsert.     (* insert ... values([]) *)

(** The three tables in insertion order and one identity sequence per
    table ([generatedAlwaysAsIdentity]). *)
Record Store : Type := mkStore {
  students : list Student;
  students_seq : Z;
  sessions : list Session;
  sessions_seq : Z;
  attendanceRecords : list AttendanceRecord;
  attendance_seq : Z
}.

Definition has_student (st : Store) (i : Z) : bool :=
  existsb (fun s => id s =? i) (students st).

Definition has_session (st : Store) (i : Z) : bool :=
  existsb (fun s => session_id s =? i) (sessions st).

(** The row an insert builds from the provided columns: an absent
    nullable column and an explicit null both store null. *)
Definition nullable (v : option (option string)) : option string :=
  match v with
  | Some (Some s) => Some s
  | _ => None
  end.

Definition attendance_row (i : Z) (now : timestamp)
           (r : InsertAttendanceRecord) : AttendanceRecord :=
  mkAttendanceRecord i (ins_record_studentId r) (ins_record_sessionId r)
                     (ins_status r) (nullable (ins_notes r)) now.

(** Rows of one multi-row insert take consecutive identity values. *)
Fixpoint attendance_rows (i : Z) (now : timestamp)
         (rs : list InsertAttendanceRecord) : list AttendanceRecord :=
  match rs with
  | [] => []
  | r :: rs' => attendance_row i now r :: attendance_rows (i + 1) now rs'
  end.

Definition references_ok (st : Store) (r : InsertAttendanceRecord) : bool :=
  has_student st (ins_record_studentId r)
  && has_session st (ins_record_sessionId r).

(** [db.insert(attendanceRecords).values(records).returning()]: one
    statement, so either every row is stored or none is; the identity
    values it drew are spent either way. *)
Definition insert_attendance (now : timestamp)
           (rs : list InsertAttendanceRecord) (st : Store)
  : result DbError (list AttendanceRecord) * Store :=
  match rs with
  | [] => (Err NoValuesToInsert, st)
  | _ :: _ =>
      let next := attendance_seq st + Z.of_nat (length rs) in
      if forallb (references_ok st) rs then
        let rows := attendance_rows (attendance_seq st) now rs in
        (Ok rows,
         mkStore (students st) (students_seq st)
                 (sessions st) (sessions_seq st)
                 (attendanceRecords st ++ rows) next)
      else
        (Err ForeignKeyViolation,
         mkStore (students st) (students_seq st)
                 (sessions st) (sessions_seq st)
                 (attendanceRecords st) next)
  end.

(** [db.insert(students).values(student).returning()] *)
Definition insert_student (s : InsertStudent) (st : Store)
  : result DbError (list Student) * Store :=
  let i := students_seq st in
  let spent rows :=
    mkStore rows (i + 1) (sessions st) (sessions_seq st)
            (attendanceRecords st) (attendance_seq st) in
  if (50 <? String.length (ins_studentId s))%nat then
    (Err ValueTooLong, spent (students st))
  else if existsb (fun s' => String.eqb (studentId s') (ins_studentId s))
                  (students st) then
    (Err UniqueViolation, spent (students st))
  else
    let row := mkStudent i (ins_studentId s) (ins_firstName s)
                         (ins_lastName s) (ins_email s)
                         (nullable (ins_photoUrl s)) in
    (Ok [row], spent (students st ++ [row])).

(** [db.insert(sessions).values(session).returning()] *)
Definition insert_session (now : timestamp) (s : InsertSession) (st : Store)
  : result DbError (list Session) * Store :=
  let row := mkSession (sessions_seq st) (ins_name s) (ins_date s) now in
  (Ok [row],
   mkStore (students st) (students_seq st)
           (sessions st ++ [row]) (sessions_seq st + 1)
           (attendanceRecords st) (attendance_seq st)).

(** The columns a [set] names. *)
Definition no_values (p : PartialInsertStudent) : bool :=
  match upd_studentId p, upd_firstName p, upd_lastName p,
        upd_email p, upd_photoUrl p with
  | None, None, None, None, None => true
  | _, _, _, _, _ => false
  end.

Definition or_keep {A : Type} (v : option A) (old : A) : A :=
  match v with
  | Some x => x
  | None => old
  end.

Definition set_student (p : PartialInsertStudent) (s : Student) : Student :=
  mkStudent (id s)
            (or_keep (upd_studentId p) (studentId s))
            (or_keep (upd_firstName p) (firstName s))
            (or_keep (upd_lastName p) (lastName s))
            (or_keep (upd_email p) (email s))
            (or_keep (upd_photoUrl p) (photoUrl s)).

(** What the constraints on [student_id] say about a new value for the
    row with primary key [i]. *)
Definition check_student_id (i : Z) (p : PartialInsertStudent) (st : Store)
  : option DbError :=
  match upd_studentId p with
  | None => None
  | Some sid =>
      if (50 <? String.length sid)%nat then Some ValueTooLong
      else if existsb (fun s => negb (id s =? i)
                                && String.eqb (studentId s) sid)
                      (students st)
           then Some UniqueViolation
           else None
  end.

(** [db.update(students).set(p).where(eq(students.id, i)).returning()].
    A [set] that names no column is refused before any statement is
    sent. *)
Definition update_students_set_where_id (p : PartialInsertStudent) (i : Z)
           (st : Store) : result DbError (list Student) * Store :=
  if no_values p then (Err NoValuesToSet, st)
  else
    match filter (fun s => id s =? i) (students st) with
    | [] => (Ok [], st)
    | targets =>
        match check_student_id i p st with
        | Some e => (Err e, st)
        | None =>
            (Ok (map (set_student p) targets),
             mkStore (map (fun s => if id s =? i then set_student p s else s)
                          (students st))
                     (students_seq st)
                     (sessions st) (sessions_seq st)
                     (attendanceRecords st) (attendance_seq st))
        end
    end.

(** [db.delete(students).where(eq(students.id, i)).returning()], with
    [onDelete: "cascade"] of [attendance_records.student_id]: the
    attendance rows that reference a deleted student go with it. *)
Definition delete_students_where_id (i : Z) (st : Store)
  : list Student * Store :=
  let deleted := filter (fun s => id s =? i) (students st) in
  (deleted,
   mkStore (filter (fun s => negb (id s =? i)) (students st))
           (students_seq st)
           (sessions st) (sessions_seq st)
           (filter (fun r => negb (existsb (fun s => id s =? record_studentId r)
                                           deleted))
                   (attendanceRecords st))
           (attendance_seq st)).

(** [db.delete(attendanceRecords).where(eq(attendanceRecords.sessionId, sid))] *)
Definition delete_attendance_where_sessionId (sid : Z) (st : Store) : Store :=
  mkStore (students st) (students_seq st)
          (sessions st) (sessions_seq st)
          (filter (fun r => negb (record_sessionId r =? sid))
                  (attendanceRecords st))
          (attendance_seq st).

End Db.

Import Db.

(** ** JavaScript numbers

    A [number] is an IEEE 754 binary64 value; its operations are those of
    the standard library's bit-level specification at precision 53. *)

Module JsNumber.

Definition prec : Z := 53.
Definition emax : Z := 1024.

Definition number := spec_float.

(** The number an integer converts to. *)
Definition of_int (n : Z) : number := binary_normalize prec emax n 0 false.

Definition div (x y : number) : number := SFdiv prec emax x y.
Definition mul (x y : number) : number := SFmul prec emax x y.

(** [Math.round]: the integer nearest to [x], the one towards plus
    infinity when two are as near. *)
Definition Math_round (x : number) : number :=
  match x with
  | S754_finite s m e =>
      if 0 <=? e then x
      else
        let n := (2 * cond_Zopp s (Zpos m) + 2 ^ (- e)) / 2 ^ (1 - e) in
        binary_normalize prec emax n 0 s
  | _ => x
  end.

End JsNumber.

(** ** server/storage.ts *)

Module DatabaseStorage.

(** [DashboardStats] of [shared/schema.ts] *)
Record TodayAttendance : Type := mkTodayAttendance {
  today_present : Z;
  today_absent : Z;
  today_late : Z;
  today_excused : Z
}.

Record DashboardStats : Type := mkDashboardStats {
  totalStudents : Z;
  totalSessions : Z;
  todayAttendance : TodayAttendance;
  overallAttendanceRate : JsNumber.number;
  recentSessions : list Session
}.

Section Queries.
Context {collation : Collation}.

(** [orderBy(students.lastName, students.firstName)] *)
Definition students_leb (a b : Student) : bool :=
  if text_leb (lastName a) (lastName b) then
    if text_leb (lastName b) (lastName a)
    then text_leb (firstName a) (firstName b)
    else true
  else false.

Definition getStudents (st : Store) : list Student :=
  order_by students_leb (students st).

(** [orderBy(desc(sessions.date), students.lastName)] *)
Definition joined_leb (a b : AttendanceRecordWithStudent) : bool :=
  let da := session_date (joined_session a) in
  let db := session_date (joined_session b) in
  if db <? da then true
  else if da =? db
       then text_leb (lastName (joined_student a))
                     (lastName (joined_student b))
       else false.

Definition getAttendanceRecords (st : Store)
  : list AttendanceRecordWithStudent :=
  let with_students :=
    inner_join (fun r s => record_studentId r =? id s)
               (attendanceRecords st) (students st) in
  let with_sessions :=
    inner_join (fun rs se => record_sessionId (fst rs) =? session_id se)
               with_students (sessions st) in
  order_by joined_leb
           (map (fun x => mkJoined (fst (fst x)) (snd (fst x)) (snd x))
                with_sessions).
End Queries.

Definition getStudent (i : Z) (st : Store) : option Student :=
  hd_error (filter (fun s => id s =? i) (students st)).

Definition createStudent (student : InsertStudent) (st : Store)
  : result DbError Student * Store :=
  match insert_student student st with
  | (Ok (newStudent :: _), st') => (Ok newStudent, st')
  | (Ok [], st') => (Err NoValuesToInsert, st')
  | (Err e, st') => (Err e, st')
  end.

Definition updateStudent (i : Z) (student : PartialInsertStudent)
           (st : Store) : result DbError (option Student) * Store :=
  match update_students_set_where_id student i st with
  | (Ok rows, st') => (Ok (hd_error rows), st')
  | (Err e, st') => (Err e, st')
  end.

Definition deleteStudent (i : Z) (st : Store) : bool * Store :=
  let (result, st') := delete_students_where_id i st in
  (0 <? Z.of_nat (length result), st').

(** [orderBy(desc(sessions.date))] *)
Definition sessions_leb (a b : Session) : bool :=
  session_date b <=? session_date a.

Definition getSessions (st : Store) : list Session :=
  order_by sessions_leb (sessions st).


Definition createSession (now : timestamp) (session : InsertSession)
           (st : Store) : result DbError Session * Store :=
  match insert_session now session st with
  | (Ok (newSession :: _), st') => (Ok newSession, st')
  | (Ok [], st') => (Err NoValuesToInsert, st')
  | (Err e, st') => (Err e, st')
  end.

Definition getAttendanceBySession (sessionId : Z) (st : Store)
  : list AttendanceRecord :=
  filter (fun r => record_sessionId r =? sessionId) (attendanceRecords st).

Definition createAttendanceRecord (now : timestamp)
           (record : InsertAttendanceRecord) (st : Store)
  : result DbError AttendanceRecord * Store :=
  match insert_attendance now [record] st with
  | (Ok (newRecord :: _), st') => (Ok newRecord, st')
  | (Ok [], st') => (Err NoValuesToInsert, st')
  | (Err e, st') => (Err e, st')
  end.

Definition createBulkAttendance (now : timestamp)
           (records : list InsertAttendanceRecord) (st : Store)
  : result DbError (list AttendanceRecord) * Store :=
  match records with
  | [] => (Ok [], st)
  | first :: _ =>
      let sessionId := ins_record_sessionId first in
      let st1 := delete_attendance_where_sessionId sessionId st in
      insert_attendance now records st1
  end.

(** *** getDashboardStats *)

Definition count_status (s : AttendanceStatus)
           (l : list AttendanceStatus) : Z :=
  Z.of_nat (length (filter (status_eqb s) l)).

(** [select status, count( * ) ... group by status]: one row for each
    status that occurs. *)
Fixpoint distinct (l : list AttendanceStatus) : list AttendanceStatus :=
  match l with
  | [] => []
  | s :: l' => s :: filter (fun s' => negb (status_eqb s s')) (distinct l')
  end.

Definition group_by_status (l : list AttendanceStatus)
  : list (AttendanceStatus * Z) :=
  map (fun s => (s, count_status s l)) (distinct l).

(** [record.status in todayAttendance] *)
Definition in_todayAttendance (s : AttendanceStatus) : bool :=
  match s with
  | present | absent | late | excused => true
  end.

(** [todayAttendance[record.status] = record.count] *)
Definition set_today (t : TodayAttendance) (s : AttendanceStatus) (c : Z)
  : TodayAttendance :=
  match s with
  | present => mkTodayAttendance c (today_absent t) (today_late t) (today_excused t)
  | absent => mkTodayAttendance (today_present t) c (today_late t) (today_excused t)
  | late => mkTodayAttendance (today_present t) (today_absent t) c (today_excused t)
  | excused => mkTodayAttendance (today_present t) (today_absent t) (today_late t) c
  end.

Definition todayRecords (today : date) (st : Store)
  : list (AttendanceStatus * Z) :=
  let joined :=
    inner_join (fun r se => record_sessionId r =? session_id se)
               (attendanceRecords st) (sessions st) in
  let todays := filter (fun x => session_date (snd x) =? today) joined in
  group_by_status (map (fun x => status (fst x)) todays).

(** [(totalAttendance.present || 0)]: [sum] over no row is null. *)
Definition sum_present (l : list AttendanceRecord) : option Z :=
  match l with
  | [] => None
  | _ :: _ => Some (count_status present (map status l))
  end.

Definition or_zero (v : option Z) : Z :=
  match v with
  | Some n => n
  | None => 0
  end.

Definition overallRate (st : Store) : JsNumber.number :=
  let total := Z.of_nat (length (attendanceRecords st)) in
  let present := sum_present (attendanceRecords st) in
  if 0 <? total then
    JsNumber.Math_round
      (JsNumber.mul
         (JsNumber.div (JsNumber.of_int (or_zero present))
                       (JsNumber.of_int total))
         (JsNumber.of_int 100))
  else JsNumber.of_int 0.

Definition getDashboardStats (today : date) (st : Store) : DashboardStats :=
  let studentsCount := Z.of_nat (length (students st)) in
  let sessionsCount := Z.of_nat (length (sessions st)) in
  let todayAttendance :=
    fold_left (fun t record =>
                 if in_todayAttendance (fst record)
                 then set_today t (fst record) (snd record)
                 else t)
              (todayRecords today st)
              (mkTodayAttendance 0 0 0 0) in
  mkDashboardStats studentsCount sessionsCount todayAttendance
                   (overallRate st)
                   (firstn 5 (order_by sessions_leb (sessions st))).

End DatabaseStorage.

Import DatabaseStorage.

(** ** Request bodies and their validation (zod) *)

Module Zod.

(** A parsed JSON body.  A number is the fraction [num/den]. *)
#[warnings="-register-all"]
Inductive json : Type :=
| JNull
| JBool (b : bool)
| JNumber (num : Z) (den : positive)
| JString (s : string)
| JArray (items : list json)
| JObject (fields : list (string * json)).

(** [obj[k]]: the last binding of a repeated key is the one kept. *)
Fixpoint get (k : string) (fields : list (string * json)) : option json :=
  match fields with
  | [] => None
  | (k', v) :: rest =>
      match get k rest with
      | Some v' => Some v'
      | None => if String.eqb k k' then Some v else None
      end
  end.

Inductive PathElem : Type :=
| Key (k : string)
| Index (i : nat).

Record ZodIssue : Type := mkIssue {
  path : list PathElem;
  message : string
}.

Definition ZodError := list ZodIssue.
Definition parsed (A : Type) := result ZodError A.

Definition issue {A : Type} (msg : string) : parsed A :=
  Err [mkIssue [] msg].

Definition issues {A : Type} (r : parsed A) : ZodError :=
  match r with
  | Ok _ => []
  | Err e => e
  end.

Definition under {A : Type} (e : PathElem) (r : parsed A) : parsed A :=
  match r with
  | Ok a => Ok a
  | Err es => Err (map (fun i => mkIssue (e :: path i) (message i)) es)
  end.

(** A schema reads a value that may be missing ([undefined]). *)
Definition schema (A : Type) := option json -> parsed A.

Definition z_string : schema string := fun v =>
  match v with
  | Some (JString s) => Ok s
  | None => issue "Required"
  | Some _ => issue "Expected string"
  end.

(** [z.string().min(1, msg)] *)
Definition z_string_min1 (msg : string) : schema string := fun v =>
  bind (z_string v)
       (fun s => if (String.length s <? 1)%nat then issue msg else Ok s).

(** The syntax [z.string().email] accepts is zod's own. *)
Class EmailSyntax : Type := { is_email : string -> bool }.

(** [z.string().email(msg)] *)
Definition z_string_email {syntax : EmailSyntax} (msg : string)
  : schema string := fun v =>
  bind (z_string v) (fun s => if is_email s then Ok s else issue msg).

(** The schema of an [integer] column *)
Definition z_int : schema Z := fun v =>
  match v with
  | Some (JNumber n d) =>
      if n mod Zpos d =? 0 then Ok (n / Zpos d)
      else issue "Expected integer, received float"
  | None => issue "Required"
  | Some _ => issue "Expected number"
  end.

Definition status_of_string (s : string) : option AttendanceStatus :=
  if String.eqb s "present" then Some present
  else if String.eqb s "absent" then Some absent
  else if String.eqb s "late" then Some late
  else if String.eqb s "excused" then Some excused
  else None.

(** [z.enum(attendanceStatusValues)] *)
Definition z_status : schema AttendanceStatus := fun v =>
  match v with
  | Some (JString s) =>
      match status_of_string s with
      | Some x => Ok x
      | None => issue "Invalid enum value"
      end
  | None => issue "Required"
  | Some _ => issue "Invalid enum value"
  end.

Definition z_optional {A : Type} (p : schema A) : schema (option A) :=
  fun v =>
    match v with
    | None => Ok None
    | Some _ => bind (p v) (fun a => Ok (Some a))
    end.

Definition z_nullable {A : Type} (p : schema A) : schema (option A) :=
  fun v =>
    match v with
    | Some JNull => Ok None
    | _ => bind (p v) (fun a => Ok (Some a))
    end.

Definition field {A : Type} (k : string) (p : schema A)
           (fields : list (string * json)) : parsed A :=
  under (Key k) (p (get k fields)).

(** [z.array(p)] on the items of an array, the first at index [i] *)
Fixpoint z_items {A : Type} (p : schema A) (i : nat) (items : list json)
  : parsed (list A) :=
  match items with
  | [] => Ok []
  | x :: rest =>
      match under (Index i) (p (Some x)), z_items p (S i) rest with
      | Ok a, Ok l => Ok (a :: l)
      | r, rs => Err (issues r ++ issues rs)
      end
  end.

Definition z_array {A : Type} (p : schema A) : schema (list A) := fun v =>
  match v with
  | Some (JArray items) => z_items p 0 items
  | None => issue "Required"
  | Some _ => issue "Expected array"
  end.

Section StudentSchemas.
Context {syntax : EmailSyntax}.

(** [createStudentSchema] *)
Definition createStudentSchema : schema InsertStudent := fun v =>
  match v with
  | Some (JObject o) =>
      let sid := field "studentId" (z_string_min1 "Student ID is required") o in
      let first := field "firstName" (z_string_min1 "First name is required") o in
      let last := field "lastName" (z_string_min1 "Last name is required") o in
      let mail := field "email" (z_string_email "Invalid email address") o in
      let photo := field "photoUrl" (z_optional (z_nullable z_string)) o in
      match sid, first, last, mail, photo with
      | Ok a, Ok b, Ok c, Ok d, Ok e => Ok (mkInsertStudent a b c d e)
      | _, _, _, _, _ =>
          Err (issues sid ++ issues first ++ issues last
               ++ issues mail ++ issues photo)
      end
  | None => issue "Required"
  | Some _ => issue "Expected object"
  end.

(** [updateStudentSchema = createStudentSchema.partial()] *)
Definition updateStudentSchema : schema PartialInsertStudent := fun v =>
  match v with
  | Some (JObject o) =>
      let sid := field "studentId"
                       (z_optional (z_string_min1 "Student ID is required")) o in
      let first := field "firstName"
                         (z_optional (z_string_min1 "First name is required")) o in
      let last := field "lastName"
                        (z_optional (z_string_min1 "Last name is required")) o in
      let mail := field "email"
                        (z_optional (z_string_email "Invalid email address")) o in
      let photo := field "photoUrl" (z_optional (z_nullable z_string)) o in
      match sid, first, last, mail, photo with
      | Ok a, Ok b, Ok c, Ok d, Ok e => Ok (mkPartialStudent a b c d e)
      | _, _, _, _, _ =>
          Err (issues sid ++ issues first ++ issues last
               ++ issues mail ++ issues photo)
      end
  | None => issue "Required"
  | Some _ => issue "Expected object"
  end.
End StudentSchemas.

(** [createAttendanceSchema] *)
Definition createAttendanceSchema : schema InsertAttendanceRecord := fun v =>
  match v with
  | Some (JObject o) =>
      let student := field "studentId" z_int o in
      let session := field "sessionId" z_int o in
      let st := field "status" z_status o in
      let note := field "notes" (z_optional (z_nullable z_string)) o in
      match student, session, st, note with
      | Ok a, Ok b, Ok c, Ok d => Ok (mkInsertAttendanceRecord a b c d)
      | _, _, _, _ =>
          Err (issues student ++ issues session ++ issues st ++ issues note)
      end
  | None => issue "Required"
  | Some _ => issue "Expected object"
  end.

(** [bulkAttendanceSchema] of [server/routes.ts] *)
Definition bulkAttendanceSchema : schema (list InsertAttendanceRecord) :=
  fun v =>
    match v with
    | Some (JObject o) => field "records" (z_array createAttendanceSchema) o
    | None => issue "Required"
    | Some _ => issue "Expected object"
    end.

End Zod.

Import Zod.

(** ** server/routes.ts *)

Module Routes.

Inductive ResponseBody : Type :=
| JsonStudent (s : Student)
| JsonAttendance (records : list AttendanceRecord)
| JsonIssues (errors : ZodError)      (* [{ error: error.errors }] *)
| JsonError (error : string)          (* [{ error: "..." }] *)
| NoBody.

Record Response : Type := mkResponse {
  status_code : Z;
  body : ResponseBody
}.

Section StudentRoutes.
Context {syntax : EmailSyntax}.

(** [app.post("/api/students", ...)] *)
Definition post_students (req_body : json) (st : Store)
  : Response * Store :=
  match createStudentSchema (Some req_body) with
  | Err errors => (mkResponse 400 (JsonIssues errors), st)
  | Ok validated =>
      match createStudent validated st with
      | (Ok student, st') => (mkResponse 201 (JsonStudent student), st')
      | (Err _, st') =>
          (mkResponse 500 (JsonError "Failed to create student"), st')
      end
  end.

(** [app.patch("/api/students/:id", ...)], [i] being the number
    [parseInt] reads in the path. *)
Definition patch_students (i : Z) (req_body : json) (st : Store)
  : Response * Store :=
  match updateStudentSchema (Some req_body) with
  | Err errors => (mkResponse 400 (JsonIssues errors), st)
  | Ok validated =>
      match updateStudent i validated st with
      | (Ok (Some student), st') =>
          (mkResponse 200 (JsonStudent student), st')
      | (Ok None, st') =>
          (mkResponse 404 (JsonError "Student not found"), st')
      | (Err _, st') =>
          (mkResponse 500 (JsonError "Failed to update student"), st')
      end
  end.
End StudentRoutes.

(** [app.delete("/api/students/:id", ...)] *)
Definition delete_students (i : Z) (st : Store) : Response * Store :=
  match deleteStudent i st with
  | (true, st') => (mkResponse 204 NoBody, st')
  | (false, st') => (mkResponse 404 (JsonError "Student not found"), st')
  end.

(** [app.post("/api/attendance/bulk", ...)] *)
Definition post_attendance_bulk (now : timestamp) (req_body : json)
           (st : Store) : Response * Store :=
  match bulkAttendanceSchema (Some req_body) with
  | Err errors => (mkResponse 400 (JsonIssues errors), st)
  | Ok validated =>
      match createBulkAttendance now validated st with
      | (Ok records, st') => (mkResponse 201 (JsonAttendance records), st')
      | (Err _, st') =>
          (mkResponse 500 (JsonError "Failed to create attendance records"),
           st')
      end
  end.

End Routes.

Import Routes.

(** ** client/src/pages/attendance.tsx

    The state of [AttendancePage] and the handlers that change it.  A
    request is the JSON value the server reads from it: the object given
    to [apiRequest], in which a key whose value is [undefined] is left
    out. *)

Module AttendancePage.

(** A value of [AttendanceState].  Its type says both fields are there;
    an object built by spreading [undefined] has only the field it was
    given, so either may be missing. *)
Record Entry : Type := mkEntry {
  entry_status : option AttendanceStatus;
  entry_notes : option string
}.

(** [AttendanceState]: an object keyed by student ids.  Student ids are
    identity values, positive integers, and such keys are enumerated in
    ascending order whatever the order they were set in. *)
Definition AttendanceState := list (Z * Entry).

(** [state[k]] *)
Fixpoint lookup (k : Z) (state : AttendanceState) : option Entry :=
  match state with
  | [] => None
  | (k', e) :: rest => if k =? k' then Some e else lookup k rest
  end.

(** [state[k] = e] *)
Fixpoint assign (k : Z) (e : Entry) (state : AttendanceState)
  : AttendanceState :=
  match state with
  | [] => [(k, e)]
  | (k', e') :: rest =>
      if k <? k' then (k, e) :: state
      else if k =? k' then (k, e) :: rest
      else (k', e') :: assign k e rest
  end.

(** [useState<Session | null>(null)] and [useState<AttendanceState>({})] *)
Record State : Type := mkState {
  selectedSession : option Session;
  attendanceState : AttendanceState
}.

Definition initial : State := mkState None [].

(** [handleSessionCreated]; [students] is the data of the students query,
    [undefined] until it has loaded. *)
Definition handleSessionCreated (students : option (list Student))
           (session : Session) (s : State) : State :=
  mkState (Some session)
          match students with
          | Some loaded =>
              fold_left (fun initialState student =>
                           assign (id student)
                                  (mkEntry (Some present) (Some EmptyString))
                                  initialState)
                        loaded []
          | None => attendanceState s
          end.

(** [{ ...prev[studentId], status }] *)
Definition with_status (status : AttendanceStatus) (prev : option Entry)
  : Entry :=
  match prev with
  | Some e => mkEntry (Some status) (entry_notes e)
  | None => mkEntry (Some status) None
  end.

(** [{ ...prev[studentId], notes }] *)
Definition with_notes (notes : string) (prev : option Entry) : Entry :=
  match prev with
  | Some e => mkEntry (entry_status e) (Some notes)
  | None => mkEntry None (Some notes)
  end.

Definition handleStatusChange (studentId : Z) (status : AttendanceStatus)
           (s : State) : State :=
  let prev := attendanceState s in
  mkState (selectedSession s)
          (assign studentId (with_status status (lookup studentId prev)) prev).

Definition handleNotesChange (studentId : Z) (notes : string) (s : State)
  : State :=
  let prev := attendanceState s in
  mkState (selectedSession s)
          (assign studentId (with_notes notes (lookup studentId prev)) prev).

(** [attendanceState[student.id]?.notes ?? ""] *)
Definition notes_or_empty (prev : option Entry) : string :=
  match prev with
  | Some e =>
      match entry_notes e with
      | Some n => n
      | None => EmptyString
      end
  | None => EmptyString
  end.

Definition handleMarkAllPresent (students : option (list Student))
           (s : State) : State :=
  match students with
  | None => s
  | Some loaded =>
      mkState (selectedSession s)
              (fold_left
                 (fun newState student =>
                    assign (id student)
                           (mkEntry (Some present)
                                    (Some (notes_or_empty
                                             (lookup (id student)
                                                     (attendanceState s)))))
                           newState)
                 loaded [])
  end.

(** One element of [records] in [saveMutation]. *)
Record BulkRecord : Type := mkBulkRecord {
  bulk_studentId : Z;
  bulk_sessionId : Z;
  bulk_status : option AttendanceStatus;
  bulk_notes : option string          (* a string or [null] *)
}.

(** [data.notes || null] *)
Definition notes_or_null (n : option string) : option string :=
  match n with
  | Some EmptyString => None
  | Some text => Some text
  | None => None
  end.

(** [Object.entries(attendanceState).map(...)]; [parseInt] of a key gives
    back the id it was set under. *)
Definition records_of (session : Session) (state : AttendanceState)
  : list BulkRecord :=
  map (fun entry =>
         mkBulkRecord (fst entry) (session_id session)
                      (entry_status (snd entry))
                      (notes_or_null (entry_notes (snd entry))))
      state.

(** The string an [AttendanceStatus] is. *)
Definition status_text (s : AttendanceStatus) : string :=
  match s with
  | present => "present"
  | absent => "absent"
  | late => "late"
  | excused => "excused"
  end.

Definition record_json (r : BulkRecord) : json :=
  JObject
    (("studentId"%string, JNumber (bulk_studentId r) 1)
     :: ("sessionId"%string, JNumber (bulk_sessionId r) 1)
     :: match bulk_status r with
        | Some s => [("status"%string, JString (status_text s))]
        | None => []
        end
     ++ [("notes"%string,
          match bulk_notes r with
          | Some text => JString text
          | None => JNull
          end)]).

(** [saveMutation.mutationFn]: the body of the request to
    [/api/attendance/bulk], or the error thrown when no session is
    selected. *)
Definition save_request (s : State) : result string json :=
  match selectedSession s with
  | None => Err "No session selected"%string
  | Some session =>
      Ok (JObject
            [("records"%string,
              JArray (map record_json
                          (records_of session (attendanceState s))))])
  end.

(** What the page does between two renders. *)
Inductive Event : Type :=
| SessionCreated (students : option (list Student)) (session : Session)
| StatusChange (studentId : Z) (status : AttendanceStatus)
| NotesChange (studentId : Z) (notes : string)
| MarkAllPresent (students : option (list Student)).

Definition handle (s : State) (e : Event) : State :=
  match e with
  | SessionCreated students session => handleSessionCreated students session s
  | StatusChange k status => handleStatusChange k status s
  | NotesChange k notes => handleNotesChange k notes s
  | MarkAllPresent students => handleMarkAllPresent students s
  end.

End AttendancePage.

(** ** client/src/pages/students.tsx: the student form *)

Module StudentsPage.

(** [StudentFormValues] *)
Record StudentFormValues : Type := mkFormValues {
  form_studentId : string;
  form_firstName : string;
  form_lastName : string;
  form_email : string;
  form_photoUrl : option string
}.

Section Form.
Context {syntax : EmailSyntax}.

(** [studentFormSchema] *)
Definition studentFormSchema : schema StudentFormValues := fun v =>
  match v with
  | Some (JObject o) =>
      let sid := field "studentId" (z_string_min1 "Student ID is required") o in
      let first := field "firstName" (z_string_min1 "First name is required") o in
      let last := field "lastName" (z_string_min1 "Last name is required") o in
      let mail := field "email" (z_string_email "Invalid email address") o in
      let photo := field "photoUrl" (z_optional z_string) o in
      match sid, first, last, mail, photo with
      | Ok a, Ok b, Ok c, Ok d, Ok e => Ok (mkFormValues a b c d e)
      | _, _, _, _, _ =>
          Err (issues sid ++ issues first ++ issues last
               ++ issues mail ++ issues photo)
      end
  | None => issue "Required"
  | Some _ => issue "Expected object"
  end.

(** [{ ...data, photoUrl }], [photoUrl] being the state of the dialog: it
    takes the place of [data.photoUrl], and is left out of the request
    when it is [undefined]. *)
Definition request_body (data : StudentFormValues) (photoUrl : option string)
  : json :=
  JObject
    (("studentId"%string, JString (form_studentId data))
     :: ("firstName"%string, JString (form_firstName data))
     :: ("lastName"%string, JString (form_lastName data))
     :: ("email"%string, JString (form_email data))
     :: match photoUrl with
        | Some url => [("photoUrl"%string, JString url)]
        | None => []
        end).

(** [form.handleSubmit(onSubmit)]: the mutation runs on the values the
    resolver accepts, and not at all on values it rejects. *)
Definition submit (values : json) (photoUrl : option string)
  : parsed json :=
  bind (studentFormSchema (Some values))
       (fun data => Ok (request_body data photoUrl)).

End Form.

End StudentsPage.

(** ** Concrete data used to run the definitions *)

Module Examples.

Local Open Scope string_scope.

(** Byte-wise comparison, the order of the [C] collation. *)
#[export] Instance byte_order : Collation.
Proof.
  refine {| text_leb := String.leb; text_leb_total := String.leb_total |}.
  assert (char_lt : forall a b c,
             Ascii.compare a b = Lt -> Ascii.compare b c = Lt ->
             Ascii.compare a c = Lt).
  { unfold Ascii.compare. intros a b c.
    rewrite !N.compare_lt_iff. apply N.lt_trans. }
  assert (no_gt : forall a b c,
             String.compare a b <> Gt -> String.compare b c <> Gt ->
             String.compare a c <> Gt).
  { induction a as [|x a IH]; intros [|y b] [|z c]; simpl;
      try congruence.
    destruct (Ascii.compare x y) eqn:Exy; try congruence;
      destruct (Ascii.compare y z) eqn:Eyz; try congruence.
    - apply Ascii.compare_eq_iff in Exy, Eyz. subst.
      replace (Ascii.compare z z) with Eq; [apply IH|].
      symmetry. apply N.compare_refl.
    - apply Ascii.compare_eq_iff in Exy. subst. now rewrite Eyz.
    - apply Ascii.compare_eq_iff in Eyz. subst. now rewrite Exy.
    - now rewrite (char_lt _ _ _ Exy Eyz). }
  intros a b c. unfold String.leb.
  specialize (no_gt a b c).
  destruct (String.compare a b), (String.compare b c),
    (String.compare a c); intros; try reflexivity; try discriminate;
    exfalso; apply no_gt; congruence.
Defined.

(** A stand-in for the syntax check: some byte is an at sign. *)
Fixpoint has_at (s : string) : bool :=
  match s with
  | EmptyString => false
  | String c s' => Ascii.eqb c "@" || has_at s'
  end.

#[export] Instance at_sign : EmailSyntax := {| is_email := has_at |}.

Definition ann : Student := mkStudent 1 "S1" "Ann" "Lee" "ann@x.com" None.
Definition bob : Student := mkStudent 2 "S2" "Bob" "Ray" "bob@x.com" None.
Definition lecture1 : Session := mkSession 1 "Lecture 1" 8775 0.
Definition lecture2 : Session := mkSession 2 "Lecture 2" 8782 0.

(** Two students, two sessions; both students recorded at the first
    lecture, Ann at the second. *)
Definition classroom : Store :=
  mkStore [ann; bob] 3 [lecture1; lecture2] 3
          [ mkAttendanceRecord 1 1 1 present None 10;
            mkAttendanceRecord 2 2 1 absent (Some "sick") 10;
            mkAttendanceRecord 3 1 2 late None 20 ]
          4.

(** A create request that reuses Ann's [studentId]. *)
Definition second_S1 : json :=
  JObject [("studentId", JString "S1"); ("firstName", JString "Zed");
           ("lastName", JString "Zee"); ("email", JString "zed@x.com")].

(** A bulk request whose second record has an unknown status. *)
Definition asleep : json :=
  JObject [("studentId", JNumber 2 1); ("sessionId", JNumber 1 1);
           ("status", JString "asleep")].

Definition bulk_with_asleep : list (string * json) :=
  [("records",
    JArray [JObject [("studentId", JNumber 1 1); ("sessionId", JNumber 1 1);
                     ("status", JString "late")];
            asleep])].

(** The classroom with a record of a student who is not there. *)
Definition with_orphan : Store :=
  mkStore [ann; bob] 3 [lecture1; lecture2] 3
          (mkAttendanceRecord 9 7 1 excused None 10
           :: attendanceRecords classroom)
          10.

(** [n] rows of one session, the first [p] of them present. *)
Definition roll (p n : nat) : Store :=
  mkStore [ann] 2 [lecture1] 2
          (map (fun i => mkAttendanceRecord (Z.of_nat i + 1) 1 1
                           (if (i <? p)%nat then present else absent)
                           None 10)
               (seq 0 n))
          (Z.of_nat n + 1).


Definition cy : InsertStudent :=
  mkInsertStudent "S3" "Cy" "Orr" "cy@x.com" None.

Definition cy_row : Student := mkStudent 3 "S3" "Cy" "Orr" "cy@x.com" None.


(** An email without an at sign. *)
Definition no_at : list (string * json) :=
  [("studentId", JString "S3"); ("firstName", JString "Cy");
   ("lastName", JString "Orr"); ("email", JString "nobody")].

(** The edit form of Ann with a new first name. *)
Definition anne_form : json :=
  JObject [("studentId", JString "S1"); ("firstName", JString "Anne");
           ("lastName", JString "Lee"); ("email", JString "ann@x.com");
           ("photoUrl", JString "")].

Definition anne : PartialInsertStudent :=
  mkPartialStudent None (Some "Anne") None None None.


Definition ann_late : InsertAttendanceRecord :=
  mkInsertAttendanceRecord 1 1 late None.

(** A record of a student who is not there. *)
Definition stranger : InsertAttendanceRecord :=
  mkInsertAttendanceRecord 7 1 present None.

(** A batch that names both lectures. *)
Definition both_lectures : list InsertAttendanceRecord :=
  [ann_late; mkInsertAttendanceRecord 2 2 excused (Some (Some "note"))].

(** The attendance page after the first lecture was chosen with the
    roster loaded. *)
Definition first_lecture_page : AttendancePage.State :=
  AttendancePage.handleSessionCreated (Some [ann; bob]) lecture1
                                      AttendancePage.initial.

(** The first lecture chosen before the roster has loaded. *)
Definition early_page : AttendancePage.State :=
  AttendancePage.handleSessionCreated None lecture1 AttendancePage.initial.

End Examples.

(** * Properties *)

(** ** Vocabulary of the statements *)

(** The columns of an attendance row other than its surrogate id and its
    timestamp. *)
Definition record_fields (r : AttendanceRecord)
  : Z * Z * AttendanceStatus * option string :=
  (record_studentId r, record_sessionId r, status r, notes r).

(** Every column of an attendance row but its surrogate id. *)
Definition fields_but_id (r : AttendanceRecord)
  : Z * Z * AttendanceStatus * option string * timestamp :=
  (record_fields r, recordedAt r).

Definition insert_fields (r : InsertAttendanceRecord)
  : Z * Z * AttendanceStatus * option string :=
  (ins_record_studentId r, ins_record_sessionId r, ins_status r,
   nullable (ins_notes r)).

(** The rows of the table that do not belong to session [sid]. *)
Definition other_sessions (sid : Z) (st : Store) : list AttendanceRecord :=
  filter (fun r => negb (record_sessionId r =? sid)) (attendanceRecords st).

(** [createBulkAttendance] on the batch [first :: rest]: the rows of the
    session of [first] are gone, the batch is stored as new rows after the
    rows that were kept, and those new rows are returned. *)
Definition replaces_session (now : timestamp) (first : InsertAttendanceRecord)
           (rest : list InsertAttendanceRecord) (st : Store) : Prop :=
  exists rows st',
    createBulkAttendance now (first :: rest) st = (Ok rows, st')
    /\ map record_fields rows = map insert_fields (first :: rest)
    /\ Forall (fun row => attendance_seq st <= record_id row
                          /\ recordedAt row = now) rows
    /\ NoDup (map record_id rows)
    /\ attendanceRecords st'
       = other_sessions (ins_record_sessionId first) st ++ rows
    /\ students st' = students st
    /\ sessions st' = sessions st.

(** The store before any call. *)
Definition empty_store : Store := mkStore [] 1 [] 1 [] 1.

(** The calls of the storage layer that write. *)
Inductive Call : Type :=
| CreateStudent (student : InsertStudent)
| UpdateStudent (i : Z) (student : PartialInsertStudent)
| DeleteStudent (i : Z)
| CreateSession (now : timestamp) (session : InsertSession)
| CreateAttendanceRecord (now : timestamp) (record : InsertAttendanceRecord)
| CreateBulkAttendance (now : timestamp)
                       (records : list InsertAttendanceRecord).

Definition run (c : Call) (st : Store) : Store :=
  match c with
  | CreateStudent v => snd (createStudent v st)
  | UpdateStudent i p => snd (updateStudent i p st)
  | DeleteStudent i => snd (deleteStudent i st)
  | CreateSession now v => snd (createSession now v st)
  | CreateAttendanceRecord now r => snd (createAttendanceRecord now r st)
  | CreateBulkAttendance now rs => snd (createBulkAttendance now rs st)
  end.

(** The stores the storage layer can bring about. *)
Inductive reachable : Store -> Prop :=
| reachable_empty : reachable empty_store
| reachable_run (c : Call) (st : Store) :
    reachable st -> reachable (run c st).

(** The constraints of [shared/schema.ts] as a property of the store:
    identity primary keys below their sequences, unique [student_id],
    and attendance records that reference rows that are there. *)
Record constraints_hold (st : Store) : Prop := {
  student_ids : NoDup (map id (students st));
  student_ids_drawn : Forall (fun s => id s < students_seq st) (students st);
  session_ids : NoDup (map session_id (sessions st));
  session_ids_drawn :
    Forall (fun s => session_id s < sessions_seq st) (sessions st);
  record_ids : NoDup (map record_id (attendanceRecords st));
  record_ids_drawn :
    Forall (fun r => record_id r < attendance_seq st) (attendanceRecords st);
  student_id_unique : NoDup (map studentId (students st));
  references_there :
    Forall (fun r => has_student st (record_studentId r) = true
                     /\ has_session st (record_sessionId r) = true)
           (attendanceRecords st)
}.

(** The row of [l] whose key is [k]. *)
Definition row_with_key {B : Type} (pk : B -> Z) (k : Z) (l : list B)
  : option B :=
  find (fun b => k =? pk b) l.

(** The rows the two joins produce for one record. *)
Definition joined_rows (st : Store) (r : AttendanceRecord)
  : list AttendanceRecordWithStudent :=
  match row_with_key id (record_studentId r) (students st),
        row_with_key session_id (record_sessionId r) (sessions st) with
  | Some s, Some se => [mkJoined r s se]
  | _, _ => []
  end.

(** Primary keys identify rows. *)
Definition primary_keys (st : Store) : Prop :=
  NoDup (map id (students st)) /\ NoDup (map session_id (sessions st)).

(** The student and the session a record references are both there. *)
Definition references_both (st : Store) (r : AttendanceRecord) : bool :=
  has_student st (record_studentId r) && has_session st (record_sessionId r).

(** A joined row carries the student and the session of the store that
    its record references. *)
Definition joined_with_its_rows (st : Store) (j : AttendanceRecordWithStudent)
  : Prop :=
  In (joined_student j) (students st)
  /\ id (joined_student j) = record_studentId (joined_record j)
  /\ In (joined_session j) (sessions st)
  /\ session_id (joined_session j) = record_sessionId (joined_record j).

(** [a] may come before [b]: a later session date, or the same date and a
    last name that is not after. *)
Definition date_desc_lastName_asc {collation : Collation}
           (a b : AttendanceRecordWithStudent) : Prop :=
  session_date (joined_session b) < session_date (joined_session a)
  \/ (session_date (joined_session a) = session_date (joined_session b)
      /\ text_leb (lastName (joined_student a)) (lastName (joined_student b))
         = true).

(** The attendance records whose session is dated [today]. *)
Definition recorded_today (today : date) (st : Store) : list AttendanceRecord :=
  filter (fun r => existsb (fun se => (session_id se =? record_sessionId r)
                                      && (session_date se =? today))
                           (sessions st))
         (attendanceRecords st).

(** [t[s]] *)
Definition today_key (s : AttendanceStatus) (t : TodayAttendance) : Z :=
  match s with
  | present => today_present t
  | absent => today_absent t
  | late => today_late t
  | excused => today_excused t
  end.

(** [student_id] values identify students ([unique()]). *)
Definition unique_student_ids (st : Store) : Prop :=
  NoDup (map studentId (students st)).

(** A status in the 4xx range. *)
Definition client_error (r : Response) : bool :=
  (400 <=? status_code r) && (status_code r <? 500).

(** A record of a bulk request that lacks [studentId] or [sessionId], or
    whose [status] is not one of the four values. *)
Definition invalid_record (x : json) : Prop :=
  match x with
  | JObject o =>
      get "studentId" o = None
      \/ get "sessionId" o = None
      \/ (forall s, get "status" o = Some (JString s) ->
                    status_of_string s = None)
  | _ => True
  end.

(** [num/den] rounded to the nearest integer, halves upwards. *)
Definition round_half_up (num den : Z) : Z := (2 * num + den) / (2 * den).

(** [num/den] is half-way between two integers. *)
Definition halfway (num den : Z) : bool :=
  (2 * num + den) mod (2 * den) =? 0.

(** Where the fraction [X/Y] lies from the integer [shr_m mrs], as the
    round bit and the sticky bit of [mrs] tell: on it, below its half, on
    its half or above its half. *)
Definition located (mrs : shr_record) (X Y : Z) : Prop :=
  match shr_r mrs, shr_s mrs with
  | false, false => X = shr_m mrs * Y
  | false, true => 2 * shr_m mrs * Y < 2 * X < (2 * shr_m mrs + 1) * Y
  | true, false => 2 * X = (2 * shr_m mrs + 1) * Y
  | true, true => (2 * shr_m mrs + 1) * Y < 2 * X < (2 * shr_m mrs + 2) * Y
  end.

(** The mantissa of the number 100, whose exponent is -46. *)
Definition hundred_mantissa : positive := 7036874417766400.

(** [a] may come before [b] in the list of students: a last name that is
    not after, and for last names that compare equal a first name that is
    not after. *)
Definition lastName_firstName_asc {collation : Collation} (a b : Student)
  : Prop :=
  text_leb (lastName a) (lastName b) = true
  /\ (text_leb (lastName b) (lastName a) = true ->
      text_leb (firstName a) (firstName b) = true).

(** [a] may come before [b] in a list of sessions: its date is not
    earlier. *)
Definition date_desc (a b : Session) : Prop :=
  session_date b <= session_date a.

(** An entry of the attendance state that has a status. *)
Definition marked (e : AttendancePage.Entry) : Prop :=
  AttendancePage.entry_status e <> None.

(** What an entry of the attendance state says of a student at a
    session, as saving sends it. *)
Definition entry_columns (session : Session) (kv : Z * AttendancePage.Entry)
  : Z * Z * option AttendanceStatus * option string :=
  (fst kv, session_id session, AttendancePage.entry_status (snd kv),
   AttendancePage.notes_or_null (AttendancePage.entry_notes (snd kv))).

(** The same columns of a stored row. *)
Definition row_columns (r : AttendanceRecord)
  : Z * Z * option AttendanceStatus * option string :=
  (record_studentId r, record_sessionId r, Some (status r), notes r).

(** The record the validation reads from an entry that has a status. *)
Definition validated_record (session : Session)
           (kv : Z * AttendancePage.Entry) : InsertAttendanceRecord :=
  mkInsertAttendanceRecord
    (fst kv) (session_id session)
    match AttendancePage.entry_status (snd kv) with
    | Some s => s
    | None => present
    end
    (Some (AttendancePage.notes_or_null
             (AttendancePage.entry_notes (snd kv)))).

(** An event of the page while [roster] is the data of the students
    query: a click or a note in the row of one of its students, the
    button that marks all present, or the choice of a session. *)
Definition on_roster (roster : list Student) (e : AttendancePage.Event)
  : Prop :=
  match e with
  | AttendancePage.StatusChange k _ => In k (map id roster)
  | AttendancePage.NotesChange k _ => In k (map id roster)
  | AttendancePage.MarkAllPresent students => students = Some roster
  | AttendancePage.SessionCreated students _ => students = Some roster
  end.

(** ** Lists, filters and ORDER BY *)

Lemma filter_filter_same {A : Type} (f : A -> bool) (l : list A) :
  filter f (filter f l) = filter f l.
Proof.
  induction l as [|x l IH]; simpl; [reflexivity|].
  destruct (f x) eqn:E; simpl; [rewrite E|]; congruence.
Qed.

Lemma filter_none {A : Type} (f g : A -> bool) (l : list A) :
  (forall x, f x = true -> g x = false) ->
  filter f (filter g l) = [].
Proof.
  intros H. induction l as [|x l IH]; simpl; [reflexivity|].
  destruct (g x) eqn:E; simpl; [|exact IH].
  destruct (f x) eqn:F; [|exact IH].
  apply H in F. congruence.
Qed.

(** ** createBulkAttendance *)

Lemma attendance_rows_fields (i : Z) (now : timestamp)
      (rs : list InsertAttendanceRecord) :
  map record_fields (attendance_rows i now rs) = map insert_fields rs.
Proof.
  revert i. induction rs as [|r rs IH]; intros i; simpl; [reflexivity|].
  now rewrite IH.
Qed.

Lemma attendance_rows_ids (i : Z) (now : timestamp)
      (rs : list InsertAttendanceRecord) :
  Forall (fun row => i <= record_id row < i + Z.of_nat (length rs)
                     /\ recordedAt row = now)
         (attendance_rows i now rs).
Proof.
  revert i. induction rs as [|r rs IH]; intros i; simpl length; simpl attendance_rows.
  - constructor.
  - constructor.
    + simpl. lia.
    + eapply Forall_impl; [|apply (IH (i + 1))].
      simpl. intros row [H1 H2]. split; [lia|exact H2].
Qed.

Lemma attendance_rows_NoDup (i : Z) (now : timestamp)
      (rs : list InsertAttendanceRecord) :
  NoDup (map record_id (attendance_rows i now rs)).
Proof.
  revert i. induction rs as [|r rs IH]; intros i; simpl.
  - constructor.
  - constructor; [|apply IH].
    intros Hin. apply in_map_iff in Hin. destruct Hin as [row [Hid Hrow]].
    pose proof (attendance_rows_ids (i + 1) now rs) as Hall.
    rewrite Forall_forall in Hall. apply Hall in Hrow. lia.
Qed.

Lemma references_ok_delete (sid : Z) (st : Store)
      (rs : list InsertAttendanceRecord) :
  forallb (references_ok (delete_attendance_where_sessionId sid st)) rs
  = forallb (references_ok st) rs.
Proof. reflexivity. Qed.

Lemma createBulkAttendance_accepted (now : timestamp)
      (first : InsertAttendanceRecord) (rest : list InsertAttendanceRecord)
      (st : Store) :
  forallb (references_ok st) (first :: rest) = true ->
  createBulkAttendance now (first :: rest) st
  = (Ok (attendance_rows (attendance_seq st) now (first :: rest)),
     mkStore (students st) (students_seq st) (sessions st) (sessions_seq st)
             (other_sessions (ins_record_sessionId first) st
              ++ attendance_rows (attendance_seq st) now (first :: rest))
             (attendance_seq st + Z.of_nat (length (first :: rest)))).
Proof.
  intros Hok. unfold createBulkAttendance, insert_attendance.
  rewrite references_ok_delete, Hok. reflexivity.
Qed.

Lemma createBulkAttendance_refused (now : timestamp)
      (first : InsertAttendanceRecord) (rest : list InsertAttendanceRecord)
      (st : Store) :
  forallb (references_ok st) (first :: rest) = false ->
  createBulkAttendance now (first :: rest) st
  = (Err ForeignKeyViolation,
     mkStore (students st) (students_seq st) (sessions st) (sessions_seq st)
             (other_sessions (ins_record_sessionId first) st)
             (attendance_seq st + Z.of_nat (length (first :: rest)))).
Proof.
  intros Hok. unfold createBulkAttendance, insert_attendance.
  rewrite references_ok_delete, Hok. reflexivity.
Qed.

(** C1, as amended.  For every non-empty batch whose records all reference
    a student and a session of the store, [createBulkAttendance] takes the
    target session from the first record, deletes every attendance row of
    that session, stores the whole batch as new rows and returns them. *)
Theorem createBulkAttendance_replaces (now : timestamp)
        (first : InsertAttendanceRecord) (rest : list InsertAttendanceRecord)
        (st : Store) :
  forallb (references_ok st) (first :: rest) = true ->
  replaces_session now first rest st.
Proof.
  intros Hok. unfold replaces_session.
  rewrite (createBulkAttendance_accepted _ _ _ _ Hok).
  eexists; eexists; split; [reflexivity|].
  split; [apply attendance_rows_fields|].
  split.
  { eapply Forall_impl; [|apply attendance_rows_ids].
    simpl. intros row [H1 H2]. split; [lia|exact H2]. }
  split; [apply attendance_rows_NoDup|].
  simpl. auto.
Qed.

Lemma createBulkAttendance_replaces_witness :
  forallb (references_ok Examples.classroom)
          [mkInsertAttendanceRecord 1 1 late None;
           mkInsertAttendanceRecord 2 1 present (Some (Some "on time"%string))]
  = true
  /\ replaces_session 30 (mkInsertAttendanceRecord 1 1 late None)
                      [mkInsertAttendanceRecord 2 1 present
                                                (Some (Some "on time"%string))]
                      Examples.classroom.
Proof.
  split; [reflexivity|].
  apply createBulkAttendance_replaces. reflexivity.
Defined.

(** C1 as stated fails on a batch that names a student the store does not
    have: the rows of the session are deleted, the insert is refused and
    nothing is returned. *)
Lemma createBulkAttendance_unknown_student :
  ~ replaces_session 30 (mkInsertAttendanceRecord 99 1 present None) []
                     Examples.classroom.
Proof.
  intros [rows [st' [Hcall _]]].
  vm_compute in Hcall. discriminate Hcall.
Qed.

Lemma createBulkAttendance_keeps_parents (now : timestamp)
      (records : list InsertAttendanceRecord) (st : Store) :
  students (snd (createBulkAttendance now records st)) = students st
  /\ sessions (snd (createBulkAttendance now records st)) = sessions st.
Proof.
  destruct records as [|first rest]; [split; reflexivity|].
  destruct (forallb (references_ok st) (first :: rest)) eqn:Hok.
  - rewrite (createBulkAttendance_accepted _ _ _ _ Hok). split; reflexivity.
  - rewrite (createBulkAttendance_refused _ _ _ _ Hok). split; reflexivity.
Qed.

Lemma references_ok_parents (a b : Store) (rs : list InsertAttendanceRecord) :
  students a = students b -> sessions a = sessions b ->
  forallb (references_ok a) rs = forallb (references_ok b) rs.
Proof.
  intros Hs Hse. unfold references_ok, has_student, has_session.
  now rewrite Hs, Hse.
Qed.

Lemma map_fields_filter_session (sid : Z) (rows : list AttendanceRecord) :
  map record_fields (filter (fun r => record_sessionId r =? sid) rows)
  = filter (fun f => snd (fst (fst f)) =? sid) (map record_fields rows).
Proof.
  induction rows as [|r rows IH]; simpl; [reflexivity|].
  destruct (record_sessionId r =? sid); simpl; now rewrite IH.
Qed.

(** The rows of the target session after one call, without their ids and
    timestamps: the records of the batch for that session when the insert
    is accepted, none when it is refused. *)
Lemma createBulkAttendance_target_rows (now : timestamp)
      (first : InsertAttendanceRecord) (rest : list InsertAttendanceRecord)
      (st : Store) :
  map record_fields
      (getAttendanceBySession
         (ins_record_sessionId first)
         (snd (createBulkAttendance now (first :: rest) st)))
  = if forallb (references_ok st) (first :: rest)
    then filter (fun f => snd (fst (fst f)) =? ins_record_sessionId first)
                (map insert_fields (first :: rest))
    else [].
Proof.
  set (sid := ins_record_sessionId first).
  assert (Hnone : filter (fun r => record_sessionId r =? sid)
                         (other_sessions sid st) = []).
  { apply filter_none. intros x Hx. now rewrite Hx. }
  unfold getAttendanceBySession.
  destruct (forallb (references_ok st) (first :: rest)) eqn:Hok.
  - rewrite (createBulkAttendance_accepted _ _ _ _ Hok).
    cbn [snd attendanceRecords]. fold sid.
    rewrite filter_app, Hnone. cbn [app].
    now rewrite map_fields_filter_session, attendance_rows_fields.
  - rewrite (createBulkAttendance_refused _ _ _ _ Hok).
    cbn [snd attendanceRecords]. fold sid. now rewrite Hnone.
Qed.

(** C2, as amended.  Calling [createBulkAttendance] a second time with
    the same records leaves the target session with the same rows as the
    first call, up to the columns the store assigns (surrogate id and
    [recordedAt]), hence as many of them; with no record both calls leave
    the store as it is. *)
Theorem createBulkAttendance_idempotent (now1 now2 : timestamp)
        (records : list InsertAttendanceRecord) (st : Store) :
  let once := snd (createBulkAttendance now1 records st) in
  let twice := snd (createBulkAttendance now2 records once) in
  match records with
  | [] => twice = once
  | first :: _ =>
      let target := ins_record_sessionId first in
      map record_fields (getAttendanceBySession target twice)
      = map record_fields (getAttendanceBySession target once)
      /\ length (getAttendanceBySession target twice)
         = length (getAttendanceBySession target once)
  end.
Proof.
  intros once twice. destruct records as [|first rest]; [reflexivity|].
  intros target.
  assert (Hfields :
            map record_fields (getAttendanceBySession target twice)
            = map record_fields (getAttendanceBySession target once)).
  { unfold twice, target. rewrite createBulkAttendance_target_rows.
    unfold once at 2. rewrite createBulkAttendance_target_rows.
    destruct (createBulkAttendance_keeps_parents now1 (first :: rest) st)
      as [Hs Hse].
    now rewrite (references_ok_parents once st _ Hs Hse). }
  split; [exact Hfields|].
  apply (f_equal (@length _)) in Hfields.
  now rewrite !length_map in Hfields.
Qed.

(** C2 as stated fails on [recordedAt]: the rows the second call inserts
    are stamped with the time of the second call. *)
Lemma second_call_restamps :
  let batch := [mkInsertAttendanceRecord 1 1 late None;
                mkInsertAttendanceRecord 2 1 present None] in
  let once := snd (createBulkAttendance 30 batch Examples.classroom) in
  let twice := snd (createBulkAttendance 40 batch once) in
  map fields_but_id (getAttendanceBySession 1 twice)
  <> map fields_but_id (getAttendanceBySession 1 once).
Proof. vm_compute. discriminate. Qed.

(** When the batch is for one session only, the second call leaves the
    whole table as the first did, up to ids and timestamps. *)
Lemma bulk_twice_same_table (now1 now2 : timestamp)
      (first : InsertAttendanceRecord) (rest : list InsertAttendanceRecord)
      (st : Store) :
  Forall (fun r => ins_record_sessionId r = ins_record_sessionId first) rest ->
  let once := snd (createBulkAttendance now1 (first :: rest) st) in
  let twice := snd (createBulkAttendance now2 (first :: rest) once) in
  map record_fields (attendanceRecords twice)
  = map record_fields (attendanceRecords once).
Proof.
  intros Hsame once twice.
  set (sid := ins_record_sessionId first).
  assert (Hrows : forall i now,
             other_sessions sid
               (mkStore (students st) (students_seq st) (sessions st)
                        (sessions_seq st)
                        (other_sessions sid st
                         ++ attendance_rows i now (first :: rest))
                        (attendance_seq st + Z.of_nat (length (first :: rest))))
             = other_sessions sid st).
  { intros i now. unfold other_sessions at 1. cbn [attendanceRecords].
    rewrite filter_app. unfold other_sessions. rewrite filter_filter_same.
    rewrite <- app_nil_r. f_equal.
    assert (Hall : Forall (fun r => ins_record_sessionId r = sid)
                          (first :: rest)) by (constructor; auto).
    clear Hsame. revert i.
    induction Hall as [|r rs Hr Hrs IH]; intros i; simpl; [reflexivity|].
    rewrite Hr, Z.eqb_refl. simpl. apply IH. }
  unfold twice, once.
  destruct (forallb (references_ok st) (first :: rest)) eqn:Hok.
  - rewrite (createBulkAttendance_accepted now1 _ _ _ Hok). cbn [snd].
    rewrite createBulkAttendance_accepted by exact Hok.
    cbn [snd attendanceRecords students sessions students_seq sessions_seq
         attendance_seq].
    fold sid. rewrite Hrows.
    now rewrite !map_app, !attendance_rows_fields.
  - rewrite (createBulkAttendance_refused now1 _ _ _ Hok). cbn [snd].
    rewrite createBulkAttendance_refused by exact Hok.
    cbn [snd attendanceRecords]. fold sid.
    unfold other_sessions at 1. cbn [attendanceRecords].
    unfold other_sessions. now rewrite filter_filter_same.
Qed.

(** C3.  With no record, [createBulkAttendance] returns no record and the
    store it leaves is the store it found. *)
Theorem createBulkAttendance_empty (now : timestamp) (st : Store) :
  createBulkAttendance now [] st = (Ok [], st).
Proof. reflexivity. Qed.

Lemma StronglySorted_impl {A : Type} (R S : A -> A -> Prop) (l : list A) :
  (forall a b, R a b -> S a b) -> StronglySorted R l -> StronglySorted S l.
Proof.
  intros HRS. induction 1 as [|x l Hl IH Hx]; constructor; [exact IH|].
  eapply Forall_impl; [|exact Hx]. apply HRS.
Qed.

(** ** ORDER BY returns the same rows, in order *)

Section OrderByFacts.
Context {A : Type} (leb : A -> A -> bool).
Hypothesis leb_total : forall a b, leb a b = true \/ leb b a = true.
Hypothesis leb_trans :
  forall a b c, leb a b = true -> leb b c = true -> leb a c = true.

Lemma insert_by_perm (x : A) (l : list A) :
  Permutation (insert_by leb x l) (x :: l).
Proof.
  induction l as [|y l IH]; simpl; [reflexivity|].
  destruct (leb x y); [reflexivity|].
  rewrite IH. apply perm_swap.
Qed.

Lemma order_by_perm (l : list A) : Permutation (order_by leb l) l.
Proof.
  induction l as [|x l IH]; simpl; [reflexivity|].
  rewrite insert_by_perm. now constructor.
Qed.

Lemma insert_by_sorted (x : A) (l : list A) :
  StronglySorted (fun a b => leb a b = true) l ->
  StronglySorted (fun a b => leb a b = true) (insert_by leb x l).
Proof.
  induction 1 as [|y l Hl IH Hy]; simpl.
  - constructor; constructor.
  - destruct (leb x y) eqn:Exy.
    + constructor; [constructor; assumption|].
      constructor; [exact Exy|].
      eapply Forall_impl; [|exact Hy]. intros z Hz.
      eapply leb_trans; eassumption.
    + constructor; [exact IH|].
      assert (Hyx : leb y x = true).
      { destruct (leb_total x y) as [H|H]; [congruence|exact H]. }
      rewrite Forall_forall. intros z Hz.
      apply (Permutation_in _ (insert_by_perm x l)) in Hz.
      destruct Hz as [<-|Hz]; [exact Hyx|].
      rewrite Forall_forall in Hy. now apply Hy.
Qed.

Lemma order_by_sorted (l : list A) :
  StronglySorted (fun a b => leb a b = true) (order_by leb l).
Proof.
  induction l as [|x l IH]; simpl; [constructor|].
  now apply insert_by_sorted.
Qed.

End OrderByFacts.

(** ** Joins on a primary key *)

Section JoinFacts.
Context {A B : Type} (fk : A -> Z) (pk : B -> Z).

Lemma filter_no_key (k : Z) (l : list B) :
  ~ In k (map pk l) -> filter (fun b => k =? pk b) l = [].
Proof.
  induction l as [|b l IH]; simpl; intros Hk; [reflexivity|].
  destruct (Z.eqb_spec k (pk b)) as [E|E].
  - exfalso. apply Hk. now left.
  - apply IH. intros H. apply Hk. now right.
Qed.

Lemma filter_primary_key (k : Z) (l : list B) :
  NoDup (map pk l) ->
  filter (fun b => k =? pk b) l
  = match row_with_key pk k l with
    | Some b => [b]
    | None => []
    end.
Proof.
  unfold row_with_key.
  induction l as [|b l IH]; simpl; intros Hnd; [reflexivity|].
  inversion Hnd as [|? ? Hnotin Hnd']; subst.
  destruct (Z.eqb_spec k (pk b)) as [E|E].
  - subst k. now rewrite filter_no_key.
  - now apply IH.
Qed.

Lemma row_with_key_In (k : Z) (l : list B) (b : B) :
  row_with_key pk k l = Some b -> In b l /\ pk b = k.
Proof.
  unfold row_with_key. intros H. apply find_some in H.
  destruct H as [Hin Hk]. apply Z.eqb_eq in Hk. auto.
Qed.

Lemma row_with_key_None (k : Z) (l : list B) :
  row_with_key pk k l = None <-> existsb (fun b => pk b =? k) l = false.
Proof.
  unfold row_with_key. induction l as [|b l IH]; simpl; [tauto|].
  rewrite (Z.eqb_sym (pk b) k).
  destruct (k =? pk b); simpl; [split; discriminate|exact IH].
Qed.

(** Joining on a primary key pairs every row with the one row it
    references, and drops it when there is none. *)
Lemma inner_join_primary_key (l : list A) (r : list B) :
  NoDup (map pk r) ->
  inner_join (fun a b => fk a =? pk b) l r
  = flat_map (fun a => match row_with_key pk (fk a) r with
                       | Some b => [(a, b)]
                       | None => []
                       end) l.
Proof.
  intros Hnd. unfold inner_join. apply flat_map_ext. intros a.
  rewrite (filter_primary_key _ _ Hnd).
  now destruct (row_with_key pk (fk a) r).
Qed.

End JoinFacts.

(** ** getAttendanceRecords *)

Section AttendanceList.
Context {collation : Collation}.

Lemma joined_leb_total (a b : AttendanceRecordWithStudent) :
  joined_leb a b = true \/ joined_leb b a = true.
Proof.
  unfold joined_leb.
  destruct (Z.ltb_spec (session_date (joined_session b))
                       (session_date (joined_session a)));
    [now left|].
  destruct (Z.ltb_spec (session_date (joined_session a))
                       (session_date (joined_session b)));
    [now right|].
  replace (session_date (joined_session b))
    with (session_date (joined_session a)) by lia.
  rewrite Z.eqb_refl. apply text_leb_total.
Qed.

Lemma joined_leb_spec (a b : AttendanceRecordWithStudent) :
  joined_leb a b = true <-> date_desc_lastName_asc a b.
Proof.
  unfold joined_leb, date_desc_lastName_asc.
  destruct (Z.ltb_spec (session_date (joined_session b))
                       (session_date (joined_session a))).
  - split; [now left|reflexivity].
  - destruct (Z.eqb_spec (session_date (joined_session a))
                         (session_date (joined_session b))).
    + split; [now right|]. intros [Hlt|[_ Hle]]; [lia|exact Hle].
    + split; [discriminate|]. intros [Hlt|[Heq _]]; [lia|contradiction].
Qed.

Lemma joined_leb_trans (a b c : AttendanceRecordWithStudent) :
  joined_leb a b = true -> joined_leb b c = true -> joined_leb a c = true.
Proof.
  rewrite !joined_leb_spec. unfold date_desc_lastName_asc.
  intros [Hab|[Hab Lab]] [Hbc|[Hbc Lbc]].
  - left. lia.
  - left. lia.
  - left. lia.
  - right. split; [lia|]. eapply text_leb_trans; eassumption.
Qed.

Lemma getAttendanceRecords_joined (st : Store) :
  primary_keys st ->
  getAttendanceRecords st
  = order_by joined_leb (flat_map (joined_rows st) (attendanceRecords st)).
Proof.
  intros [Hst Hse]. unfold getAttendanceRecords. f_equal.
  rewrite (inner_join_primary_key record_studentId id _ _ Hst).
  rewrite (inner_join_primary_key (fun rs : AttendanceRecord * Student =>
                                     record_sessionId (fst rs))
                                  session_id _ _ Hse).
  induction (attendanceRecords st) as [|r l IH]; [reflexivity|].
  cbn [flat_map]. rewrite flat_map_app, map_app, IH. f_equal.
  unfold joined_rows.
  destruct (row_with_key id (record_studentId r) (students st)) as [s|];
    [|reflexivity].
  cbn [flat_map fst app].
  destruct (row_with_key session_id (record_sessionId r) (sessions st));
    reflexivity.
Qed.

Lemma joined_rows_records (st : Store) (l : list AttendanceRecord) :
  map joined_record (flat_map (joined_rows st) l)
  = filter (references_both st) l.
Proof.
  induction l as [|r l IH]; [reflexivity|].
  cbn [flat_map filter]. rewrite map_app, IH.
  unfold joined_rows, references_both, has_student, has_session.
  destruct (row_with_key id (record_studentId r) (students st)) as [s|] eqn:Es.
  - assert (Hs : existsb (fun s => id s =? record_studentId r) (students st)
                 = true).
    { apply not_false_iff_true. rewrite <- (row_with_key_None id).
      congruence. }
    rewrite Hs.
    destruct (row_with_key session_id (record_sessionId r) (sessions st))
      as [se|] eqn:Ese.
    + assert (Hse : existsb (fun s => session_id s =? record_sessionId r)
                            (sessions st) = true).
      { apply not_false_iff_true. rewrite <- (row_with_key_None session_id).
        congruence. }
      now rewrite Hse.
    + apply (row_with_key_None session_id) in Ese. now rewrite Ese.
  - apply (row_with_key_None id) in Es. now rewrite Es.
Qed.

Lemma joined_rows_well (st : Store) (l : list AttendanceRecord) :
  Forall (joined_with_its_rows st) (flat_map (joined_rows st) l).
Proof.
  rewrite Forall_forall. intros j Hj. apply in_flat_map in Hj.
  destruct Hj as [r [_ Hj]]. unfold joined_rows in Hj.
  destruct (row_with_key id (record_studentId r) (students st)) as [s|] eqn:Es;
    [|destruct Hj].
  destruct (row_with_key session_id (record_sessionId r) (sessions st))
    as [se|] eqn:Ese; [|destruct Hj].
  destruct Hj as [<-|[]].
  apply row_with_key_In in Es, Ese. unfold joined_with_its_rows. simpl.
  tauto.
Qed.

(** C6.  When primary keys identify rows, [getAttendanceRecords] returns
    the attendance records whose student and session both exist, each one
    once and with that student and that session, by session date
    descending and then last name ascending; a record whose student or
    session is missing is left out. *)
Theorem getAttendanceRecords_inner_join_ordered (st : Store) :
  primary_keys st ->
  Permutation (map joined_record (getAttendanceRecords st))
              (filter (references_both st) (attendanceRecords st))
  /\ Forall (joined_with_its_rows st) (getAttendanceRecords st)
  /\ StronglySorted date_desc_lastName_asc (getAttendanceRecords st).
Proof.
  intros Hpk. rewrite (getAttendanceRecords_joined st Hpk).
  pose proof (order_by_perm joined_leb
                (flat_map (joined_rows st) (attendanceRecords st))) as Hperm.
  split; [|split].
  - rewrite <- joined_rows_records. now apply Permutation_map.
  - rewrite Forall_forall. intros j Hj.
    apply (Permutation_in _ Hperm) in Hj.
    pose proof (joined_rows_well st (attendanceRecords st)) as Hall.
    rewrite Forall_forall in Hall. now apply Hall.
  - eapply StronglySorted_impl;
      [|apply (order_by_sorted joined_leb joined_leb_total joined_leb_trans)].
    intros a b. apply joined_leb_spec.
Qed.

End AttendanceList.

(** ** deleteStudent *)

Lemma filter_split_perm {Row : Type} (f : Row -> bool) :
  forall l : list Row,
    Permutation l (filter f l ++ filter (fun x => negb (f x)) l).
Proof.
  induction l as [|x l IH]; simpl; [reflexivity|].
  destruct (f x); simpl.
  - now constructor.
  - now apply Permutation_cons_app.
Qed.

Lemma Permutation_filter {Row : Type} (keep : Row -> bool) :
  forall rows rows' : list Row,
    Permutation rows rows' ->
    Permutation (filter keep rows) (filter keep rows').
Proof.
  intros rows rows'. set (f := keep).
  induction 1 as [|x l l' H IH|x y l|l l' l'' H1 IH1 H2 IH2]; simpl.
  - reflexivity.
  - destruct (f x); [now constructor|exact IH].
  - destruct (f x), (f y); try reflexivity. apply perm_swap.
  - now transitivity (filter f l').
Qed.

Lemma NoDup_key_inj {A : Type} (key : A -> Z) (l : list A) (a b : A) :
  NoDup (map key l) -> In a l -> In b l -> key a = key b -> a = b.
Proof.
  induction l as [|x l IH]; simpl; intros Hnd Ha Hb Hk; [destruct Ha|].
  inversion Hnd as [|? ? Hnotin Hnd']; subst.
  destruct Ha as [->|Ha], Hb as [->|Hb].
  - reflexivity.
  - exfalso. apply Hnotin. rewrite Hk. now apply in_map.
  - exfalso. apply Hnotin. rewrite <- Hk. now apply in_map.
  - now apply IH.
Qed.

Lemma filter_comm {A : Type} (f g : A -> bool) (l : list A) :
  filter f (filter g l) = filter g (filter f l).
Proof.
  induction l as [|x l IH]; [reflexivity|].
  cbn [filter]. destruct (f x) eqn:F, (g x) eqn:G; cbn [filter];
    rewrite ?F, ?G, IH; reflexivity.
Qed.

Lemma inner_join_filter_l {A B : Type} (on : A -> B -> bool) (p : A -> bool)
      (l : list A) (r : list B) :
  inner_join on (filter p l) r
  = filter (fun x => p (fst x)) (inner_join on l r).
Proof.
  unfold inner_join. induction l as [|a l IH]; [reflexivity|].
  cbn [filter flat_map]. rewrite filter_app, <- IH.
  rewrite filter_map_swap. cbn [fst].
  destruct (p a).
  - cbn [flat_map]. now rewrite filter_true.
  - now rewrite filter_false.
Qed.

Lemma inner_join_filter_r {A B : Type} (on : A -> B -> bool) (q : B -> bool)
      (l : list A) (r : list B) :
  inner_join on l (filter q r)
  = filter (fun x => q (snd x)) (inner_join on l r).
Proof.
  unfold inner_join. induction l as [|a l IH]; [reflexivity|].
  cbn [flat_map]. rewrite filter_app, <- IH. f_equal.
  rewrite filter_map_swap. cbn [snd]. f_equal. apply filter_comm.
Qed.

Lemma inner_join_on {A B : Type} (on : A -> B -> bool)
      (l : list A) (r : list B) (x : A * B) :
  In x (inner_join on l r) -> on (fst x) (snd x) = true.
Proof.
  unfold inner_join. rewrite in_flat_map. intros [a [_ Hx]].
  apply in_map_iff in Hx. destruct Hx as [b [<- Hb]].
  apply filter_In in Hb. apply Hb.
Qed.

(** The rows the cascade removes are those that reference [i], once a
    student with that id is deleted. *)
Lemma cascade_rows (i k : Z) (l : list Student) :
  existsb (fun s => id s =? k) (filter (fun s => id s =? i) l)
  = existsb (fun s => id s =? i) l && (k =? i).
Proof.
  induction l as [|s l IH]; [reflexivity|].
  cbn [filter existsb].
  destruct (Z.eqb_spec (id s) i) as [E|E]; cbn [existsb orb andb].
  - rewrite IH, E, (Z.eqb_sym i k).
    destruct (k =? i); [reflexivity|].
    now rewrite andb_false_r.
  - exact IH.
Qed.

Lemma deleteStudent_existing (st : Store) (s : Student) :
  In s (students st) ->
  deleteStudent (id s) st
  = (true,
     mkStore (filter (fun x => negb (id x =? id s)) (students st))
             (students_seq st) (sessions st) (sessions_seq st)
             (filter (fun r => negb (record_studentId r =? id s))
                     (attendanceRecords st))
             (attendance_seq st)).
Proof.
  intros Hin. unfold deleteStudent, delete_students_where_id.
  assert (Hex : existsb (fun x => id x =? id s) (students st) = true).
  { apply existsb_exists. exists s. split; [exact Hin|apply Z.eqb_refl]. }
  f_equal.
  - assert (Hd : In s (filter (fun x => id x =? id s) (students st))).
    { apply filter_In. split; [exact Hin|apply Z.eqb_refl]. }
    destruct (filter (fun x => id x =? id s) (students st));
      [destruct Hd|reflexivity].
  - f_equal. apply filter_ext. intros r.
    now rewrite cascade_rows, Hex.
Qed.


Section DeleteStudent.
Context {collation : Collation}.

(** What [getAttendanceRecords] sorts, before it sorts it. *)
Lemma getAttendanceRecords_after_delete (st : Store) (i : Z) :
  let st' :=
    mkStore (filter (fun x => negb (id x =? i)) (students st))
            (students_seq st) (sessions st) (sessions_seq st)
            (filter (fun r => negb (record_studentId r =? i))
                    (attendanceRecords st))
            (attendance_seq st) in
  Permutation
    (getAttendanceRecords st')
    (filter (fun j => negb (record_studentId (joined_record j) =? i))
            (getAttendanceRecords st)).
Proof.
  intros st'. unfold getAttendanceRecords.
  rewrite order_by_perm.
  rewrite <- (Permutation_filter _ _ _ (Permutation_sym (order_by_perm _ _))).
  unfold st'. cbn [students sessions attendanceRecords].
  rewrite inner_join_filter_l, inner_join_filter_r.
  rewrite (filter_ext_in
             (fun x : AttendanceRecord * Student => negb (id (snd x) =? i))
             (fun x => negb (record_studentId (fst x) =? i))).
  2:{ intros x Hx. apply inner_join_on in Hx. apply Z.eqb_eq in Hx.
      now rewrite Hx. }
  rewrite filter_filter_same.
  rewrite inner_join_filter_l, filter_map_swap.
  reflexivity.
Qed.

(** C7.  Deleting an existing student who has [n] attendance records
    returns true and removes that student and those [n] records; the other
    students, the other records and every session stay, and
    [getAttendanceRecords] afterwards lists what it listed before without
    the records of that student. *)
Theorem deleteStudent_cascades (st : Store) (s : Student) (n : nat) :
  primary_keys st ->
  In s (students st) ->
  length (filter (fun r => record_studentId r =? id s) (attendanceRecords st))
  = n ->
  exists st',
    deleteStudent (id s) st = (true, st')
    /\ Permutation (students st) (s :: students st')
    /\ students st' = filter (fun x => negb (id x =? id s)) (students st)
    /\ sessions st' = sessions st
    /\ attendanceRecords st'
       = filter (fun r => negb (record_studentId r =? id s))
                (attendanceRecords st)
    /\ (length (attendanceRecords st')
        = length (attendanceRecords st) - n)%nat
    /\ Permutation
         (getAttendanceRecords st')
         (filter (fun j => negb (record_studentId (joined_record j) =? id s))
                 (getAttendanceRecords st)).
Proof.
  intros [Hpk _] Hin Hn.
  rewrite (deleteStudent_existing st s Hin).
  eexists. split; [reflexivity|]. cbn [students sessions attendanceRecords].
  split.
  { rewrite (filter_split_perm (fun x => id x =? id s) (students st)) at 1.
    assert (Hone : filter (fun x => id x =? id s) (students st) = [s]).
    { rewrite (filter_ext _ (fun x => id s =? id x))
        by (intros; apply Z.eqb_sym).
      rewrite (filter_primary_key id _ _ Hpk).
      destruct (row_with_key id (id s) (students st)) as [b|] eqn:Eb.
      - apply row_with_key_In in Eb. destruct Eb as [Hb Hk].
        now rewrite (NoDup_key_inj id _ b s Hpk Hb Hin Hk).
      - apply (row_with_key_None id) in Eb.
        apply not_true_iff_false in Eb. exfalso. apply Eb.
        apply existsb_exists. exists s. split; [exact Hin|apply Z.eqb_refl]. }
    now rewrite Hone. }
  split; [reflexivity|]. split; [reflexivity|]. split; [reflexivity|].
  split.
  { pose proof (filter_length (fun r => record_studentId r =? id s)
                              (attendanceRecords st)) as Hlen.
    rewrite Hn in Hlen. lia. }
  apply getAttendanceRecords_after_delete.
Qed.

End DeleteStudent.

(** ** getDashboardStats: today's attendance *)

Lemma existsb_primary_key {B : Type} (pk : B -> Z) (P : B -> bool) (k : Z)
      (l : list B) :
  NoDup (map pk l) ->
  existsb (fun b => (pk b =? k) && P b) l
  = match row_with_key pk k l with
    | Some b => P b
    | None => false
    end.
Proof.
  unfold row_with_key.
  induction l as [|b l IH]; simpl; intros Hnd; [reflexivity|].
  inversion Hnd as [|? ? Hnotin Hnd']; subst.
  rewrite (Z.eqb_sym k (pk b)).
  destruct (Z.eqb_spec (pk b) k) as [E|E]; cbn [andb orb].
  - subst k. replace (existsb _ l) with false; [apply orb_false_r|].
    symmetry. apply not_true_iff_false. intros H.
    apply existsb_exists in H. destruct H as [x [Hx Hk]].
    apply andb_true_iff in Hk. destruct Hk as [Hk _]. apply Z.eqb_eq in Hk.
    apply Hnotin. rewrite <- Hk. now apply in_map.
  - now apply IH.
Qed.

Lemma todays_records (today : date) (st : Store) :
  NoDup (map session_id (sessions st)) ->
  map fst (filter (fun x : AttendanceRecord * Session =>
                     session_date (snd x) =? today)
                  (inner_join (fun r se => record_sessionId r =? session_id se)
                              (attendanceRecords st) (sessions st)))
  = recorded_today today st.
Proof.
  intros Hnd. unfold recorded_today.
  rewrite (inner_join_primary_key record_sessionId session_id _ _ Hnd).
  induction (attendanceRecords st) as [|r l IH]; [reflexivity|].
  cbn [flat_map filter]. rewrite filter_app, map_app, IH.
  rewrite (existsb_primary_key session_id _ _ _ Hnd).
  destruct (row_with_key session_id (record_sessionId r) (sessions st))
    as [se|]; [|reflexivity].
  cbn [filter snd]. now destruct (session_date se =? today).
Qed.

Lemma set_today_key (s s' : AttendanceStatus) (c : Z) (t : TodayAttendance) :
  today_key s (set_today t s' c)
  = if status_eqb s s' then c else today_key s t.
Proof. destruct s, s'; reflexivity. Qed.

Lemma status_eqb_eq (a b : AttendanceStatus) :
  status_eqb a b = true <-> a = b.
Proof. destruct a, b; simpl; split; congruence. Qed.

Lemma fold_today (s : AttendanceStatus) (c : AttendanceStatus -> Z)
      (ds : list AttendanceStatus) (t : TodayAttendance) :
  today_key s
    (fold_left (fun t record =>
                  if in_todayAttendance (fst record)
                  then set_today t (fst record) (snd record)
                  else t)
               (map (fun d => (d, c d)) ds) t)
  = if existsb (status_eqb s) ds then c s else today_key s t.
Proof.
  revert t. induction ds as [|d ds IH]; intros t; [reflexivity|].
  cbn [map fold_left fst snd existsb]. rewrite IH.
  replace (in_todayAttendance d) with true by (now destruct d).
  rewrite set_today_key.
  destruct (existsb (status_eqb s) ds); [now rewrite orb_true_r|].
  rewrite orb_false_r.
  destruct (status_eqb s d) eqn:E; [|reflexivity].
  apply status_eqb_eq in E. now subst.
Qed.

Lemma existsb_without (s x : AttendanceStatus) (ds : list AttendanceStatus) :
  status_eqb s x = false ->
  existsb (status_eqb s)
          (filter (fun s' => negb (status_eqb x s')) ds)
  = existsb (status_eqb s) ds.
Proof.
  intros E. induction ds as [|y ds IH]; [reflexivity|].
  cbn [filter existsb].
  destruct (status_eqb x y) eqn:F; cbn [negb existsb]; rewrite IH.
  - apply status_eqb_eq in F. subst y. now rewrite E.
  - reflexivity.
Qed.

Lemma distinct_occurs (s : AttendanceStatus) (l : list AttendanceStatus) :
  existsb (status_eqb s) (distinct l) = existsb (status_eqb s) l.
Proof.
  induction l as [|x l IH]; [reflexivity|].
  cbn [distinct existsb]. rewrite <- IH.
  destruct (status_eqb s x) eqn:E; [reflexivity|]. cbn [orb].
  now apply existsb_without.
Qed.

Lemma count_status_absent (s : AttendanceStatus) (l : list AttendanceStatus) :
  existsb (status_eqb s) l = false -> count_status s l = 0.
Proof.
  unfold count_status. induction l as [|x l IH]; [reflexivity|].
  cbn [existsb filter]. intros H. apply orb_false_iff in H.
  destruct H as [H1 H2]. rewrite H1. now apply IH.
Qed.

Lemma count_status_total (l : list AttendanceStatus) :
  count_status present l + count_status absent l
  + count_status late l + count_status excused l
  = Z.of_nat (length l).
Proof.
  unfold count_status. induction l as [|x l IH]; [reflexivity|].
  destruct x; cbn [filter status_eqb length]; rewrite ?Nat2Z.inj_succ; lia.
Qed.

(** Every key of [todayAttendance] holds the number of today's records
    with that status. *)
Lemma todayAttendance_key (s : AttendanceStatus) (today : date) (st : Store) :
  NoDup (map session_id (sessions st)) ->
  today_key s (todayAttendance (getDashboardStats today st))
  = count_status s (map status (recorded_today today st)).
Proof.
  intros Hnd. unfold getDashboardStats. cbn [todayAttendance].
  unfold todayRecords, group_by_status.
  rewrite fold_today, distinct_occurs.
  rewrite <- (todays_records today st Hnd), map_map.
  set (l := map (fun x : AttendanceRecord * Session => status (fst x)) _).
  destruct (existsb (status_eqb s) l) eqn:E; [reflexivity|].
  rewrite (count_status_absent _ _ E). now destruct s.
Qed.

(** C5.  When session ids identify sessions, [todayAttendance] has its
    four keys, each the number of attendance records of that status whose
    session is dated today (0 when there is none), and the four add up to
    the number of attendance records whose session is dated today. *)
Theorem todayAttendance_counts (today : date) (st : Store) :
  NoDup (map session_id (sessions st)) ->
  let t := todayAttendance (getDashboardStats today st) in
  let statuses := map status (recorded_today today st) in
  today_present t = count_status present statuses
  /\ today_absent t = count_status absent statuses
  /\ today_late t = count_status late statuses
  /\ today_excused t = count_status excused statuses
  /\ today_present t + today_absent t + today_late t + today_excused t
     = Z.of_nat (length (recorded_today today st)).
Proof.
  intros Hnd t statuses.
  pose proof (todayAttendance_key present today st Hnd) as Hp.
  pose proof (todayAttendance_key absent today st Hnd) as Ha.
  pose proof (todayAttendance_key late today st Hnd) as Hl.
  pose proof (todayAttendance_key excused today st Hnd) as He.
  cbn [today_key] in Hp, Ha, Hl, He. fold t statuses in Hp, Ha, Hl, He.
  repeat split; try assumption.
  rewrite Hp, Ha, Hl, He, count_status_total.
  unfold statuses. now rewrite length_map.
Qed.

(** ** POST /api/attendance/bulk *)

Lemma z_items_rejects {A : Type} (p : schema A) (i : nat) (items : list json)
      (x : json) (e : ZodError) :
  In x items -> p (Some x) = Err e ->
  exists e', z_items p i items = Err e'.
Proof.
  revert i. induction items as [|y items IH]; intros i Hin Hx; [destruct Hin|].
  cbn [z_items]. destruct Hin as [->|Hin].
  - rewrite Hx. cbn [under]. eexists. reflexivity.
  - destruct (IH (S i) Hin Hx) as [e' He']. rewrite He'.
    destruct (under (Index i) (p (Some y))); eexists; reflexivity.
Qed.

Lemma under_ok {A : Type} (k : PathElem) (r : parsed A) (a : A) :
  under k r = Ok a -> r = Ok a.
Proof. destruct r; simpl; congruence. Qed.

(** What an accepted record was read from. *)
Lemma createAttendanceSchema_accepts (o : list (string * json))
      (r : InsertAttendanceRecord) :
  createAttendanceSchema (Some (JObject o)) = Ok r ->
  z_int (get "studentId" o) = Ok (ins_record_studentId r)
  /\ z_int (get "sessionId" o) = Ok (ins_record_sessionId r)
  /\ z_status (get "status" o) = Ok (ins_status r)
  /\ z_optional (z_nullable z_string) (get "notes" o) = Ok (ins_notes r).
Proof.
  cbn [createAttendanceSchema]. unfold field.
  destruct (under (Key "studentId") _) as [a|] eqn:Ea;
    destruct (under (Key "sessionId") _) as [b|] eqn:Eb;
    destruct (under (Key "status") _) as [c|] eqn:Ec;
    destruct (under (Key "notes") _) as [d|] eqn:Ed;
    try discriminate.
  intros H. injection H as <-. cbn.
  apply under_ok in Ea, Eb, Ec, Ed. auto.
Qed.

Lemma createAttendanceSchema_rejects (x : json) :
  invalid_record x -> exists e, createAttendanceSchema (Some x) = Err e.
Proof.
  destruct x as [| | | | |o]; try (intros _; eexists; reflexivity).
  cbn [invalid_record]. intros Hbad.
  destruct (createAttendanceSchema (Some (JObject o))) as [r|e] eqn:E;
    [|eexists; reflexivity].
  exfalso. apply createAttendanceSchema_accepts in E.
  destruct E as [Hstudent [Hsession [Hstatus _]]].
  destruct Hbad as [H|[H|H]].
  - rewrite H in Hstudent. discriminate.
  - rewrite H in Hsession. discriminate.
  - unfold z_status in Hstatus.
    destruct (get "status" o) as [[| | |s| |]|]; try discriminate.
    rewrite (H s eq_refl) in Hstatus. discriminate.
Qed.

(** C10.  When a record of the batch fails validation, the bulk handler
    answers 400 and the store is the one it found: [createBulkAttendance]
    is not reached, so nothing is deleted and nothing is inserted. *)
Theorem post_attendance_bulk_rejects (now : timestamp)
        (o : list (string * json)) (items : list json) (x : json)
        (e : ZodError) (st : Store) :
  get "records" o = Some (JArray items) ->
  In x items ->
  createAttendanceSchema (Some x) = Err e ->
  exists errors,
    post_attendance_bulk now (JObject o) st
    = (mkResponse 400 (JsonIssues errors), st).
Proof.
  intros Hrecords Hin Hx.
  unfold post_attendance_bulk, bulkAttendanceSchema, field.
  rewrite Hrecords. cbn [z_array].
  destruct (z_items_rejects createAttendanceSchema 0 items x e Hin Hx)
    as [e' He'].
  rewrite He'. cbn [under]. eexists. reflexivity.
Qed.

(** ** POST /api/students and PATCH /api/students/:id *)

Lemma filter_unique_key {A : Type} (key : A -> string) (l : list A) (a : A) :
  NoDup (map key l) -> In a l ->
  filter (fun x => String.eqb (key x) (key a)) l = [a].
Proof.
  induction l as [|x l IH]; simpl; intros Hnd Hin; [destruct Hin|].
  inversion Hnd as [|? ? Hnotin Hnd']; subst.
  assert (Hrest : forall y, In y l -> key y <> key x).
  { intros y Hy E. apply Hnotin. rewrite <- E. now apply in_map. }
  destruct Hin as [->|Hin].
  - rewrite String.eqb_refl. f_equal.
    rewrite (filter_ext_in _ (fun _ => false)); [apply filter_false|].
    intros y Hy. apply String.eqb_neq. now apply Hrest.
  - replace (String.eqb (key x) (key a)) with false; [now apply IH|].
    symmetry. apply String.eqb_neq. intros E. now apply (Hrest a Hin).
Qed.

Section StudentRouteFacts.
Context {syntax : EmailSyntax} {collation : Collation}.

Lemma createStudent_duplicate (v : InsertStudent) (s : Student) (st : Store) :
  In s (students st) -> studentId s = ins_studentId v ->
  exists e,
    createStudent v st
    = (Err e,
       mkStore (students st) (students_seq st + 1)
               (sessions st) (sessions_seq st)
               (attendanceRecords st) (attendance_seq st)).
Proof.
  intros Hin Hsid. unfold createStudent, insert_student.
  destruct (50 <? String.length (ins_studentId v))%nat;
    [eexists; reflexivity|].
  assert (Hex : existsb (fun s' => String.eqb (studentId s') (ins_studentId v))
                        (students st) = true).
  { apply existsb_exists. exists s. split; [exact Hin|].
    rewrite Hsid. apply String.eqb_refl. }
  rewrite Hex. eexists. reflexivity.
Qed.

(** C8, as amended.  Creating a student whose [studentId] a student of the
    store already has fails; the handler reports the failure with status
    500 and its generic message, the tables are as before, and
    [getStudents] still has exactly one row with that [studentId]. *)
Theorem post_students_duplicate (req_body : json) (v : InsertStudent)
        (s : Student) (st : Store) :
  unique_student_ids st ->
  createStudentSchema (Some req_body) = Ok v ->
  In s (students st) ->
  studentId s = ins_studentId v ->
  exists st',
    post_students req_body st
    = (mkResponse 500 (JsonError "Failed to create student"), st')
    /\ students st' = students st
    /\ sessions st' = sessions st
    /\ attendanceRecords st' = attendanceRecords st
    /\ filter (fun x => String.eqb (studentId x) (ins_studentId v))
              (getStudents st')
       = [s].
Proof.
  intros Huniq Hv Hin Hsid. unfold post_students. rewrite Hv.
  destruct (createStudent_duplicate v s st Hin Hsid) as [e He].
  rewrite He. eexists. split; [reflexivity|].
  cbn [students sessions attendanceRecords].
  repeat (split; [reflexivity|]).
  unfold getStudents. cbn [students].
  pose proof (Permutation_filter
                (fun x => String.eqb (studentId x) (ins_studentId v)) _ _
                (order_by_perm students_leb (students st))) as Hperm.
  rewrite <- Hsid in *.
  rewrite (filter_unique_key studentId _ s Huniq Hin) in Hperm.
  now apply Permutation_length_1_inv, Permutation_sym.
Qed.

Lemma updateStudentSchema_empty_object :
  updateStudentSchema (Some (JObject []))
  = Ok (mkPartialStudent None None None None None).
Proof. reflexivity. Qed.

(** C9.  The empty object passes [updateStudentSchema], and the update it
    asks for is refused for want of a column to set: the handler answers
    500, whether or not a student has that id. *)
Theorem patch_students_empty_object (i : Z) (st : Store) :
  patch_students i (JObject []) st
  = (mkResponse 500 (JsonError "Failed to update student"), st).
Proof. reflexivity. Qed.

(** What does hold of the update: a body that [createStudentSchema]
    accepts is accepted by [updateStudentSchema] with every field
    provided, each under the rule it has on creation. *)
Lemma z_optional_required {A : Type} (p : schema A) (v : option json) (a : A) :
  (forall e, p None <> Ok e) -> p v = Ok a ->
  z_optional p v = Ok (Some a).
Proof.
  intros Hreq Hv. destruct v as [x|]; [|now apply Hreq in Hv].
  cbn [z_optional]. now rewrite Hv.
Qed.

Lemma z_optional_min1 (msg : string) (v : option json) (a : string) :
  z_string_min1 msg v = Ok a ->
  z_optional (z_string_min1 msg) v = Ok (Some a).
Proof.
  apply z_optional_required. intros e H. discriminate H.
Qed.

Lemma z_optional_email (msg : string) (v : option json) (a : string) :
  z_string_email msg v = Ok a ->
  z_optional (z_string_email msg) v = Ok (Some a).
Proof.
  apply z_optional_required. intros e H. discriminate H.
Qed.

Lemma under_ok_iff {A : Type} (k : PathElem) (r : parsed A) (a : A) :
  r = Ok a -> under k r = Ok a.
Proof. now intros ->. Qed.

Lemma updateStudentSchema_all_fields (o : list (string * json))
      (v : InsertStudent) :
  createStudentSchema (Some (JObject o)) = Ok v ->
  updateStudentSchema (Some (JObject o))
  = Ok (mkPartialStudent (Some (ins_studentId v)) (Some (ins_firstName v))
                         (Some (ins_lastName v)) (Some (ins_email v))
                         (ins_photoUrl v)).
Proof.
  cbn [createStudentSchema updateStudentSchema]. unfold field.
  destruct (under (Key "studentId") _) as [a|] eqn:Ea;
    destruct (under (Key "firstName") _) as [b|] eqn:Eb;
    destruct (under (Key "lastName") _) as [c|] eqn:Ec;
    destruct (under (Key "email") _) as [d|] eqn:Ed;
    destruct (under (Key "photoUrl") _) as [f|] eqn:Ef;
    try discriminate.
  intros H. injection H as <-. cbn.
  apply under_ok in Ea, Eb, Ec, Ed.
  rewrite (under_ok_iff _ _ _ (z_optional_min1 _ _ _ Ea)).
  rewrite (under_ok_iff _ _ _ (z_optional_min1 _ _ _ Eb)).
  rewrite (under_ok_iff _ _ _ (z_optional_min1 _ _ _ Ec)).
  rewrite (under_ok_iff _ _ _ (z_optional_email _ _ _ Ed)).
  reflexivity.
Qed.

(** A field the update does not provide keeps its value. *)
Lemma set_student_keeps (p : PartialInsertStudent) (s : Student) :
  id (set_student p s) = id s
  /\ (upd_studentId p = None -> studentId (set_student p s) = studentId s)
  /\ (upd_firstName p = None -> firstName (set_student p s) = firstName s)
  /\ (upd_lastName p = None -> lastName (set_student p s) = lastName s)
  /\ (upd_email p = None -> email (set_student p s) = email s)
  /\ (upd_photoUrl p = None -> photoUrl (set_student p s) = photoUrl s).
Proof.
  unfold set_student. cbn.
  repeat split; intros H; rewrite H; reflexivity.
Qed.

(** An update that provides a field and meets the constraints on
    [student_id] returns the student with the provided fields set and
    changes no other row. *)
Lemma updateStudent_merges (p : PartialInsertStudent) (s : Student)
      (st : Store) :
  NoDup (map id (students st)) ->
  In s (students st) ->
  no_values p = false ->
  check_student_id (id s) p st = None ->
  updateStudent (id s) p st
  = (Ok (Some (set_student p s)),
     mkStore (map (fun x => if id x =? id s then set_student p x else x)
                  (students st))
             (students_seq st) (sessions st) (sessions_seq st)
             (attendanceRecords st) (attendance_seq st)).
Proof.
  intros Hnd Hin Hvalues Hcheck.
  unfold updateStudent, update_students_set_where_id.
  rewrite Hvalues.
  assert (Hone : filter (fun x => id x =? id s) (students st) = [s]).
  { rewrite (filter_ext _ (fun x => id s =? id x))
      by (intros; apply Z.eqb_sym).
    rewrite (filter_primary_key id _ _ Hnd).
    destruct (row_with_key id (id s) (students st)) as [b|] eqn:Eb.
    - apply row_with_key_In in Eb. destruct Eb as [Hb Hk].
      now rewrite (NoDup_key_inj id _ b s Hnd Hb Hin Hk).
    - apply (row_with_key_None id) in Eb.
      apply not_true_iff_false in Eb. exfalso. apply Eb.
      apply existsb_exists. exists s. split; [exact Hin|apply Z.eqb_refl]. }
  rewrite Hone, Hcheck. reflexivity.
Qed.

End StudentRouteFacts.

(** ** Binary64 arithmetic on counts

    Rounding to nearest, ties to even, of a quotient and of a product, from
    the bit-level definitions: the result is within half a unit in the last
    place of the exact value. *)

Lemma digits2_pos_size (p : positive) : digits2_pos p = Pos.size p.
Proof. induction p; simpl; congruence. Qed.

Lemma Zdigits2_bounds (p : positive) :
  2 ^ (Zdigits2 (Zpos p) - 1) <= Zpos p < 2 ^ Zdigits2 (Zpos p).
Proof.
  cbn [Zdigits2]. rewrite digits2_pos_size.
  pose proof (Pos.size_gt p) as Hgt. pose proof (Pos.size_le p) as Hle.
  apply Pos2Z.pos_lt_pos in Hgt. apply Pos2Z.pos_le_pos in Hle.
  rewrite Pos2Z.inj_pow in Hgt, Hle. rewrite (Pos2Z.inj_xO p) in Hle.
  split; [|exact Hgt].
  replace (Z.pos (Pos.size p)) with (Z.succ (Z.pos (Pos.size p) - 1)) in Hle by lia.
  rewrite Z.pow_succ_r in Hle by lia. lia.
Qed.

Lemma Zdigits2_unique (z k : Z) :
  2 ^ (k - 1) <= z < 2 ^ k -> 0 < k -> Zdigits2 z = k.
Proof.
  intros [Hlo Hhi] Hk.
  assert (0 < z) by (pose proof (Z.pow_pos_nonneg 2 (k - 1)); lia).
  destruct z as [|p|p]; try lia.
  pose proof (Zdigits2_bounds p) as [Hlo' Hhi'].
  set (d := Zdigits2 (Zpos p)) in *.
  assert (0 < d) by (unfold d; simpl; lia).
  assert (k - 1 < d).
  { apply (Z.pow_lt_mono_r_iff 2); lia. }
  assert (d - 1 < k).
  { apply (Z.pow_lt_mono_r_iff 2); lia. }
  lia.
Qed.

(** Shifting the record one bit to the right halves the unit and keeps
    track of where [X/Y] lies. *)
Lemma shr_1_located (mrs : shr_record) (X Y : Z) :
  0 < Y -> 0 <= shr_m mrs -> located mrs X Y ->
  located (shr_1 mrs) X (2 * Y) /\ shr_m (shr_1 mrs) = shr_m mrs / 2.
Proof.
  destruct mrs as [m r s]. cbn [shr_m]. intros HY Hm Hloc.
  destruct m as [|p|p]; [| |lia].
  - destruct r, s; unfold located, shr_1 in *;
      cbn [shr_m shr_r shr_s orb] in *; split; try reflexivity; lia.
  - destruct p as [p|p|]; unfold shr_1.
    + assert (Hd : Z.pos p~1 / 2 = Z.pos p).
      { rewrite (Pos2Z.inj_xI p). symmetry. apply Z.div_unique with 1; lia. }
      rewrite Hd.
      destruct r, s; unfold located in *; cbn [shr_m shr_r shr_s orb] in *;
        rewrite (Pos2Z.inj_xI p) in Hloc; split; try reflexivity; lia.
    + assert (Hd : Z.pos p~0 / 2 = Z.pos p).
      { rewrite (Pos2Z.inj_xO p). symmetry. apply Z.div_unique with 0; lia. }
      rewrite Hd.
      destruct r, s; unfold located in *; cbn [shr_m shr_r shr_s orb] in *;
        rewrite (Pos2Z.inj_xO p) in Hloc; split; try reflexivity; lia.
    + destruct r, s; unfold located in *; cbn [shr_m shr_r shr_s orb] in *;
        split; try reflexivity; lia.
Qed.

Lemma iter_shr_1_located (p : positive) (mrs : shr_record) (X Y : Z) :
  0 < Y -> 0 <= shr_m mrs -> located mrs X Y ->
  located (iter_pos shr_1 p mrs) X (2 ^ Zpos p * Y)
  /\ shr_m (iter_pos shr_1 p mrs) = shr_m mrs / 2 ^ Zpos p.
Proof.
  revert mrs Y. induction p as [p IH|p IH|]; intros mrs Y HY Hm Hloc; cbn [iter_pos].
  - assert (HP : 0 < 2 ^ Z.pos p) by (apply Z.pow_pos_nonneg; lia).
    destruct (shr_1_located mrs X Y HY Hm Hloc) as [L1 M1].
    assert (H1 : 0 <= shr_m (shr_1 mrs)) by (rewrite M1; apply Z.div_pos; lia).
    destruct (IH _ (2 * Y) ltac:(lia) H1 L1) as [L2 M2].
    assert (H2 : 0 <= shr_m (iter_pos shr_1 p (shr_1 mrs))).
    { rewrite M2. apply Z.div_pos; [lia|]. apply Z.pow_pos_nonneg; lia. }
    destruct (IH _ (2 ^ Z.pos p * (2 * Y)) ltac:(nia) H2 L2) as [L3 M3].
    rewrite (Pos2Z.inj_xI p).
    replace (2 * Z.pos p + 1) with (1 + Z.pos p + Z.pos p) by lia.
    rewrite !Z.pow_add_r by lia. rewrite Z.pow_1_r. split.
    + replace (2 * 2 ^ Z.pos p * 2 ^ Z.pos p * Y) with (2 ^ Z.pos p * (2 ^ Z.pos p * (2 * Y))) by ring.
      exact L3.
    + rewrite M3, M2, M1. rewrite !Z.div_div by (try apply Z.pow_pos_nonneg; lia).
      f_equal; ring.
  - assert (HP : 0 < 2 ^ Z.pos p) by (apply Z.pow_pos_nonneg; lia).
    destruct (IH _ _ HY Hm Hloc) as [L2 M2].
    assert (H2 : 0 <= shr_m (iter_pos shr_1 p mrs)).
    { rewrite M2. apply Z.div_pos; [lia|]. apply Z.pow_pos_nonneg; lia. }
    destruct (IH _ (2 ^ Z.pos p * Y) ltac:(nia) H2 L2) as [L3 M3].
    rewrite (Pos2Z.inj_xO p).
    replace (2 * Z.pos p) with (Z.pos p + Z.pos p) by lia.
    rewrite !Z.pow_add_r by lia. split.
    + replace (2 ^ Z.pos p * 2 ^ Z.pos p * Y) with (2 ^ Z.pos p * (2 ^ Z.pos p * Y)) by ring.
      exact L3.
    + rewrite M3, M2. rewrite !Z.div_div by (try apply Z.pow_pos_nonneg; lia).
      reflexivity.
  - change (2 ^ 1) with 2. apply shr_1_located; assumption.
Qed.

Lemma shr_located (mrs : shr_record) (e n X Y : Z) :
  0 < Y -> 0 <= shr_m mrs -> 0 <= n -> located mrs X Y ->
  exists mrs',
    shr mrs e n = (mrs', e + n)
    /\ located mrs' X (2 ^ n * Y)
    /\ shr_m mrs' = shr_m mrs / 2 ^ n.
Proof.
  intros HY Hm Hn Hloc. destruct n as [|p|p]; [| |lia].
  - exists mrs. cbn [shr]. rewrite Z.add_0_r, Z.pow_0_r, Z.mul_1_l, Z.div_1_r.
    auto.
  - exists (iter_pos shr_1 p mrs). cbn [shr].
    destruct (iter_shr_1_located p mrs X Y HY Hm Hloc) as [L M]. auto.
Qed.

(** Rounding to nearest, ties to even, moves to an integer at most half
    a unit away. *)
Lemma round_nearest_even_near (m : Z) (r s : bool) (X Y : Z) :
  0 < Y -> located (Build_shr_record m r s) X Y ->
  let mr := round_nearest_even m (loc_of_shr_record (Build_shr_record m r s)) in
  (mr = m \/ mr = m + 1) /\ - Y <= 2 * mr * Y - 2 * X <= Y.
Proof.
  intros HY Hloc. unfold located in Hloc. cbn [shr_m shr_r shr_s] in Hloc.
  destruct r, s; cbn [loc_of_shr_record round_nearest_even].
  - split; [now right|]. lia.
  - destruct (Z.even m); (split; [auto|lia]).
  - split; [now left|]. lia.
  - split; [now left|]. lia.
Qed.

Lemma shr_m_of_loc (m : Z) (l : location) : shr_m (shr_record_of_loc m l) = m.
Proof. destruct l as [|[]]; reflexivity. Qed.

Lemma fexp_normal (e : Z) : -1021 <= e -> fexp 53 1024 e = e - 53.
Proof. intros H. unfold fexp, emin. lia. Qed.

(** The rounding of a located value with a mantissa of at least 53 bits,
    in the range of normal numbers: a 53-bit mantissa [m], an exponent
    raised by the bits dropped (and by one more when rounding carries),
    and the value [X/Y] within half a unit of the shifted mantissa. *)
Lemma binary_round_aux_near (mx ex : Z) (lx : location) (X Y : Z) :
  0 < Y -> 2 ^ 52 <= mx ->
  located (shr_record_of_loc mx lx) X Y ->
  -1074 <= ex -> Zdigits2 mx + ex <= 1000 ->
  exists (m : positive) (k : Z),
    binary_round_aux 53 1024 false mx ex lx
    = S754_finite false m (ex + (Zdigits2 mx - 53) + k)
    /\ 2 ^ 52 <= Zpos m < 2 ^ 53
    /\ (k = 0 \/ k = 1)
    /\ 0 <= Zdigits2 mx - 53
    /\ - (2 ^ (Zdigits2 mx - 53) * Y)
       <= 2 * (Zpos m * 2 ^ k) * (2 ^ (Zdigits2 mx - 53) * Y) - 2 * X
       <= 2 ^ (Zdigits2 mx - 53) * Y.
Proof.
  intros HY Hmx Hloc Hex Hd.
  assert (Hpos : 0 < mx) by (pose proof (Z.pow_pos_nonneg 2 52); lia).
  destruct mx as [|p|p]; try lia.
  pose proof (Zdigits2_bounds p) as [Hlo Hhi].
  set (d := Zdigits2 (Z.pos p)) in *.
  assert (Hd53 : 53 <= d).
  { assert (52 < d); [|lia]. apply (Z.pow_lt_mono_r_iff 2); try lia.
    unfold d. cbn. lia. }
  set (n := d - 53) in *.
  assert (Hn : 0 <= n) by (unfold n; lia).
  assert (H2n : 0 < 2 ^ n) by (apply Z.pow_pos_nonneg; lia).
  unfold binary_round_aux, shr_fexp. fold d.
  rewrite fexp_normal by lia.
  replace (d + ex - 53 - ex) with n by (unfold n; lia).
  destruct (shr_located (shr_record_of_loc (Z.pos p) lx) ex n X Y HY
              ltac:(rewrite shr_m_of_loc; lia) Hn Hloc)
    as [[m' r' s'] [Hshr [Hloc' Hm']]].
  rewrite Hshr. rewrite shr_m_of_loc in Hm'. cbn [shr_m] in Hm' |- *.
  assert (Hm'range : 2 ^ 52 <= m' < 2 ^ 53).
  { rewrite Hm'. assert (Hpow : 2 ^ d = 2 ^ n * 2 ^ 53).
    { rewrite <- Z.pow_add_r by lia. f_equal. unfold n. lia. }
    assert (Hpow' : 2 ^ (d - 1) = 2 ^ n * 2 ^ 52).
    { rewrite <- Z.pow_add_r by lia. f_equal. unfold n. lia. }
    split.
    - apply Z.div_le_lower_bound; lia.
    - apply Z.div_lt_upper_bound; lia. }
  assert (HY' : 0 < 2 ^ n * Y) by nia.
  destruct (round_nearest_even_near m' r' s' X (2 ^ n * Y) HY' Hloc')
    as [Hmr Hnear].
  set (mr := round_nearest_even m'
               (loc_of_shr_record (Build_shr_record m' r' s'))) in *.
  assert (Hcases : mr < 2 ^ 53 \/ mr = 2 ^ 53) by lia.
  destruct Hcases as [Hlt|Heq].
  - assert (Hdig : Zdigits2 mr = 53).
    { apply Zdigits2_unique; lia. }
    rewrite Hdig, fexp_normal by lia.
    replace (53 + (ex + n) - 53 - (ex + n)) with 0 by lia.
    cbn [shr shr_record_of_loc shr_m].
    destruct mr as [|q|q] eqn:Emr; try lia.
    replace (ex + n <=? 1024 - 53) with true
      by (symmetry; apply Z.leb_le; unfold n; lia).
    exists q, 0. rewrite Z.add_0_r. split; [reflexivity|].
    split; [lia|]. split; [now left|]. split; [exact Hn|].
    rewrite Z.pow_0_r, Z.mul_1_r. lia.
  - rewrite Heq.
    replace (Zdigits2 (2 ^ 53)) with 54 by reflexivity.
    rewrite fexp_normal by lia.
    replace (54 + (ex + n) - 53 - (ex + n)) with 1 by lia.
    change (shr_record_of_loc (2 ^ 53) loc_Exact)
      with (Build_shr_record (2 ^ 53) false false).
    change (shr (Build_shr_record (2 ^ 53) false false) (ex + n) 1)
      with (Build_shr_record (2 ^ 52) false false, ex + n + 1).
    cbn [shr_m].
    change (2 ^ 52) with (Z.pos (2 ^ 52)%positive) at 1.
    cbv iota beta.
    replace (ex + n + 1 <=? 1024 - 53) with true
      by (symmetry; apply Z.leb_le; unfold n; lia).
    exists (2 ^ 52)%positive, 1. split; [reflexivity|].
    split; [split; [reflexivity|reflexivity]|].
    split; [now right|]. split; [exact Hn|].
    change (Z.pos (2 ^ 52) * 2 ^ 1) with (2 ^ 53). rewrite <- Heq. lia.
Qed.

Lemma shl_align_spec (mx : positive) (ex ex' : Z) :
  ex' <= ex ->
  exists mz, shl_align mx ex ex' = (mz, ex')
             /\ Zpos mz = Zpos mx * 2 ^ (ex - ex').
Proof.
  intros Hle. unfold shl_align.
  destruct (ex' - ex) as [|k|k] eqn:E; try lia.
  - exists mx. replace ex' with ex by lia. rewrite Z.sub_diag, Z.pow_0_r.
    split; [reflexivity|lia].
  - exists (Pos.iter xO mx k). split; [reflexivity|].
    rewrite (Pos.iter_swap_gen _ _ Zpos xO (Z.mul 2))
      by (intros; reflexivity).
    replace (ex - ex') with (Z.pos k) by lia.
    change (Pos.iter (Z.mul 2) (Z.pos mx) k) with (Z.shiftl (Z.pos mx) (Z.pos k)).
    apply Z.shiftl_mul_pow2. lia.
Qed.

(** An integer below 2^53 converts exactly. *)
Lemma of_int_finite (n : Z) :
  0 < n < 2 ^ 53 ->
  exists (m : positive) (a : Z),
    JsNumber.of_int n = S754_finite false m (- a)
    /\ 2 ^ 52 <= Zpos m < 2 ^ 53
    /\ 0 <= a <= 52
    /\ Zpos m = n * 2 ^ a.
Proof.
  intros [Hpos Hlt]. destruct n as [|p|p]; try lia.
  unfold JsNumber.of_int, JsNumber.prec, JsNumber.emax.
  unfold binary_normalize, binary_round.
  pose proof (Zdigits2_bounds p) as [Hlo Hhi].
  change (Z.pos (digits2_pos p)) with (Zdigits2 (Z.pos p)).
  set (d := Zdigits2 (Z.pos p)) in *.
  assert (Hd1 : 0 < d) by (unfold d; cbn; lia).
  assert (Hd53 : d <= 53).
  { assert (d - 1 < 53); [|lia]. apply (Z.pow_lt_mono_r_iff 2); lia. }
  rewrite Z.add_0_r, fexp_normal by lia.
  destruct (shl_align_spec p 0 (d - 53) ltac:(lia)) as [mz [Hal Hmz]].
  rewrite Hal.
  replace (0 - (d - 53)) with (53 - d) in Hmz by lia.
  assert (Hrange : 2 ^ 52 <= Z.pos mz < 2 ^ 53).
  { rewrite Hmz.
    assert (H52 : 2 ^ 52 = 2 ^ (d - 1) * 2 ^ (53 - d)).
    { rewrite <- Z.pow_add_r by lia. f_equal. lia. }
    assert (H53 : 2 ^ 53 = 2 ^ d * 2 ^ (53 - d)).
    { rewrite <- Z.pow_add_r by lia. f_equal. lia. }
    assert (0 < 2 ^ (53 - d)) by (apply Z.pow_pos_nonneg; lia).
    rewrite H52, H53. split; nia. }
  assert (Hdz : Zdigits2 (Z.pos mz) = 53) by (apply Zdigits2_unique; lia).
  destruct (binary_round_aux_near (Z.pos mz) (d - 53) loc_Exact (Z.pos mz) 1)
    as [m [k [Hr [Hm [Hk [_ Hnear]]]]]]; try lia.
  { unfold located. cbn. lia. }
  rewrite Hdz in Hr, Hnear. rewrite Z.sub_diag, Z.pow_0_r in Hnear.
  rewrite Z.add_0_r in Hr.
  destruct Hk as [-> | ->].
  - rewrite Z.pow_0_r in Hnear. rewrite Z.add_0_r in Hr.
    exists mz, (53 - d). replace (- (53 - d)) with (d - 53) by lia.
    assert (m = mz) by lia. subst m.
    split; [exact Hr|]. split; [exact Hrange|]. split; [lia|exact Hmz].
  - exfalso. change (2 ^ 1) with 2 in Hnear. lia.
Qed.

(** The location [SFdiv] computes from the remainder is where the
    quotient lies. *)
Lemma new_location_located (m2 q r : Z) :
  0 < m2 -> 0 <= r < m2 ->
  located (shr_record_of_loc q (new_location m2 r)) (m2 * q + r) m2.
Proof.
  intros Hm2 Hr. unfold new_location, new_location_even, new_location_odd.
  pose proof (Zmod_even m2) as Hev.
  pose proof (Z.div_mod m2 2 ltac:(lia)) as Hdm.
  destruct (Z.even m2).
  - destruct (Z.eqb_spec r 0) as [->|Hr0].
    + unfold located. cbn [shr_record_of_loc shr_m shr_r shr_s]. lia.
    + destruct (Z.compare_spec (2 * r) m2); unfold located;
        cbn [shr_record_of_loc shr_m shr_r shr_s]; lia.
  - destruct (Z.eqb_spec r 0) as [->|Hr0].
    + unfold located. cbn [shr_record_of_loc shr_m shr_r shr_s]. lia.
    + destruct (Z.compare_spec (2 * r + 1) m2); unfold located;
        cbn [shr_record_of_loc shr_m shr_r shr_s]; lia.
Qed.

Lemma div_eucl_div_mod (a b : Z) : Z.div_eucl a b = (a / b, a mod b).
Proof. unfold Z.div, Z.modulo. now destruct (Z.div_eucl a b). Qed.

(** The quotient of two numbers with 53-bit mantissas. *)
Lemma SFdiv_near (m1 m2 : positive) (a b : Z) :
  2 ^ 52 <= Zpos m1 < 2 ^ 53 -> 2 ^ 52 <= Zpos m2 < 2 ^ 53 ->
  0 <= a <= 52 -> 0 <= b <= 52 ->
  exists (m : positive) (k n : Z),
    JsNumber.div (S754_finite false m1 (- a)) (S754_finite false m2 (- b))
    = S754_finite false m (b - a - 53 + n + k)
    /\ 2 ^ 52 <= Zpos m < 2 ^ 53
    /\ (k = 0 \/ k = 1) /\ (n = 0 \/ n = 1)
    /\ - (2 ^ n * Zpos m2)
       <= 2 * (Zpos m * 2 ^ k) * (2 ^ n * Zpos m2) - 2 * (Zpos m1 * 2 ^ 53)
       <= 2 ^ n * Zpos m2.
Proof.
  intros H1 H2 Ha Hb.
  unfold JsNumber.div, JsNumber.prec, JsNumber.emax.
  unfold SFdiv, SFdiv_core_binary.
  rewrite (Zdigits2_unique (Z.pos m1) 53), (Zdigits2_unique (Z.pos m2) 53)
    by lia.
  replace (53 + - a - (53 + - b)) with (b - a) by lia.
  rewrite fexp_normal by lia.
  rewrite Z.min_l by lia.
  replace (- a - - b - (b - a - 53)) with 53 by lia.
  cbv iota beta. rewrite Z.shiftl_mul_pow2 by lia.
  rewrite div_eucl_div_mod. cbn [xorb].
  set (X := Z.pos m1 * 2 ^ 53).
  set (q := X / Z.pos m2). set (r := X mod Z.pos m2).
  assert (HX : X = Z.pos m2 * q + r) by (apply Z.div_mod; lia).
  assert (Hr : 0 <= r < Z.pos m2) by (apply Z.mod_pos_bound; lia).
  assert (Hq : 2 ^ 52 <= q < 2 ^ 54).
  { split.
    - apply Z.div_le_lower_bound; [lia|]. unfold X. nia.
    - apply Z.div_lt_upper_bound; [lia|]. unfold X.
      change (2 ^ 54) with (2 * 2 ^ 53). nia. }
  assert (Hq0 : 0 < q) by lia.
  assert (Hdq : Zdigits2 q = 53 \/ Zdigits2 q = 54).
  { destruct q as [|pq|pq]; try lia.
    pose proof (Zdigits2_bounds pq) as [Hlo Hhi].
    assert (52 < Zdigits2 (Z.pos pq)).
    { apply (Z.pow_lt_mono_r_iff 2); try lia. cbn. lia. }
    assert (Zdigits2 (Z.pos pq) - 1 < 54).
    { apply (Z.pow_lt_mono_r_iff 2); lia. }
    lia. }
  destruct (binary_round_aux_near q (b - a - 53) (new_location (Z.pos m2) r)
              X (Z.pos m2))
    as [m [k [Hres [Hm [Hk [Hn Hnear]]]]]]; try lia.
  { rewrite HX. apply new_location_located; lia. }
  exists m, k, (Zdigits2 q - 53).
  split; [exact Hres|]. split; [exact Hm|]. split; [exact Hk|].
  split; [lia|exact Hnear].
Qed.

Lemma of_int_100 :
  JsNumber.of_int 100 = S754_finite false hundred_mantissa (-46).
Proof. reflexivity. Qed.

(** The product with 100. *)
Lemma SFmul_100_near (m : positive) (e : Z) :
  2 ^ 52 <= Zpos m < 2 ^ 53 -> -1000 <= e <= 0 ->
  exists (mr : positive) (k n : Z),
    JsNumber.mul (S754_finite false m e)
                 (S754_finite false hundred_mantissa (-46))
    = S754_finite false mr (e - 46 + n + k)
    /\ 2 ^ 52 <= Zpos mr < 2 ^ 53
    /\ (k = 0 \/ k = 1) /\ (n = 52 \/ n = 53)
    /\ - 2 ^ n
       <= 2 * (Zpos mr * 2 ^ k) * 2 ^ n - 2 * (Zpos m * Zpos hundred_mantissa)
       <= 2 ^ n.
Proof.
  intros Hm He. unfold JsNumber.mul, JsNumber.prec, JsNumber.emax.
  unfold SFmul. cbn [xorb].
  rewrite Pos2Z.inj_mul.
  set (X := Z.pos m * Z.pos hundred_mantissa).
  assert (HX : 2 ^ 104 <= X < 2 ^ 106).
  { unfold X. change (Z.pos hundred_mantissa) with (100 * 2 ^ 46).
    change (2 ^ 104) with (2 ^ 52 * (64 * 2 ^ 46)).
    change (2 ^ 106) with (2 ^ 53 * (128 * 2 ^ 46)).
    assert (0 < 2 ^ 46) by reflexivity. nia. }
  assert (Hd : Zdigits2 X = 105 \/ Zdigits2 X = 106).
  { destruct X as [|pX|pX]; try lia.
    pose proof (Zdigits2_bounds pX) as [Hlo Hhi].
    assert (104 < Zdigits2 (Z.pos pX)).
    { apply (Z.pow_lt_mono_r_iff 2); try lia. cbn. lia. }
    assert (Zdigits2 (Z.pos pX) - 1 < 106).
    { apply (Z.pow_lt_mono_r_iff 2); lia. }
    lia. }
  destruct (binary_round_aux_near X (e + -46) loc_Exact X 1)
    as [mr [k [Hres [Hmr [Hk [Hn Hnear]]]]]]; try lia.
  { unfold located. cbn [shr_record_of_loc shr_m shr_r shr_s]. lia. }
  exists mr, k, (Zdigits2 X - 53).
  replace (e - 46) with (e + -46) by lia.
  split; [exact Hres|]. split; [exact Hmr|]. split; [exact Hk|].
  split; [lia|]. rewrite Z.mul_1_r in Hnear. exact Hnear.
Qed.

(** From the two rounding errors to the integer [Math.round] returns:
    when 100 P / T + 1/2 lies strictly between [L] and [U], so does the
    rounded product plus one half. *)
Lemma round_window (P T L U mq mr A G Z1 S2 : Z) :
  0 < T <= 2 ^ 44 -> 0 <= P ->
  2 ^ 52 <= A -> 0 < G -> 0 < Z1 -> 0 < S2 <= 2 ^ 53 ->
  G * Z1 = A * 2 ^ 46 ->
  - T <= 2 * (mq * T - P * A) <= T ->
  - S2 <= 2 * mr * Z1 - 2 * (mq * (100 * 2 ^ 46)) <= S2 ->
  2 * L * T + 1 <= 200 * P + T <= 2 * U * T - 1 ->
  L * (2 * G) <= 2 * mr + G < U * (2 * G).
Proof.
  intros HT HP HA HG HZ1 HS2 HGZ HF1 HB2 HK.
  change (2 ^ 46) with 70368744177664 in *.
  change (2 ^ 44) with 17592186044416 in *.
  change (2 ^ 52) with 4503599627370496 in *.
  change (2 ^ 53) with 9007199254740992 in *.
  assert (H6 : G * Z1 * T = A * 70368744177664 * T) by (rewrite HGZ; ring).
  assert (H7 : forall c, c * G * Z1 * T = c * A * 70368744177664 * T).
  { intros c. rewrite <- !Z.mul_assoc. rewrite (Z.mul_assoc G), HGZ. ring. }
  assert (H1 : (2 * (mq * (100 * 70368744177664)) - S2) * T
               <= 2 * mr * Z1 * T)
    by (apply Z.mul_le_mono_nonneg_r; lia).
  assert (H1' : 2 * mr * Z1 * T
                <= (2 * (mq * (100 * 70368744177664)) + S2) * T)
    by (apply Z.mul_le_mono_nonneg_r; lia).
  assert (H4 : S2 * T <= 9007199254740992 * T)
    by (apply Z.mul_le_mono_nonneg_r; lia).
  assert (H5 : 228 * T * 70368744177664 < A * 70368744177664) by lia.
  assert (ZT : 0 < Z1 * T) by nia.
  split.
  - assert (Hprod : 0 <= (2 * mr + G - L * (2 * G)) * (Z1 * T)).
    { assert (H3 : A * 1 <= A * (200 * P + T - 2 * L * T))
        by (apply Z.mul_le_mono_nonneg_l; lia).
      replace ((2 * mr + G - L * (2 * G)) * (Z1 * T))
        with (2 * mr * Z1 * T + G * Z1 * T - 2 * (L * G * Z1 * T)) by ring.
      rewrite H6, (H7 L). nia. }
    nia.
  - assert (Hprod : 0 < (U * (2 * G) - (2 * mr + G)) * (Z1 * T)).
    { assert (H3 : A * 1 <= A * (2 * U * T - (200 * P + T)))
        by (apply Z.mul_le_mono_nonneg_l; lia).
      replace ((U * (2 * G) - (2 * mr + G)) * (Z1 * T))
        with (2 * (U * G * Z1 * T) - 2 * mr * Z1 * T - G * Z1 * T) by ring.
      rewrite H6, (H7 U). nia. }
    nia.
Qed.

(** [Math.round((P / T) * 100)] for counts 0 < P <= T. *)
Lemma rate_window (P T : Z) :
  0 < P <= T -> T < 2 ^ 31 ->
  exists (mr : positive) (g : Z),
    JsNumber.Math_round
      (JsNumber.mul (JsNumber.div (JsNumber.of_int P) (JsNumber.of_int T))
                    (JsNumber.of_int 100))
    = JsNumber.of_int ((2 * Zpos mr + 2 ^ g) / (2 * 2 ^ g))
    /\ 0 < g
    /\ forall L U,
        2 * L * T + 1 <= 200 * P + T <= 2 * U * T - 1 ->
        L * (2 * 2 ^ g) <= 2 * Zpos mr + 2 ^ g < U * (2 * 2 ^ g).
Proof.
  intros HP HT.
  assert (H31 : 2 ^ 31 < 2 ^ 44) by reflexivity.
  assert (H3153 : 2 ^ 31 < 2 ^ 53) by reflexivity.
  destruct (of_int_finite P ltac:(lia)) as [m1 [a [EP [Hm1 [Ha Hm1v]]]]].
  destruct (of_int_finite T ltac:(lia)) as [m2 [b [ET [Hm2 [Hb Hm2v]]]]].
  destruct (SFdiv_near m1 m2 a b Hm1 Hm2 Ha Hb)
    as [mq [k1 [n1 [Ediv [Hmq [Hk1 [Hn1 B1]]]]]]].
  rewrite EP, ET, Ediv, of_int_100.
  (* the quotient: exponent and error *)
  set (E := a + 53 - b - n1).
  assert (HE : 0 <= E) by (unfold E; lia).
  assert (Hpow : 2 ^ 53 * 2 ^ a = 2 ^ E * (2 ^ n1 * 2 ^ b)).
  { rewrite <- !Z.pow_add_r by lia. f_equal. unfold E. lia. }
  assert (HD : 0 < 2 ^ n1 * 2 ^ b).
  { apply Z.mul_pos_pos; apply Z.pow_pos_nonneg; lia. }
  assert (Hk1pos : 1 <= 2 ^ k1) by (destruct Hk1 as [-> | ->]; cbn; lia).
  assert (Hstar : - T <= 2 * (Zpos mq * 2 ^ k1) * T - 2 * (P * 2 ^ E) <= T).
  { rewrite Hm1v, Hm2v in B1.
    replace (2 * (Z.pos mq * 2 ^ k1) * (2 ^ n1 * (T * 2 ^ b))
             - 2 * (P * 2 ^ a * 2 ^ 53))
      with ((2 * (Z.pos mq * 2 ^ k1) * T - 2 * (P * 2 ^ E))
            * (2 ^ n1 * 2 ^ b)) in B1
      by (replace (P * 2 ^ a * 2 ^ 53) with (P * (2 ^ 53 * 2 ^ a)) by ring;
          rewrite Hpow; ring).
    replace (2 ^ n1 * (T * 2 ^ b)) with (T * (2 ^ n1 * 2 ^ b)) in B1 by ring.
    nia. }
  assert (HEk : 52 + k1 <= E).
  { destruct (Z_le_gt_dec (52 + k1) E) as [H|H]; [exact H|]. exfalso.
    assert (Hle : 2 ^ (E + 1) <= 2 ^ (52 + k1))
      by (apply Z.pow_le_mono_r; lia).
    rewrite Z.pow_add_r, Z.pow_1_r in Hle by lia.
    rewrite Z.pow_add_r in Hle by lia.
    assert (HF : 0 < 2 ^ E) by (apply Z.pow_pos_nonneg; lia).
    set (F := 2 ^ E) in *. set (W := 2 ^ k1) in *.
    change (2 ^ 52) with 4503599627370496 in *.
    assert (Hx1 : P * F <= T * F) by (apply Z.mul_le_mono_nonneg_r; lia).
    assert (HWT : 0 <= W * T) by (apply Z.mul_nonneg_nonneg; lia).
    assert (Hx2 : 4503599627370496 * (W * T) <= Z.pos mq * (W * T))
      by (apply Z.mul_le_mono_nonneg_r; lia).
    assert (Hx3 : F * 2 * T <= 4503599627370496 * W * T)
      by (apply Z.mul_le_mono_nonneg_r; lia).
    assert (Hx4 : 1 * T <= W * T) by (apply Z.mul_le_mono_nonneg_r; lia).
    lia. }
  set (c := E - k1).
  assert (Hc : 52 <= c) by (unfold c; lia).
  assert (HA : 2 ^ 52 <= 2 ^ c) by (apply Z.pow_le_mono_r; lia).
  assert (HEc : 2 ^ E = 2 ^ c * 2 ^ k1).
  { rewrite <- Z.pow_add_r by lia. f_equal. unfold c. lia. }
  assert (HF1 : - T <= 2 * (Zpos mq * T - P * 2 ^ c) <= T).
  { rewrite HEc in Hstar. destruct Hk1 as [-> | ->].
    - rewrite Z.pow_0_r in Hstar. lia.
    - change (2 ^ 1) with 2 in Hstar. lia. }
  replace (b - a - 53 + n1 + k1) with (- c) by (unfold c, E; lia).
  (* the product *)
  assert (Hc105 : c <= 105) by (unfold c, E; lia).
  destruct (SFmul_100_near mq (- c) Hmq ltac:(lia))
    as [mr [k2 [n2 [Emul [Hmr [Hk2 [Hn2 B2]]]]]]].
  rewrite Emul.
  set (g := c + 46 - n2 - k2).
  assert (Hg : 0 < g) by (unfold g; lia).
  replace (- c - 46 + n2 + k2) with (- g) by (unfold g; lia).
  exists mr, g. split; [|split; [exact Hg|]].
  - unfold JsNumber.Math_round.
    replace (0 <=? - g) with false by (symmetry; apply Z.leb_gt; lia).
    cbn [cond_Zopp]. rewrite Z.opp_involutive.
    replace (1 - - g) with (1 + g) by lia.
    rewrite Z.pow_add_r, Z.pow_1_r by lia. reflexivity.
  - intros L U HLU.
    assert (HG : 0 < 2 ^ g) by (apply Z.pow_pos_nonneg; lia).
    assert (HZ1 : 0 < 2 ^ k2 * 2 ^ n2)
      by (apply Z.mul_pos_pos; apply Z.pow_pos_nonneg; lia).
    assert (HS2 : 0 < 2 ^ n2 <= 2 ^ 53)
      by (split; [apply Z.pow_pos_nonneg; lia|apply Z.pow_le_mono_r; lia]).
    assert (HGZ : 2 ^ g * (2 ^ k2 * 2 ^ n2) = 2 ^ c * 2 ^ 46).
    { rewrite <- !Z.pow_add_r by lia. f_equal. unfold g. lia. }
    assert (HB2 : - 2 ^ n2
                  <= 2 * Z.pos mr * (2 ^ k2 * 2 ^ n2)
                     - 2 * (Z.pos mq * (100 * 2 ^ 46))
                  <= 2 ^ n2).
    { change (Z.pos hundred_mantissa) with (100 * 2 ^ 46) in B2.
      replace (2 * Z.pos mr * (2 ^ k2 * 2 ^ n2))
        with (2 * (Z.pos mr * 2 ^ k2) * 2 ^ n2) by ring.
      exact B2. }
    apply (round_window P T L U (Zpos mq) (Zpos mr) (2 ^ c) (2 ^ g)
                        (2 ^ k2 * 2 ^ n2) (2 ^ n2));
      solve [assumption | lia].
Qed.

(** ** getDashboardStats: the overall rate *)

Lemma count_status_le (s : AttendanceStatus) (l : list AttendanceStatus) :
  0 <= count_status s l <= Z.of_nat (length l).
Proof.
  unfold count_status. pose proof (filter_length_le (status_eqb s) l). lia.
Qed.

(** The rate of [p] present records out of [t]. *)
Lemma rate_of_counts (p t : Z) :
  0 <= p <= t -> 0 < t < 2 ^ 31 ->
  let rate :=
    JsNumber.Math_round
      (JsNumber.mul (JsNumber.div (JsNumber.of_int p) (JsNumber.of_int t))
                    (JsNumber.of_int 100)) in
  if halfway (100 * p) t
  then rate = JsNumber.of_int (round_half_up (100 * p) t)
       \/ rate = JsNumber.of_int (round_half_up (100 * p) t - 1)
  else rate = JsNumber.of_int (round_half_up (100 * p) t).
Proof.
  intros Hp Ht rate. unfold halfway, round_half_up.
  replace (2 * (100 * p) + t) with (200 * p + t) by ring.
  pose proof (Z.div_mod (200 * p + t) (2 * t) ltac:(lia)) as Hdm.
  pose proof (Z.mod_pos_bound (200 * p + t) (2 * t) ltac:(lia)) as Hmod.
  set (K := (200 * p + t) / (2 * t)) in *.
  set (r := (200 * p + t) mod (2 * t)) in *.
  destruct (Z.eq_dec p 0) as [->|Hp0].
  - (* no record is present *)
    assert (H3153 : 2 ^ 31 < 2 ^ 53) by reflexivity.
    destruct (of_int_finite t ltac:(lia)) as [m2 [b [ET _]]].
    assert (Hrate : rate = JsNumber.of_int 0).
    { unfold rate. rewrite ET. reflexivity. }
    assert (HK : K = 0) by nia.
    assert (Hr : r = t) by lia.
    rewrite Hrate, HK, Hr.
    replace (t =? 0) with false by (symmetry; apply Z.eqb_neq; lia).
    reflexivity.
  - destruct (rate_window p t ltac:(lia) ltac:(lia))
      as [mr [g [Hrate [Hg Hwin]]]].
    fold rate in Hrate. rewrite Hrate.
    assert (HG : 0 < 2 ^ g) by (apply Z.pow_pos_nonneg; lia).
    destruct (Z.eqb_spec r 0) as [Hr|Hr].
    + destruct (Hwin (K - 1) (K + 1) ltac:(nia)) as [Hlo Hhi].
      assert (Hq : K - 1 <= (2 * Z.pos mr + 2 ^ g) / (2 * 2 ^ g) < K + 1).
      { split.
        - apply Z.div_le_lower_bound; lia.
        - apply Z.div_lt_upper_bound; lia. }
      assert (Hcases : (2 * Z.pos mr + 2 ^ g) / (2 * 2 ^ g) = K
                       \/ (2 * Z.pos mr + 2 ^ g) / (2 * 2 ^ g) = K - 1)
        by lia.
      destruct Hcases as [-> | ->]; auto.
    + destruct (Hwin K (K + 1) ltac:(nia)) as [Hlo Hhi].
      f_equal. apply Z.le_antisymm.
      * assert ((2 * Z.pos mr + 2 ^ g) / (2 * 2 ^ g) < K + 1); [|lia].
        apply Z.div_lt_upper_bound; lia.
      * apply Z.div_le_lower_bound; lia.
Qed.

(** C4, as amended.  With fewer than 2^31 attendance records,
    [overallAttendanceRate] is 0 when there is none; otherwise it is
    100 x present / total rounded to the nearest integer whenever that
    fraction is not half-way between two integers, and one of the two
    neighbours when it is.  It is 100 when every record is present and 75
    for 3 present out of 4. *)
Theorem overallAttendanceRate_rounds (today : date) (st : Store) :
  let total := Z.of_nat (length (attendanceRecords st)) in
  let presentCount :=
    count_status present (map status (attendanceRecords st)) in
  let rate := overallAttendanceRate (getDashboardStats today st) in
  total < 2 ^ 31 ->
  (total = 0 -> rate = JsNumber.of_int 0)
  /\ (0 < total ->
      if halfway (100 * presentCount) total
      then rate = JsNumber.of_int (round_half_up (100 * presentCount) total)
           \/ rate
              = JsNumber.of_int (round_half_up (100 * presentCount) total - 1)
      else rate = JsNumber.of_int (round_half_up (100 * presentCount) total))
  /\ (0 < total -> presentCount = total -> rate = JsNumber.of_int 100)
  /\ (presentCount = 3 -> total = 4 -> rate = JsNumber.of_int 75).
Proof.
  intros total presentCount rate Hint.
  assert (Hrate : 0 < total ->
                  rate
                  = JsNumber.Math_round
                      (JsNumber.mul
                         (JsNumber.div (JsNumber.of_int presentCount)
                                       (JsNumber.of_int total))
                         (JsNumber.of_int 100))).
  { intros Hpos. unfold rate, getDashboardStats. cbn [overallAttendanceRate].
    unfold overallRate. fold total.
    replace (0 <? total) with true by (symmetry; apply Z.ltb_lt; lia).
    unfold sum_present.
    destruct (attendanceRecords st) as [|r l] eqn:E;
      [cbn in total; lia|reflexivity]. }
  assert (Hcount : 0 <= presentCount <= total).
  { unfold presentCount, total.
    pose proof (count_status_le present (map status (attendanceRecords st)))
      as H.
    now rewrite length_map in H. }
  assert (Hgeneral :
            0 < total ->
            if halfway (100 * presentCount) total
            then rate
                 = JsNumber.of_int (round_half_up (100 * presentCount) total)
                 \/ rate
                    = JsNumber.of_int
                        (round_half_up (100 * presentCount) total - 1)
            else rate
                 = JsNumber.of_int (round_half_up (100 * presentCount) total)).
  { intros Hpos. rewrite (Hrate Hpos).
    apply rate_of_counts; lia. }
  split; [|split; [exact Hgeneral|split]].
  - intros H0. unfold rate, getDashboardStats. cbn [overallAttendanceRate].
    unfold overallRate. fold total. now rewrite H0.
  - intros Hpos Hall. specialize (Hgeneral Hpos). rewrite Hall in Hgeneral.
    unfold halfway, round_half_up in Hgeneral.
    replace ((2 * (100 * total) + total) mod (2 * total)) with total
      in Hgeneral
      by (apply Z.mod_unique with 100; lia).
    replace ((2 * (100 * total) + total) / (2 * total)) with 100 in Hgeneral
      by (apply Z.div_unique with total; lia).
    replace (total =? 0) with false in Hgeneral
      by (symmetry; apply Z.eqb_neq; lia).
    exact Hgeneral.
  - intros H3 H4. specialize (Hgeneral ltac:(lia)).
    rewrite H3, H4 in Hgeneral. exact Hgeneral.
Qed.

Lemma overallAttendanceRate_rounds_witness :
  Z.of_nat (length (attendanceRecords (Examples.roll 3 4))) < 2 ^ 31
  /\ overallAttendanceRate (getDashboardStats 8775 (Examples.roll 3 4))
     = JsNumber.of_int 75.
Proof.
  split; [reflexivity|].
  apply (overallAttendanceRate_rounds 8775 (Examples.roll 3 4));
    reflexivity.
Defined.

(** C4 as stated fails with 23 records present out of 40: the quotient
    0.575 is not a binary64 number, the product with 100 falls just under
    57.5, and the rate is 57 where rounding 57.5 half up gives 58. *)
Lemma overallAttendanceRate_23_of_40 :
  count_status present
               (map status (attendanceRecords (Examples.roll 23 40))) = 23
  /\ Z.of_nat (length (attendanceRecords (Examples.roll 23 40))) = 40
  /\ round_half_up (100 * 23) 40 = 58
  /\ overallAttendanceRate (getDashboardStats 8775 (Examples.roll 23 40))
     = JsNumber.of_int 57
  /\ overallAttendanceRate (getDashboardStats 8775 (Examples.roll 23 40))
     <> JsNumber.of_int (round_half_up (100 * 23) 40).
Proof.
  repeat split; try reflexivity.
  vm_compute. discriminate.
Qed.

(** ** The constraints hold in every reachable store *)

Lemma NoDup_map_snoc {A B : Type} (f : A -> B) (l : list A) (x : A) :
  NoDup (map f l) -> ~ In (f x) (map f l) -> NoDup (map f (l ++ [x])).
Proof.
  intros Hnd Hx. rewrite map_app. cbn [map].
  apply (Permutation_NoDup (Permutation_cons_append _ _)).
  now constructor.
Qed.

Lemma NoDup_map_filter {Row Key : Type} (key : Row -> Key)
      (keep : Row -> bool) (rows : list Row) :
  NoDup (map key rows) -> NoDup (map key (filter keep rows)).
Proof.
  intros Hnd. induction rows as [|x rows IH]; cbn [map filter] in *;
    [constructor|].
  inversion Hnd as [|? ? Hnotin Hnd']; subst.
  destruct (keep x); [|now apply IH].
  cbn [map]. constructor; [|now apply IH].
  intros Hin. apply Hnotin. apply in_map_iff in Hin.
  destruct Hin as [y [Hy Hin]]. apply filter_In in Hin.
  rewrite <- Hy. apply in_map. apply Hin.
Qed.

Lemma Forall_filter_keep {A : Type} (P : A -> Prop) (p : A -> bool)
      (l : list A) :
  Forall P l -> Forall P (filter p l).
Proof.
  rewrite !Forall_forall. intros H x Hx. apply filter_In in Hx.
  now apply H.
Qed.

Lemma below_fresh {A : Type} (key : A -> Z) (l : list A) (k : Z) :
  Forall (fun x => key x < k) l -> ~ In k (map key l).
Proof.
  rewrite Forall_forall. intros H Hin. apply in_map_iff in Hin.
  destruct Hin as [x [Hk Hx]]. apply H in Hx. lia.
Qed.

Lemma Forall_below_more {A : Type} (key : A -> Z) (l : list A) (k k' : Z) :
  k <= k' -> Forall (fun x => key x < k) l -> Forall (fun x => key x < k') l.
Proof.
  intros Hk. apply Forall_impl. intros x Hx. lia.
Qed.

Lemma has_student_In (st : Store) (i : Z) :
  has_student st i = true <-> In i (map id (students st)).
Proof.
  unfold has_student. rewrite existsb_exists, in_map_iff.
  split; intros [s [H1 H2]]; exists s.
  - apply Z.eqb_eq in H2. auto.
  - split; [exact H2|now apply Z.eqb_eq].
Qed.

Lemma has_session_In (st : Store) (i : Z) :
  has_session st i = true <-> In i (map session_id (sessions st)).
Proof.
  unfold has_session. rewrite existsb_exists, in_map_iff.
  split; intros [s [H1 H2]]; exists s.
  - apply Z.eqb_eq in H2. auto.
  - split; [exact H2|now apply Z.eqb_eq].
Qed.

(** References stay when the parents a store has are still there. *)
Lemma references_stay (st st' : Store) (l : list AttendanceRecord) :
  (forall i, In i (map id (students st)) -> In i (map id (students st'))) ->
  (forall i, In i (map session_id (sessions st)) ->
             In i (map session_id (sessions st'))) ->
  Forall (fun r => has_student st (record_studentId r) = true
                   /\ has_session st (record_sessionId r) = true) l ->
  Forall (fun r => has_student st' (record_studentId r) = true
                   /\ has_session st' (record_sessionId r) = true) l.
Proof.
  intros Hs Hse. apply Forall_impl. intros r [H1 H2].
  rewrite has_student_In in *. rewrite has_session_In in *. auto.
Qed.

Lemma insert_student_constraints (v : InsertStudent) (st : Store) :
  constraints_hold st -> constraints_hold (snd (insert_student v st)).
Proof.
  intros [I1 I2 I3 I4 I5 I6 I7 I8]. unfold insert_student.
  destruct (50 <? String.length (ins_studentId v))%nat.
  { constructor; cbn [snd students students_seq sessions sessions_seq
                       attendanceRecords attendance_seq]; auto.
    eapply Forall_below_more; [|exact I2]. lia. }
  destruct (existsb _ (students st)) eqn:Edup.
  { constructor; cbn [snd students students_seq sessions sessions_seq
                       attendanceRecords attendance_seq]; auto.
    eapply Forall_below_more; [|exact I2]. lia. }
  constructor; cbn [snd students students_seq sessions sessions_seq
                     attendanceRecords attendance_seq]; auto.
  - apply NoDup_map_snoc; [exact I1|]. cbn [id]. now apply below_fresh.
  - apply Forall_app. split.
    + eapply Forall_below_more; [|exact I2]. lia.
    + constructor; [cbn; lia|constructor].
  - apply NoDup_map_snoc; [exact I7|]. cbn [studentId].
    intros Hin. apply in_map_iff in Hin. destruct Hin as [x [Hx Hin]].
    apply not_true_iff_false in Edup. apply Edup.
    apply existsb_exists. exists x. split; [exact Hin|].
    now apply String.eqb_eq.
  - eapply references_stay; [| |exact I8]; cbn [students sessions]; auto.
    intros i Hi. rewrite map_app. apply in_or_app. now left.
Qed.

Lemma insert_session_constraints (now : timestamp) (v : InsertSession)
      (st : Store) :
  constraints_hold st -> constraints_hold (snd (insert_session now v st)).
Proof.
  intros [I1 I2 I3 I4 I5 I6 I7 I8]. unfold insert_session.
  constructor; cbn [snd students students_seq sessions sessions_seq
                     attendanceRecords attendance_seq]; auto.
  - apply NoDup_map_snoc; [exact I3|]. cbn [session_id].
    now apply below_fresh.
  - apply Forall_app. split.
    + eapply Forall_below_more; [|exact I4]. lia.
    + constructor; [cbn; lia|constructor].
  - eapply references_stay; [| |exact I8]; cbn [students sessions]; auto.
    intros i Hi. rewrite map_app. apply in_or_app. now left.
Qed.

Lemma set_student_ids (p : PartialInsertStudent) (i : Z) (l : list Student) :
  map id (map (fun s => if id s =? i then set_student p s else s) l)
  = map id l.
Proof.
  rewrite map_map. apply map_ext. intros s. now destruct (id s =? i).
Qed.

Lemma set_student_unique (p : PartialInsertStudent) (i : Z)
      (l : list Student) :
  NoDup (map id l) -> NoDup (map studentId l) ->
  (forall sid, upd_studentId p = Some sid ->
               forall s, In s l -> id s <> i -> studentId s <> sid) ->
  NoDup (map studentId
             (map (fun s => if id s =? i then set_student p s else s) l)).
Proof.
  destruct (upd_studentId p) as [sid|] eqn:Esid.
  - intros Hid Hsid Hother. specialize (Hother sid eq_refl).
    induction l as [|x l IH]; [constructor|].
    cbn [map] in *.
    inversion Hid as [|? ? Hxid Hid']; subst.
    inversion Hsid as [|? ? Hxsid Hsid']; subst.
    assert (IH' := IH Hid' Hsid' (fun s Hs => Hother s (or_intror Hs))).
    constructor; [|exact IH'].
    rewrite map_map. intros Hin. apply in_map_iff in Hin.
    destruct Hin as [y [Hy Hin]].
    assert (Hyx : id y <> id x).
    { intros E. apply Hxid. rewrite <- E. now apply in_map. }
    destruct (Z.eqb_spec (id x) i) as [Ex|Ex];
      destruct (Z.eqb_spec (id y) i) as [Ey|Ey].
    + congruence.
    + unfold set_student in Hy. cbn [studentId] in Hy. rewrite Esid in Hy.
      cbn [or_keep] in Hy. now apply (Hother y (or_intror Hin) Ey).
    + unfold set_student in Hy. cbn [studentId] in Hy. rewrite Esid in Hy.
      cbn [or_keep] in Hy. apply (Hother x (or_introl eq_refl) Ex).
      congruence.
    + apply Hxsid. rewrite <- Hy. now apply in_map.
  - intros _ Hsid _.
    replace (map studentId
                 (map (fun s => if id s =? i then set_student p s else s) l))
      with (map studentId l); [exact Hsid|].
    rewrite map_map. apply map_ext. intros s.
    destruct (id s =? i); [|reflexivity].
    unfold set_student. cbn [studentId]. now rewrite Esid.
Qed.

Lemma update_students_constraints (p : PartialInsertStudent) (i : Z)
      (st : Store) :
  constraints_hold st ->
  constraints_hold (snd (update_students_set_where_id p i st)).
Proof.
  intros Hst. unfold update_students_set_where_id.
  destruct (no_values p); [exact Hst|].
  destruct (filter (fun s => id s =? i) (students st)) as [|target targets];
    [exact Hst|].
  destruct (check_student_id i p st) eqn:Echeck; [exact Hst|].
  destruct Hst as [I1 I2 I3 I4 I5 I6 I7 I8].
  constructor; cbn [snd students students_seq sessions sessions_seq
                     attendanceRecords attendance_seq]; auto.
  - now rewrite set_student_ids.
  - rewrite Forall_forall in *. intros s Hs. apply in_map_iff in Hs.
    destruct Hs as [x [<- Hx]]. specialize (I2 x Hx).
    now destruct (id x =? i).
  - apply set_student_unique; [exact I1|exact I7|].
    intros sid Hsid s Hs Hne Heq. unfold check_student_id in Echeck.
    rewrite Hsid in Echeck.
    destruct (50 <? String.length sid)%nat; [discriminate|].
    destruct (existsb _ (students st)) eqn:Eex; [discriminate|].
    apply not_true_iff_false in Eex. apply Eex.
    apply existsb_exists. exists s. split; [exact Hs|].
    apply andb_true_iff. split.
    + apply negb_true_iff. now apply Z.eqb_neq.
    + now apply String.eqb_eq.
  - eapply references_stay; [| |exact I8]; cbn [students sessions]; auto.
    intros k Hk. now rewrite set_student_ids.
Qed.

Lemma delete_students_constraints (i : Z) (st : Store) :
  constraints_hold st ->
  constraints_hold (snd (delete_students_where_id i st)).
Proof.
  intros [I1 I2 I3 I4 I5 I6 I7 I8]. unfold delete_students_where_id.
  constructor; cbn [snd students students_seq sessions sessions_seq
                     attendanceRecords attendance_seq]; auto.
  - now apply NoDup_map_filter.
  - now apply Forall_filter_keep.
  - now apply NoDup_map_filter.
  - now apply Forall_filter_keep.
  - now apply NoDup_map_filter.
  - rewrite Forall_forall in *. intros r Hr. apply filter_In in Hr.
    destruct Hr as [Hr Hkept]. destruct (I8 r Hr) as [Hs Hse].
    split; [|exact Hse].
    apply negb_true_iff in Hkept. rewrite cascade_rows in Hkept.
    unfold has_student in *. cbn [students].
    apply existsb_exists in Hs. destruct Hs as [s [Hin Hid]].
    apply existsb_exists. exists s. split; [|exact Hid].
    apply filter_In. split; [exact Hin|].
    apply Z.eqb_eq in Hid. rewrite Hid.
    destruct (Z.eqb_spec (record_studentId r) i) as [E|E]; [|reflexivity].
    exfalso. rewrite andb_true_r in Hkept.
    apply not_true_iff_false in Hkept. apply Hkept.
    apply existsb_exists. exists s. split; [exact Hin|].
    apply Z.eqb_eq. congruence.
Qed.

Lemma delete_attendance_constraints (sid : Z) (st : Store) :
  constraints_hold st ->
  constraints_hold (delete_attendance_where_sessionId sid st).
Proof.
  intros [I1 I2 I3 I4 I5 I6 I7 I8]. unfold delete_attendance_where_sessionId.
  constructor; cbn [students students_seq sessions sessions_seq
                     attendanceRecords attendance_seq]; auto.
  - now apply NoDup_map_filter.
  - now apply Forall_filter_keep.
  - apply Forall_filter_keep. exact I8.
Qed.

Lemma insert_attendance_constraints (now : timestamp)
      (rs : list InsertAttendanceRecord) (st : Store) :
  constraints_hold st ->
  constraints_hold (snd (insert_attendance now rs st)).
Proof.
  intros Hst. unfold insert_attendance.
  destruct rs as [|r rs]; [exact Hst|].
  destruct Hst as [I1 I2 I3 I4 I5 I6 I7 I8].
  set (batch := r :: rs).
  assert (Hlen : 0 <= Z.of_nat (length batch)) by lia.
  destruct (forallb (references_ok st) batch) eqn:Hok.
  - pose proof (attendance_rows_ids (attendance_seq st) now batch) as Hids.
    constructor; cbn [snd students students_seq sessions sessions_seq
                       attendanceRecords attendance_seq]; auto.
    + rewrite map_app. apply NoDup_app;
        [exact I5|apply attendance_rows_NoDup|].
      intros k Hold Hnew.
      apply in_map_iff in Hold. destruct Hold as [old [<- Hold]].
      apply in_map_iff in Hnew. destruct Hnew as [row [Hk Hnew]].
      rewrite Forall_forall in I6, Hids.
      specialize (I6 old Hold). specialize (Hids row Hnew). lia.
    + apply Forall_app. split.
      * eapply Forall_below_more; [|exact I6]. lia.
      * eapply Forall_impl; [|exact Hids]. cbn. intros row [H _]. lia.
    + apply Forall_app. split; [exact I8|].
      rewrite forallb_forall in Hok.
      clear Hids. unfold batch in *. clear batch Hlen.
      generalize (attendance_seq st) as k.
      induction (r :: rs) as [|x l IH]; intros k; [constructor|].
      cbn [attendance_rows]. constructor.
      * specialize (Hok x (or_introl eq_refl)). unfold references_ok in Hok.
        apply andb_true_iff in Hok. exact Hok.
      * apply IH. intros y Hy. apply Hok. now right.
  - constructor; cbn [snd students students_seq sessions sessions_seq
                       attendanceRecords attendance_seq]; auto.
    eapply Forall_below_more; [|exact I6]. lia.
Qed.

Lemma empty_store_constraints : constraints_hold empty_store.
Proof. constructor; cbn; constructor. Qed.

Lemma run_constraints (c : Call) (st : Store) :
  constraints_hold st -> constraints_hold (run c st).
Proof.
  intros Hst. destruct c as [v|i p|i|now v|now r|now rs]; cbn [run].
  - unfold createStudent.
    pose proof (insert_student_constraints v st Hst) as H.
    destruct (insert_student v st) as [[[|x l]|e] st']; exact H.
  - unfold updateStudent.
    pose proof (update_students_constraints p i st Hst) as H.
    destruct (update_students_set_where_id p i st) as [[rows|e] st'];
      exact H.
  - unfold deleteStudent.
    pose proof (delete_students_constraints i st Hst) as H.
    destruct (delete_students_where_id i st) as [rows st']. exact H.
  - unfold createSession.
    pose proof (insert_session_constraints now v st Hst) as H.
    destruct (insert_session now v st) as [[[|x l]|e] st']; exact H.
  - unfold createAttendanceRecord.
    pose proof (insert_attendance_constraints now [r] st Hst) as H.
    destruct (insert_attendance now [r] st) as [[[|x l]|e] st']; exact H.
  - unfold createBulkAttendance. destruct rs as [|first rest]; [exact Hst|].
    apply insert_attendance_constraints.
    now apply delete_attendance_constraints.
Qed.

(** Every store the storage layer can bring about satisfies the
    constraints of the schema. *)
Theorem reachable_constraints (st : Store) :
  reachable st -> constraints_hold st.
Proof.
  induction 1 as [|c st Hst IH].
  - exact empty_store_constraints.
  - now apply run_constraints.
Qed.

Corollary reachable_primary_keys (st : Store) :
  reachable st -> primary_keys st /\ unique_student_ids st.
Proof.
  intros H. apply reachable_constraints in H.
  destruct H as [I1 _ I3 _ _ _ I7 _]. repeat split; assumption.
Qed.

(** In a reachable store no record is orphaned, so the list of attendance
    records has them all. *)
Corollary reachable_lists_every_record {collation : Collation} (st : Store) :
  reachable st ->
  Permutation (map joined_record (getAttendanceRecords st))
              (attendanceRecords st).
Proof.
  intros H. pose proof (reachable_constraints st H) as Hc.
  destruct (reachable_primary_keys st H) as [Hpk _].
  rewrite (getAttendanceRecords_joined st Hpk).
  rewrite (Permutation_map _ (order_by_perm joined_leb _)).
  rewrite joined_rows_records.
  replace (filter (references_both st) (attendanceRecords st))
    with (attendanceRecords st); [reflexivity|].
  symmetry. apply forallb_filter_id. apply forallb_forall.
  intros r Hr. destruct Hc as [_ _ _ _ _ _ _ I8].
  rewrite Forall_forall in I8. destruct (I8 r Hr) as [H1 H2].
  unfold references_both. now rewrite H1, H2.
Qed.

(** ** The theorems at work on the classroom *)

#[local] Existing Instance Examples.byte_order.
#[local] Existing Instance Examples.at_sign.

Ltac distinct_keys :=
  repeat (constructor; [cbn; intuition discriminate|]); constructor.

Lemma classroom_primary_keys : primary_keys Examples.classroom.
Proof. split; distinct_keys. Defined.

Lemma todayAttendance_counts_witness :
  NoDup (map session_id (sessions Examples.classroom))
  /\ (let t := todayAttendance (getDashboardStats 8775 Examples.classroom) in
      let statuses := map status (recorded_today 8775 Examples.classroom) in
      today_present t = count_status present statuses
      /\ today_absent t = count_status absent statuses
      /\ today_late t = count_status late statuses
      /\ today_excused t = count_status excused statuses
      /\ today_present t + today_absent t + today_late t + today_excused t
         = Z.of_nat (length (recorded_today 8775 Examples.classroom))).
Proof.
  split; [distinct_keys|].
  apply (todayAttendance_counts 8775 Examples.classroom). distinct_keys.
Defined.

Lemma getAttendanceRecords_witness :
  primary_keys Examples.classroom
  /\ Permutation (map joined_record (getAttendanceRecords Examples.classroom))
                 (filter (references_both Examples.classroom)
                         (attendanceRecords Examples.classroom))
  /\ Forall (joined_with_its_rows Examples.classroom)
            (getAttendanceRecords Examples.classroom)
  /\ StronglySorted date_desc_lastName_asc
                    (getAttendanceRecords Examples.classroom).
Proof.
  split; [exact classroom_primary_keys|].
  apply (getAttendanceRecords_inner_join_ordered Examples.classroom).
  exact classroom_primary_keys.
Defined.

(** The record of the missing student is not listed, and the later
    lecture comes first. *)
Example getAttendanceRecords_with_orphan :
  map (fun j => record_id (joined_record j))
      (getAttendanceRecords Examples.with_orphan)
  = [3; 1; 2].
Proof. reflexivity. Qed.

Lemma deleteStudent_cascades_witness :
  exists st',
    deleteStudent 1 Examples.classroom = (true, st')
    /\ Permutation (students Examples.classroom)
                   (Examples.ann :: students st')
    /\ students st' = [Examples.bob]
    /\ sessions st' = sessions Examples.classroom
    /\ map record_id (attendanceRecords st') = [2]
    /\ (length (attendanceRecords st') = 3 - 2)%nat.
Proof.
  destruct (deleteStudent_cascades Examples.classroom Examples.ann 2
              classroom_primary_keys (or_introl eq_refl) eq_refl)
    as [st' [Hcall [Hperm [Hst [Hse [Hatt [Hlen _]]]]]]].
  exists st'. rewrite Hatt. rewrite Hatt in Hlen. repeat split; assumption.
Defined.

Lemma post_students_duplicate_witness :
  unique_student_ids Examples.classroom
  /\ exists st',
      post_students Examples.second_S1 Examples.classroom
      = (mkResponse 500 (JsonError "Failed to create student"), st')
      /\ students st' = students Examples.classroom
      /\ sessions st' = sessions Examples.classroom
      /\ attendanceRecords st' = attendanceRecords Examples.classroom
      /\ filter (fun x => String.eqb (studentId x) "S1") (getStudents st')
         = [Examples.ann].
Proof.
  split; [unfold unique_student_ids; distinct_keys|].
  apply (post_students_duplicate
           Examples.second_S1
           (mkInsertStudent "S1" "Zed" "Zee" "zed@x.com" None)
           Examples.ann Examples.classroom).
  - unfold unique_student_ids. distinct_keys.
  - reflexivity.
  - left. reflexivity.
  - reflexivity.
Defined.

(** C8 as stated fails: the second create with Ann's [studentId] is
    answered with status 500, which is no client error. *)
Lemma duplicate_studentId_answers_500 :
  status_code (fst (post_students Examples.second_S1 Examples.classroom))
  = 500
  /\ client_error (fst (post_students Examples.second_S1 Examples.classroom))
     = false.
Proof. split; reflexivity. Qed.

Lemma post_attendance_bulk_rejects_witness :
  exists errors,
    post_attendance_bulk 30 (JObject Examples.bulk_with_asleep)
                         Examples.classroom
    = (mkResponse 400 (JsonIssues errors), Examples.classroom).
Proof.
  destruct (createAttendanceSchema_rejects Examples.asleep) as [e He].
  { right. right. intros s Hs. injection Hs as <-. reflexivity. }
  apply (post_attendance_bulk_rejects
           30 Examples.bulk_with_asleep _ Examples.asleep e
           Examples.classroom eq_refl (or_intror (or_introl eq_refl)) He).
Defined.

(** * Further properties of the storage layer *)

(** ** getStudents, getSessions and the recent sessions *)

Section Listings.
Context {collation : Collation}.

Lemma students_leb_spec (a b : Student) :
  students_leb a b = true <-> lastName_firstName_asc a b.
Proof.
  unfold students_leb, lastName_firstName_asc.
  destruct (text_leb (lastName a) (lastName b)) eqn:Eab.
  - destruct (text_leb (lastName b) (lastName a)) eqn:Eba.
    + split; [intros H; split; auto|intros [_ H]; auto].
    + split; [intros _; split; [reflexivity|discriminate]|reflexivity].
  - split; [discriminate|intros [H _]; discriminate].
Qed.

Lemma students_leb_total (a b : Student) :
  students_leb a b = true \/ students_leb b a = true.
Proof.
  unfold students_leb.
  destruct (text_leb_total (lastName a) (lastName b)) as [H|H];
    rewrite H.
  - destruct (text_leb (lastName b) (lastName a)); [|now left].
    apply text_leb_total.
  - destruct (text_leb (lastName a) (lastName b)); [|now right].
    apply text_leb_total.
Qed.

Lemma students_leb_trans (a b c : Student) :
  students_leb a b = true -> students_leb b c = true ->
  students_leb a c = true.
Proof.
  rewrite !students_leb_spec. unfold lastName_firstName_asc.
  intros [Hab Fab] [Hbc Fbc]. split.
  - eapply text_leb_trans; eassumption.
  - intros Hca.
    assert (Hcb : text_leb (lastName c) (lastName b) = true)
      by (eapply text_leb_trans; eassumption).
    assert (Hba : text_leb (lastName b) (lastName a) = true)
      by (eapply text_leb_trans; eassumption).
    eapply text_leb_trans; [apply Fab|apply Fbc]; assumption.
Qed.

(** X1.  [getStudents] returns every student once, by last name and, among
    last names that compare equal, by first name. *)
Theorem getStudents_sorted (st : Store) :
  Permutation (getStudents st) (students st)
  /\ StronglySorted lastName_firstName_asc (getStudents st).
Proof.
  unfold getStudents. split; [apply order_by_perm|].
  eapply StronglySorted_impl;
    [|apply (order_by_sorted students_leb students_leb_total
                             students_leb_trans)].
  intros a b. apply students_leb_spec.
Qed.

End Listings.

Lemma sessions_leb_total (a b : Session) :
  sessions_leb a b = true \/ sessions_leb b a = true.
Proof. unfold sessions_leb. rewrite !Z.leb_le. lia. Qed.

Lemma sessions_leb_trans (a b c : Session) :
  sessions_leb a b = true -> sessions_leb b c = true ->
  sessions_leb a c = true.
Proof. unfold sessions_leb. rewrite !Z.leb_le. lia. Qed.


(** X2.  [getSessions] returns every session once, latest date first. *)
Theorem getSessions_sorted (st : Store) :
  Permutation (getSessions st) (sessions st)
  /\ StronglySorted date_desc (getSessions st).
Proof.
  unfold getSessions. split; [apply order_by_perm|].
  eapply StronglySorted_impl;
    [|apply (order_by_sorted sessions_leb sessions_leb_total
                             sessions_leb_trans)].
  intros a b. unfold sessions_leb, date_desc. apply Z.leb_le.
Qed.



(** ** createStudent, createSession and createAttendanceRecord *)

Lemma no_row_with_drawn_key {A : Type} (key : A -> Z) (l : list A) (k : Z) :
  Forall (fun x => key x < k) l -> filter (fun x => key x =? k) l = [].
Proof.
  intros Hbelow. rewrite (filter_ext_in _ (fun _ => false));
    [apply filter_false|].
  intros x Hx. rewrite Forall_forall in Hbelow. specialize (Hbelow x Hx).
  apply Z.eqb_neq. lia.
Qed.

(** X4.  A student whose [studentId] is new and at most 50 characters long is
    stored under the next identity value, which no student has; it is
    returned with the fields given, [getStudent] finds it under that id,
    and no other row of any table changes. *)
Theorem createStudent_stores (v : InsertStudent) (st : Store) :
  Forall (fun s => id s < students_seq st) (students st) ->
  (String.length (ins_studentId v) <= 50)%nat ->
  (forall s, In s (students st) -> studentId s <> ins_studentId v) ->
  let new := mkStudent (students_seq st) (ins_studentId v) (ins_firstName v)
                       (ins_lastName v) (ins_email v)
                       (nullable (ins_photoUrl v)) in
  exists st',
    createStudent v st = (Ok new, st')
    /\ ~ In (id new) (map id (students st))
    /\ students st' = students st ++ [new]
    /\ getStudent (id new) st' = Some new
    /\ sessions st' = sessions st
    /\ attendanceRecords st' = attendanceRecords st.
Proof.
  intros Hdrawn Hlen Hnew new. unfold createStudent, insert_student.
  replace (50 <? String.length (ins_studentId v))%nat with false
    by (symmetry; apply Nat.ltb_ge; exact Hlen).
  replace (existsb _ (students st)) with false.
  2:{ symmetry. apply not_true_iff_false. intros H.
      apply existsb_exists in H. destruct H as [s [Hs Heq]].
      apply String.eqb_eq in Heq. now apply (Hnew s Hs). }
  fold new. eexists. split; [reflexivity|].
  change (id new) with (students_seq st).
  cbn [students sessions attendanceRecords].
  split; [now apply below_fresh|]. split; [reflexivity|].
  split; [|split; reflexivity].
  unfold getStudent. cbn [students]. rewrite filter_app.
  rewrite (no_row_with_drawn_key id _ _ Hdrawn).
  cbn [app filter]. change (id new) with (students_seq st).
  now rewrite Z.eqb_refl.
Qed.


Lemma createAttendanceRecord_accepted (now : timestamp)
      (r : InsertAttendanceRecord) (st : Store) :
  references_ok st r = true ->
  createAttendanceRecord now r st
  = (Ok (attendance_row (attendance_seq st) now r),
     mkStore (students st) (students_seq st) (sessions st) (sessions_seq st)
             (attendanceRecords st
              ++ [attendance_row (attendance_seq st) now r])
             (attendance_seq st + 1)).
Proof.
  intros Hok. unfold createAttendanceRecord, insert_attendance.
  cbn [forallb]. rewrite Hok. reflexivity.
Qed.

(** X6.  The single-record path only adds: recording the same student at the
    same session twice leaves every earlier row in place and two new rows
    with the fields of the record, under two different ids. *)
Theorem createAttendanceRecord_twice (now1 now2 : timestamp)
        (r : InsertAttendanceRecord) (st : Store) :
  references_ok st r = true ->
  exists row1 row2 st1 st2,
    createAttendanceRecord now1 r st = (Ok row1, st1)
    /\ createAttendanceRecord now2 r st1 = (Ok row2, st2)
    /\ attendanceRecords st2 = attendanceRecords st ++ [row1; row2]
    /\ record_fields row1 = insert_fields r
    /\ record_fields row2 = insert_fields r
    /\ record_id row1 <> record_id row2.
Proof.
  intros Hok.
  rewrite (createAttendanceRecord_accepted now1 r st Hok).
  eexists. eexists. eexists. eexists. split; [reflexivity|].
  rewrite createAttendanceRecord_accepted by exact Hok.
  split; [reflexivity|].
  cbn [attendanceRecords attendance_seq]. rewrite <- app_assoc.
  split; [reflexivity|]. split; [reflexivity|]. split; [reflexivity|].
  cbn. lia.
Qed.

(** X7.  A record that names a student or a session the store does not have is
    refused, and no row of any table changes. *)
Theorem createAttendanceRecord_refused (now : timestamp)
        (r : InsertAttendanceRecord) (st : Store) :
  references_ok st r = false ->
  exists st',
    createAttendanceRecord now r st = (Err ForeignKeyViolation, st')
    /\ students st' = students st
    /\ sessions st' = sessions st
    /\ attendanceRecords st' = attendanceRecords st.
Proof.
  intros Hno. unfold createAttendanceRecord, insert_attendance.
  cbn [forallb]. rewrite Hno. cbn [andb].
  eexists. split; [reflexivity|]. repeat split.
Qed.

(** ** createBulkAttendance and getAttendanceBySession *)

Lemma filter_other_keys {Row : Type} (key : Row -> Z) (k target : Z)
      (rows : list Row) :
  filter (fun r => key r =? k)
         (filter (fun r => negb (key r =? target)) rows)
  = if k =? target then [] else filter (fun r => key r =? k) rows.
Proof.
  destruct (Z.eqb_spec k target) as [->|Hne].
  - apply filter_none. intros x Hx. now rewrite Hx.
  - rewrite filter_comm.
    rewrite (filter_ext_in _ (fun _ => true)); [apply filter_true|].
    intros x Hx. apply filter_In in Hx. destruct Hx as [_ Hx].
    apply Z.eqb_eq in Hx. apply negb_true_iff. apply Z.eqb_neq. lia.
Qed.

Lemma bulk_rows_by_session (now : timestamp)
        (first : InsertAttendanceRecord) (rest : list InsertAttendanceRecord)
        (sid : Z) (st : Store) :
  forallb (references_ok st) (first :: rest) = true ->
  exists rows st',
    createBulkAttendance now (first :: rest) st = (Ok rows, st')
    /\ length rows = length (first :: rest)
    /\ getAttendanceBySession sid st'
       = (if sid =? ins_record_sessionId first then []
          else getAttendanceBySession sid st)
         ++ filter (fun r => record_sessionId r =? sid) rows.
Proof.
  intros Hok. rewrite (createBulkAttendance_accepted _ _ _ _ Hok).
  eexists. eexists. split; [reflexivity|]. split.
  - rewrite <- (length_map record_fields), attendance_rows_fields.
    apply length_map.
  - unfold getAttendanceBySession, other_sessions.
    cbn [attendanceRecords]. rewrite filter_app. f_equal.
    apply (filter_other_keys record_sessionId).
Qed.

(** X8.  After an accepted bulk call the target session has the rows of the
    batch for it and no other; any other session keeps its rows and gains
    the rows of the batch that name it. *)
Theorem createBulkAttendance_by_session (now : timestamp)
        (first : InsertAttendanceRecord) (rest : list InsertAttendanceRecord)
        (sid : Z) (st : Store) :
  forallb (references_ok st) (first :: rest) = true ->
  exists rows st',
    createBulkAttendance now (first :: rest) st = (Ok rows, st')
    /\ length rows = length (first :: rest)
    /\ getAttendanceBySession sid st'
       = (if sid =? ins_record_sessionId first then []
          else getAttendanceBySession sid st)
         ++ filter (fun r => record_sessionId r =? sid) rows.
Proof.
  intros Hok. rewrite (createBulkAttendance_accepted _ _ _ _ Hok).
  eexists. eexists. split; [reflexivity|]. split.
  - rewrite <- (length_map record_fields), attendance_rows_fields.
    apply length_map.
  - unfold getAttendanceBySession, other_sessions.
    cbn [attendanceRecords]. rewrite filter_app. f_equal.
    apply (filter_other_keys record_sessionId).
Qed.

(** X9.  A bulk call that is refused has already emptied the target session:
    it returns the error, the rows of the other sessions stay, and no
    record of the batch is stored. *)
Theorem createBulkAttendance_refused_empties (now : timestamp)
        (first : InsertAttendanceRecord) (rest : list InsertAttendanceRecord)
        (st : Store) :
  forallb (references_ok st) (first :: rest) = false ->
  exists st',
    createBulkAttendance now (first :: rest) st
    = (Err ForeignKeyViolation, st')
    /\ getAttendanceBySession (ins_record_sessionId first) st' = []
    /\ attendanceRecords st'
       = other_sessions (ins_record_sessionId first) st
    /\ students st' = students st
    /\ sessions st' = sessions st.
Proof.
  intros Hno. rewrite (createBulkAttendance_refused _ _ _ _ Hno).
  eexists. split; [reflexivity|]. cbn [students sessions attendanceRecords].
  split; [|repeat split].
  unfold getAttendanceBySession, other_sessions. cbn [attendanceRecords].
  apply filter_none. intros x Hx. now rewrite Hx.
Qed.

(** X10.  A second call with the same batch stores the records that name
    another session than the first record's a second time: the rows of
    such a session are the rows it had after the first call, followed by
    the records of the batch for it. *)
Theorem createBulkAttendance_twice_other_session (now1 now2 : timestamp)
        (first : InsertAttendanceRecord) (rest : list InsertAttendanceRecord)
        (sid : Z) (st : Store) :
  forallb (references_ok st) (first :: rest) = true ->
  sid <> ins_record_sessionId first ->
  let once := snd (createBulkAttendance now1 (first :: rest) st) in
  let twice := snd (createBulkAttendance now2 (first :: rest) once) in
  map record_fields (getAttendanceBySession sid twice)
  = map record_fields (getAttendanceBySession sid once)
    ++ filter (fun f => snd (fst (fst f)) =? sid)
              (map insert_fields (first :: rest)).
Proof.
  intros Hok Hsid once twice.
  assert (Hok' : forallb (references_ok once) (first :: rest) = true).
  { rewrite <- Hok. apply references_ok_parents;
      apply createBulkAttendance_keeps_parents. }
  destruct (bulk_rows_by_session now2 first rest sid once Hok')
    as [rows [st2 [Hcall [_ Hrows]]]].
  unfold twice. rewrite Hcall. cbn [snd]. rewrite Hrows.
  replace (sid =? ins_record_sessionId first) with false
    by (symmetry; now apply Z.eqb_neq).
  rewrite map_app. f_equal.
  rewrite (createBulkAttendance_accepted _ _ _ _ Hok') in Hcall.
  assert (Hrows' : rows
                   = attendance_rows (attendance_seq once) now2
                                     (first :: rest)) by congruence.
  now rewrite Hrows', map_fields_filter_session, attendance_rows_fields.
Qed.

(** ** deleteStudent and updateStudent behind their routes *)

Lemma getStudent_after_delete (i j : Z) (st : Store) :
  getStudent j (snd (deleteStudent i st))
  = if j =? i then None else getStudent j st.
Proof.
  unfold deleteStudent, delete_students_where_id, getStudent.
  cbn [snd students]. rewrite (filter_other_keys id).
  now destruct (j =? i).
Qed.

(** X11.  Deleting a student that is there is answered with 204: the student
    can no longer be found, every other student can, and the sessions are
    as before. *)
Theorem delete_students_found (i : Z) (st : Store) :
  has_student st i = true ->
  exists st',
    delete_students i st = (mkResponse 204 NoBody, st')
    /\ getStudent i st' = None
    /\ (forall j, j <> i -> getStudent j st' = getStudent j st)
    /\ sessions st' = sessions st.
Proof.
  intros Hthere. apply has_student_In in Hthere.
  apply in_map_iff in Hthere. destruct Hthere as [s [<- Hs]].
  pose proof (deleteStudent_existing st s Hs) as Hdel.
  assert (Hget : forall j,
             getStudent j (snd (deleteStudent (id s) st))
             = if j =? id s then None else getStudent j st)
    by (intros j; apply getStudent_after_delete).
  unfold delete_students.
  destruct (deleteStudent (id s) st) as [found st'].
  injection Hdel as -> Hst'. cbn [snd] in Hget.
  exists st'. split; [reflexivity|]. split; [|split].
  - rewrite Hget. now rewrite Z.eqb_refl.
  - intros j Hj. rewrite Hget.
    now replace (j =? id s) with false by (symmetry; now apply Z.eqb_neq).
  - now rewrite Hst'.
Qed.


Lemma filter_key_map {Row : Type} (key : Row -> Z) (change : Row -> Row)
      (k : Z) (rows : list Row) :
  (forall r, key (change r) = key r) ->
  filter (fun r => key r =? k) (map change rows)
  = map change (filter (fun r => key r =? k) rows).
Proof.
  intros Hkey. induction rows as [|r rows IH]; [reflexivity|].
  cbn [map filter]. rewrite Hkey, IH. now destruct (key r =? k).
Qed.

Lemma getStudent_after_set (p : PartialInsertStudent) (i j : Z)
      (l : list Student) :
  hd_error (filter (fun s => id s =? j)
                   (map (fun x => if id x =? i then set_student p x else x)
                        l))
  = if j =? i
    then option_map (set_student p)
                    (hd_error (filter (fun s => id s =? j) l))
    else hd_error (filter (fun s => id s =? j) l).
Proof.
  rewrite (filter_key_map id).
  2:{ intros r. now destruct (id r =? i). }
  destruct (Z.eqb_spec j i) as [->|Hne].
  - rewrite (map_ext_in _ (set_student p)).
    + now destruct (filter (fun s => id s =? i) l).
    + intros a Ha. apply filter_In in Ha. destruct Ha as [_ Ha].
      now rewrite Ha.
  - rewrite (map_ext_in _ (fun x => x)); [now rewrite map_id|].
    intros a Ha. apply filter_In in Ha. destruct Ha as [_ Ha].
    apply Z.eqb_eq in Ha.
    now replace (id a =? i) with false by (symmetry; apply Z.eqb_neq; lia).
Qed.

(** X13.  An accepted update changes the one student it names: that student
    is returned and found with the named fields replaced, its id and the
    ids of the table stay, and every other student, the sessions and the
    attendance records are as before. *)
Theorem updateStudent_changes_one (p : PartialInsertStudent) (s : Student)
        (st : Store) :
  NoDup (map id (students st)) ->
  In s (students st) ->
  no_values p = false ->
  check_student_id (id s) p st = None ->
  exists st',
    updateStudent (id s) p st = (Ok (Some (set_student p s)), st')
    /\ getStudent (id s) st' = Some (set_student p s)
    /\ (forall j, j <> id s -> getStudent j st' = getStudent j st)
    /\ map id (students st') = map id (students st)
    /\ sessions st' = sessions st
    /\ attendanceRecords st' = attendanceRecords st.
Proof.
  intros Hkeys Hs Hvalues Hcheck.
  rewrite (updateStudent_merges p s st Hkeys Hs Hvalues Hcheck).
  eexists. split; [reflexivity|].
  cbn [students sessions attendanceRecords]. unfold getStudent.
  cbn [students].
  assert (Hone : filter (fun x => id x =? id s) (students st) = [s]).
  { rewrite (filter_ext _ (fun b => id s =? id b))
      by (intros a; apply Z.eqb_sym).
    rewrite (filter_primary_key id _ _ Hkeys).
    destruct (row_with_key id (id s) (students st)) as [b|] eqn:Eb.
    - apply (row_with_key_In id) in Eb. destruct Eb as [Hb Hid].
      now rewrite (NoDup_key_inj id (students st) b s Hkeys Hb Hs Hid).
    - apply (row_with_key_None id) in Eb.
      assert (Hin : existsb (fun b => id b =? id s) (students st) = true).
      { apply existsb_exists. exists s. split; [exact Hs|apply Z.eqb_refl]. }
      congruence. }
  split; [|split; [|split; [|split; reflexivity]]].
  - rewrite getStudent_after_set, Z.eqb_refl, Hone. reflexivity.
  - intros j Hj. rewrite getStudent_after_set.
    now replace (j =? id s) with false by (symmetry; now apply Z.eqb_neq).
  - rewrite map_map. apply map_ext. intros a.
    now destruct (id a =? id s).
Qed.


Section PatchRoute.
Context {syntax : EmailSyntax}.


(** X15.  A valid body that gives a student the [studentId] of another
    student is answered with 500, and the store is as before. *)
Theorem patch_students_taken_studentId (req_body : json)
        (p : PartialInsertStudent) (s other : Student) (st : Store) :
  updateStudentSchema (Some req_body) = Ok p ->
  In s (students st) ->
  In other (students st) ->
  id other <> id s ->
  upd_studentId p = Some (studentId other) ->
  patch_students (id s) req_body st
  = (mkResponse 500 (JsonError "Failed to update student"), st).
Proof.
  intros Hbody Hs Hother Hne Hsid. unfold patch_students. rewrite Hbody.
  unfold updateStudent, update_students_set_where_id.
  replace (no_values p) with false
    by (unfold no_values; now rewrite Hsid).
  destruct (filter (fun x => id x =? id s) (students st))
    as [|target targets] eqn:Ef.
  { assert (Hin : In s (filter (fun x => id x =? id s) (students st)))
      by (apply filter_In; split; [exact Hs|apply Z.eqb_refl]).
    rewrite Ef in Hin. destruct Hin. }
  assert (Hcheck : exists e, check_student_id (id s) p st = Some e).
  { unfold check_student_id. rewrite Hsid.
    destruct (50 <? String.length (studentId other))%nat;
      [now eexists|].
    replace (existsb _ (students st)) with true; [now eexists|].
    symmetry. apply existsb_exists. exists other. split; [exact Hother|].
    apply andb_true_iff. split.
    - apply negb_true_iff. now apply Z.eqb_neq.
    - apply String.eqb_refl. }
  destruct Hcheck as [e ->]. reflexivity.
Qed.

End PatchRoute.

(** ** Validation and storage behind POST /api/students *)

Lemma under_accepts {A : Type} (k : PathElem) (r : parsed A) (a : A) :
  under k r = Ok a -> r = Ok a.
Proof. destruct r; [trivial|discriminate]. Qed.

Lemma z_string_min1_accepts (msg : string) (v : option json) (a : string) :
  z_string_min1 msg v = Ok a -> v = Some (JString a) /\ a <> EmptyString.
Proof.
  unfold z_string_min1, z_string. destruct v as [[| | |x| |]|]; try discriminate.
  cbn [bind]. destruct x as [|c x]; cbn; [discriminate|].
  intros H. injection H as <-. split; [reflexivity|discriminate].
Qed.

Section PostStudents.
Context {syntax : EmailSyntax}.

Lemma z_string_email_accepts (msg : string) (v : option json) (a : string) :
  z_string_email msg v = Ok a -> v = Some (JString a) /\ is_email a = true.
Proof.
  unfold z_string_email, z_string.
  destruct v as [[| | |x| |]|]; try discriminate.
  cbn [bind]. destruct (is_email x) eqn:E; [|discriminate].
  intros H. injection H as <-. now split.
Qed.



(** X17.  A body whose email is a string of the wrong syntax is answered with
    400; the issue named for [email] is among those reported, and nothing
    is stored. *)
Theorem post_students_invalid_email (o : list (string * json))
        (mail : string) (st : Store) :
  get "email" o = Some (JString mail) ->
  is_email mail = false ->
  exists errors,
    post_students (JObject o) st = (mkResponse 400 (JsonIssues errors), st)
    /\ In (mkIssue [Key "email"] "Invalid email address") errors.
Proof.
  intros Hget Hsyntax. unfold post_students, createStudentSchema.
  assert (Hmail : field "email" (z_string_email "Invalid email address") o
                  = Err [mkIssue [Key "email"] "Invalid email address"]).
  { unfold field, z_string_email, z_string. rewrite Hget. cbn [bind].
    now rewrite Hsyntax. }
  cbv zeta. rewrite Hmail.
  destruct (field "studentId" _ o) as [a|ea];
    destruct (field "firstName" _ o) as [b|eb];
    destruct (field "lastName" _ o) as [c|ec];
    destruct (field "photoUrl" _ o) as [e|ee];
    (eexists; split; [reflexivity|]);
    do 3 (apply in_or_app; right); apply in_or_app; left; now left.
Qed.


End PostStudents.

(** ** The overall attendance rate is a percentage *)

Lemma round_half_up_percentage (p t : Z) :
  0 <= p <= t -> 0 < t ->
  0 <= round_half_up (100 * p) t <= 100
  /\ (halfway (100 * p) t = true -> 1 <= round_half_up (100 * p) t).
Proof.
  intros Hp Ht. unfold round_half_up, halfway.
  pose proof (Z.div_mod (2 * (100 * p) + t) (2 * t) ltac:(lia)) as Hdm.
  pose proof (Z.mod_pos_bound (2 * (100 * p) + t) (2 * t) ltac:(lia)) as Hm.
  set (q := (2 * (100 * p) + t) / (2 * t)) in *.
  set (r := (2 * (100 * p) + t) mod (2 * t)) in *.
  assert (Hq0 : 0 <= q) by (apply Z.div_pos; lia).
  assert (Hq100 : q <= 100).
  { destruct (Z.le_gt_cases q 100) as [Hle|Hgt]; [exact Hle|].
    assert (2 * t * 101 <= 2 * t * q)
      by (apply Z.mul_le_mono_nonneg_l; lia).
    lia. }
  split; [lia|]. intros Hhalf. apply Z.eqb_eq in Hhalf.
  destruct (Z.eq_dec q 0) as [Hz|Hnz]; [|lia].
  rewrite Hz, Hhalf in Hdm. lia.
Qed.

(** X19.  With fewer than 2^31 records the overall attendance rate is an
    integer from 0 to 100; it is 0 when no record says present. *)
Theorem overallAttendanceRate_percentage (today : date) (st : Store) :
  Z.of_nat (length (attendanceRecords st)) < 2 ^ 31 ->
  (exists n,
      overallAttendanceRate (getDashboardStats today st) = JsNumber.of_int n
      /\ 0 <= n <= 100)
  /\ (count_status present (map status (attendanceRecords st)) = 0 ->
      overallAttendanceRate (getDashboardStats today st) = JsNumber.of_int 0).
Proof.
  intros Hint.
  set (total := Z.of_nat (length (attendanceRecords st))) in *.
  set (presentCount := count_status present (map status (attendanceRecords st))).
  assert (Hcount : 0 <= presentCount <= total).
  { unfold presentCount, total.
    pose proof (count_status_le present (map status (attendanceRecords st)))
      as H.
    now rewrite length_map in H. }
  unfold getDashboardStats. cbn [overallAttendanceRate]. unfold overallRate.
  fold total. destruct (Z.ltb_spec 0 total) as [Hpos|Hzero].
  2:{ split; [exists 0; split; [reflexivity|lia]|reflexivity]. }
  replace (or_zero (sum_present (attendanceRecords st))) with presentCount.
  2:{ unfold sum_present, presentCount.
      destruct (attendanceRecords st); [cbn in total; lia|reflexivity]. }
  pose proof (rate_of_counts presentCount total Hcount ltac:(lia)) as Hrate.
  cbv zeta in Hrate.
  destruct (round_half_up_percentage presentCount total Hcount Hpos)
    as [Hbound Hhalf].
  split.
  - destruct (halfway (100 * presentCount) total).
    + destruct Hrate as [-> | ->]; eexists; (split; [reflexivity|]);
        specialize (Hhalf eq_refl); lia.
    + rewrite Hrate. eexists. split; [reflexivity|lia].
  - intros Hnone. rewrite Hnone in *.
    assert (Hno : halfway (100 * 0) total = false).
    { unfold halfway. apply Z.eqb_neq.
      rewrite Z.mod_small; lia. }
    rewrite Hno in Hrate. rewrite Hrate. unfold round_half_up.
    now rewrite Z.div_small by lia.
Qed.

(** ** Any sequence of calls on the empty store *)

Lemma reachable_calls (calls : list Call) :
  reachable (fold_left (fun st c => run c st) calls empty_store).
Proof.
  induction calls as [|c calls IH] using rev_ind; [exact reachable_empty|].
  rewrite fold_left_app. cbn [fold_left]. now apply reachable_run.
Qed.

(** X20.  Whatever calls of the storage layer are made on the empty store, in
    whatever order and whether they succeed or fail, the store keeps the
    constraints of the schema: primary keys are distinct and below their
    sequences, [studentId] is unique, and every attendance record names
    a student and a session that are there. *)
Theorem calls_keep_constraints (calls : list Call) :
  constraints_hold (fold_left (fun st c => run c st) calls empty_store).
Proof. apply reachable_constraints, reachable_calls. Qed.

Section EveryRecordListed.
Context {collation : Collation}.

(** X21.  After any sequence of calls on the empty store the joined listing
    has every attendance record exactly once: no record is left out for
    want of its student or its session. *)
Theorem getAttendanceRecords_lists_all (calls : list Call) :
  let st := fold_left (fun st c => run c st) calls empty_store in
  Permutation (map joined_record (getAttendanceRecords st))
              (attendanceRecords st).
Proof. apply reachable_lists_every_record, reachable_calls. Qed.

End EveryRecordListed.

(** * The attendance page *)

Import AttendancePage.

(** ** Reading and writing the attendance state *)

Lemma lookup_assign (k k' : Z) (e : Entry) (state : AttendanceState) :
  lookup k' (assign k e state)
  = if k' =? k then Some e else lookup k' state.
Proof.
  induction state as [|[k1 e1] rest IH]; [reflexivity|].
  cbn [assign]. destruct (Z.ltb_spec k k1) as [Hlt|Hge]; [reflexivity|].
  destruct (Z.eqb_spec k k1) as [->|Hne]; cbn [lookup].
  - now destruct (k' =? k1).
  - rewrite IH. destruct (Z.eqb_spec k' k1) as [->|Hne'];
      [|reflexivity].
    now replace (k1 =? k) with false by (symmetry; apply Z.eqb_neq; lia).
Qed.

Lemma lookup_keys (k : Z) (state : AttendanceState) :
  lookup k state <> None <-> In k (map fst state).
Proof.
  induction state as [|[k1 e1] rest IH]; cbn [lookup map fst In].
  - tauto.
  - destruct (Z.eqb_spec k k1) as [->|Hne].
    + split; [now left|discriminate].
    + rewrite IH. split; [now right|]. intros [H|H]; [congruence|exact H].
Qed.

Lemma assign_keys (k x : Z) (e : Entry) (state : AttendanceState) :
  In x (map fst (assign k e state)) <-> x = k \/ In x (map fst state).
Proof.
  rewrite <- !lookup_keys, lookup_assign.
  destruct (Z.eqb_spec x k) as [->|Hne].
  - split; [now left|discriminate].
  - split; [now right|]. intros [H|H]; [congruence|exact H].
Qed.

Lemma assign_entries (holds : Entry -> Prop) (k : Z) (e : Entry)
      (state : AttendanceState) :
  holds e -> Forall (fun kv => holds (snd kv)) state ->
  Forall (fun kv => holds (snd kv)) (assign k e state).
Proof.
  intros He. induction 1 as [|[k1 e1] rest H1 Hrest IH]; cbn [assign].
  - now repeat constructor.
  - destruct (k <? k1); [now repeat constructor|].
    destruct (k =? k1); constructor; assumption.
Qed.

Lemma assign_ascending (k : Z) (e : Entry) (state : AttendanceState) :
  StronglySorted Z.lt (map fst state) ->
  StronglySorted Z.lt (map fst (assign k e state)).
Proof.
  induction state as [|[k1 e1] rest IH]; intros Hs; cbn [assign].
  - repeat constructor.
  - cbn [map fst] in Hs. apply StronglySorted_inv in Hs.
    destruct Hs as [Hrest Hk1].
    destruct (Z.ltb_spec k k1) as [Hlt|Hge].
    + cbn [map fst]. constructor.
      * now constructor.
      * constructor; [exact Hlt|].
        eapply Forall_impl; [|exact Hk1]. cbn. intros a Ha. lia.
    + destruct (Z.eqb_spec k k1) as [->|Hne]; cbn [map fst].
      * now constructor.
      * constructor; [now apply IH|].
        apply Forall_forall. intros x Hx. apply assign_keys in Hx.
        destruct Hx as [->|Hx]; [lia|].
        rewrite Forall_forall in Hk1. now apply Hk1.
Qed.

(** The state [forEach] builds from a roster, [entry_for] giving the
    entry of a student id. *)
Lemma lookup_roster (entry_for : Z -> Entry) (roster : list Student)
      (k : Z) (acc : AttendanceState) :
  lookup k (fold_left (fun state student =>
                         assign (id student) (entry_for (id student)) state)
                      roster acc)
  = if existsb (fun x => id x =? k) roster then Some (entry_for k)
    else lookup k acc.
Proof.
  revert acc. induction roster as [|x roster IH]; intros acc;
    [reflexivity|].
  cbn [fold_left existsb]. rewrite IH, lookup_assign.
  destruct (existsb (fun x0 => id x0 =? k) roster).
  - now rewrite orb_true_r.
  - rewrite orb_false_r, (Z.eqb_sym (id x) k).
    destruct (Z.eqb_spec k (id x)) as [->|]; reflexivity.
Qed.

Lemma roster_ascending (entry_for : Z -> Entry) (roster : list Student)
      (acc : AttendanceState) :
  StronglySorted Z.lt (map fst acc) ->
  StronglySorted Z.lt
    (map fst (fold_left (fun state student =>
                           assign (id student) (entry_for (id student))
                                  state)
                        roster acc)).
Proof.
  revert acc. induction roster as [|x roster IH]; intros acc Hacc;
    [exact Hacc|].
  cbn [fold_left]. apply IH. now apply assign_ascending.
Qed.

Lemma roster_entries (holds : Entry -> Prop) (entry_for : Z -> Entry)
      (roster : list Student) (acc : AttendanceState) :
  (forall k, holds (entry_for k)) ->
  Forall (fun kv => holds (snd kv)) acc ->
  Forall (fun kv => holds (snd kv))
         (fold_left (fun state student =>
                       assign (id student) (entry_for (id student)) state)
                    roster acc).
Proof.
  intros Hall. revert acc. induction roster as [|x roster IH];
    intros acc Hacc; [exact Hacc|].
  cbn [fold_left]. apply IH. now apply assign_entries.
Qed.

(** ** handleSessionCreated and handleMarkAllPresent *)

(** X22.  Choosing a session when the roster has loaded selects it and gives
    every student of the roster, and nobody else, the entry
    [{ status: "present", notes: "" }], whatever the state was. *)
Theorem handleSessionCreated_marks_roster (roster : list Student)
        (session : Session) (s : State) (k : Z) :
  let s' := handleSessionCreated (Some roster) session s in
  selectedSession s' = Some session
  /\ lookup k (attendanceState s')
     = if existsb (fun x => id x =? k) roster
       then Some (mkEntry (Some present) (Some EmptyString))
       else None.
Proof.
  split; [reflexivity|]. cbn [handleSessionCreated attendanceState].
  apply (lookup_roster (fun _ => mkEntry (Some present) (Some EmptyString))).
Qed.

(** X23.  Marking all present gives every student of the roster the status
    present and keeps the notes typed for that student; entries of
    students that are not on the roster are dropped, and the selected
    session stays. *)
Theorem handleMarkAllPresent_keeps_notes (roster : list Student) (s : State)
        (k : Z) :
  let s' := handleMarkAllPresent (Some roster) s in
  selectedSession s' = selectedSession s
  /\ lookup k (attendanceState s')
     = if existsb (fun x => id x =? k) roster
       then Some (mkEntry (Some present)
                          (Some (notes_or_empty
                                   (lookup k (attendanceState s)))))
       else None.
Proof.
  split; [reflexivity|]. cbn [handleMarkAllPresent attendanceState].
  apply (lookup_roster
           (fun i => mkEntry (Some present)
                             (Some (notes_or_empty
                                      (lookup i (attendanceState s)))))).
Qed.

(** ** The state while the roster is loaded *)

Lemma lookup_In (k : Z) (e : Entry) (state : AttendanceState) :
  lookup k state = Some e -> In (k, e) state.
Proof.
  induction state as [|[k1 e1] rest IH]; cbn [lookup]; [discriminate|].
  destruct (Z.eqb_spec k k1) as [->|Hne].
  - intros H. injection H as ->. now left.
  - intros H. right. now apply IH.
Qed.

Lemma roster_keys (entry_for : Z -> Entry) (roster : list Student) (k : Z) :
  In k (map fst (fold_left (fun state student =>
                              assign (id student) (entry_for (id student))
                                     state)
                           roster []))
  <-> In k (map id roster).
Proof.
  rewrite <- lookup_keys, lookup_roster. cbn [lookup].
  destruct (existsb (fun x => id x =? k) roster) eqn:E.
  - split; [|discriminate]. intros _.
    apply existsb_exists in E. destruct E as [x [Hx Hk]].
    apply Z.eqb_eq in Hk. subst k. now apply in_map.
  - split; [congruence|]. intros Hin. apply in_map_iff in Hin.
    destruct Hin as [x [Hk Hx]].
    assert (existsb (fun x => id x =? k) roster = true); [|congruence].
    apply existsb_exists. exists x. split; [exact Hx|].
    now apply Z.eqb_eq.
Qed.

(** What holds of the state while the roster is loaded. *)
Lemma on_roster_step (roster : list Student) (s : State) (e : Event) :
  on_roster roster e ->
  (selectedSession s <> None
   /\ (forall k, In k (map fst (attendanceState s)) <-> In k (map id roster))
   /\ Forall (fun kv => marked (snd kv)) (attendanceState s)) ->
  selectedSession (handle s e) <> None
  /\ (forall k, In k (map fst (attendanceState (handle s e)))
                <-> In k (map id roster))
  /\ Forall (fun kv => marked (snd kv)) (attendanceState (handle s e)).
Proof.
  intros He [Hsel [Hkeys Hmarked]].
  destruct e as [students session|k status|k notes|students];
    cbn [on_roster] in He; cbn [handle].
  - subst students. cbn [handleSessionCreated selectedSession attendanceState].
    split; [discriminate|]. split.
    + intros k.
      apply (roster_keys
               (fun _ => mkEntry (Some present) (Some EmptyString))).
    + apply (roster_entries marked
               (fun _ => mkEntry (Some present) (Some EmptyString)));
        [discriminate|constructor].
  - cbn [handleStatusChange selectedSession attendanceState].
    split; [exact Hsel|]. split.
    + intros x. rewrite assign_keys, Hkeys.
      split; [intros [->|H]; assumption|now right].
    + apply (assign_entries marked); [|exact Hmarked].
      unfold with_status. now destruct (lookup k (attendanceState s)).
  - cbn [handleNotesChange selectedSession attendanceState].
    split; [exact Hsel|]. split.
    + intros x. rewrite assign_keys, Hkeys.
      split; [intros [->|H]; assumption|now right].
    + apply (assign_entries marked); [|exact Hmarked].
      apply Hkeys, lookup_keys in He.
      destruct (lookup k (attendanceState s)) as [e|] eqn:El;
        [|congruence].
      apply lookup_In in El. rewrite Forall_forall in Hmarked.
      exact (Hmarked _ El).
  - subst students. cbn [handleMarkAllPresent selectedSession attendanceState].
    split; [exact Hsel|]. split.
    + intros k.
      apply (roster_keys
               (fun i => mkEntry (Some present)
                                 (Some (notes_or_empty
                                          (lookup i (attendanceState s)))))).
    + apply (roster_entries marked
               (fun i => mkEntry (Some present)
                                 (Some (notes_or_empty
                                          (lookup i (attendanceState s))))));
        [discriminate|constructor].
Qed.

(** X24.  Once a session is chosen with the roster loaded, the state has one
    entry for each student of the roster and for nobody else, and every
    entry has a status, whatever rows are clicked or annotated and however
    often all are marked present or another session is chosen. *)
Theorem roster_loaded_all_marked (roster : list Student) (session : Session)
        (s0 : State) (events : list Event) :
  Forall (on_roster roster) events ->
  let s := fold_left handle events
                     (handleSessionCreated (Some roster) session s0) in
  selectedSession s <> None
  /\ (forall k, In k (map fst (attendanceState s)) <-> In k (map id roster))
  /\ Forall (fun kv => marked (snd kv)) (attendanceState s).
Proof.
  intros Hevents. cbv zeta.
  induction events as [|e events IH] using rev_ind.
  - cbn [fold_left handleSessionCreated selectedSession attendanceState].
    split; [discriminate|]. split.
    + intros k.
      apply (roster_keys
               (fun _ => mkEntry (Some present) (Some EmptyString))).
    + apply (roster_entries marked
               (fun _ => mkEntry (Some present) (Some EmptyString)));
        [discriminate|constructor].
  - rewrite fold_left_app. cbn [fold_left].
    apply Forall_app in Hevents. destruct Hevents as [Hevents He].
    apply Forall_inv in He.
    apply (on_roster_step roster _ e He). now apply IH.
Qed.

(** ** What saving sends *)

Lemma handle_ascending (s : State) (e : Event) :
  StronglySorted Z.lt (map fst (attendanceState s)) ->
  StronglySorted Z.lt (map fst (attendanceState (handle s e))).
Proof.
  intros Hs. destruct e as [[roster|] session|k status|k notes|[roster|]];
    cbn [handle handleSessionCreated handleStatusChange handleNotesChange
         handleMarkAllPresent attendanceState];
    try exact Hs; try (now apply assign_ascending).
  - apply (roster_ascending
             (fun _ => mkEntry (Some present) (Some EmptyString))).
    constructor.
  - apply (roster_ascending
             (fun i => mkEntry (Some present)
                               (Some (notes_or_empty
                                        (lookup i (attendanceState s)))))).
    constructor.
Qed.

Lemma ascending_NoDup (keys : list Z) :
  StronglySorted Z.lt keys -> NoDup keys.
Proof.
  induction 1 as [|k keys Hkeys IH Hk]; constructor; [|exact IH].
  intros Hin. rewrite Forall_forall in Hk. specialize (Hk k Hin). lia.
Qed.

(** X25.  Whatever happened on the page since it was opened, saving without a
    selected session throws, and otherwise sends one record for each
    entry of the state: all of them name the selected session, and no
    student is named twice. *)
Theorem save_request_one_session (events : list Event) :
  let s := fold_left handle events initial in
  match selectedSession s with
  | None => save_request s = Err "No session selected"%string
  | Some session =>
      exists records,
        save_request s = Ok (JObject [("records"%string,
                                       JArray (map record_json records))])
        /\ length records = length (attendanceState s)
        /\ Forall (fun r => bulk_sessionId r = session_id session) records
        /\ NoDup (map bulk_studentId records)
  end.
Proof.
  cbv zeta.
  assert (Hsorted : StronglySorted
                      Z.lt
                      (map fst (attendanceState
                                  (fold_left handle events initial)))).
  { induction events as [|e events IH] using rev_ind; [constructor|].
    rewrite fold_left_app. cbn [fold_left]. now apply handle_ascending. }
  unfold save_request.
  destruct (selectedSession (fold_left handle events initial))
    as [session|]; [|reflexivity].
  eexists. split; [reflexivity|]. unfold records_of.
  split; [apply length_map|]. split.
  - apply Forall_forall. intros r Hr. apply in_map_iff in Hr.
    now destruct Hr as [kv [<- _]].
  - rewrite map_map. cbn [bulk_studentId]. now apply ascending_NoDup.
Qed.

(** ** From the page to the store *)

Lemma z_status_text (x : AttendanceStatus) :
  z_status (Some (JString (status_text x))) = Ok x.
Proof. now destruct x. Qed.

Lemma z_int_whole (k : Z) : z_int (Some (JNumber k 1)) = Ok k.
Proof. unfold z_int. now rewrite Z.mod_1_r, Z.div_1_r. Qed.

Lemma z_notes_or_null (n : option string) :
  z_optional (z_nullable z_string)
             (Some match n with
                   | Some text => JString text
                   | None => JNull
                   end)
  = Ok (Some n).
Proof. now destruct n. Qed.

Lemma createAttendanceSchema_marked (r : BulkRecord) (x : AttendanceStatus) :
  bulk_status r = Some x ->
  createAttendanceSchema (Some (record_json r))
  = Ok (mkInsertAttendanceRecord (bulk_studentId r) (bulk_sessionId r) x
                                 (Some (bulk_notes r))).
Proof.
  intros Hx. unfold createAttendanceSchema, record_json, field.
  rewrite Hx.
  change (get "studentId" _) with (Some (JNumber (bulk_studentId r) 1)).
  change (get "sessionId" _) with (Some (JNumber (bulk_sessionId r) 1)).
  change (get "status" _) with (Some (JString (status_text x))).
  change (get "notes" _)
    with (Some match bulk_notes r with
               | Some text => JString text
               | None => JNull
               end).
  now rewrite !z_int_whole, z_status_text, z_notes_or_null.
Qed.

Lemma createAttendanceSchema_unmarked (r : BulkRecord) :
  bulk_status r = None ->
  exists e, createAttendanceSchema (Some (record_json r)) = Err e.
Proof.
  intros Hx. unfold createAttendanceSchema, record_json, field.
  rewrite Hx.
  change (get "studentId" _) with (Some (JNumber (bulk_studentId r) 1)).
  change (get "sessionId" _) with (Some (JNumber (bulk_sessionId r) 1)).
  change (get "status" _) with (@None json).
  rewrite !z_int_whole. cbn [under z_status issue].
  destruct (under (Key "notes") _); eexists; reflexivity.
Qed.

Lemma z_items_marked (session : Session) (state : AttendanceState) (i : nat) :
  Forall (fun kv => marked (snd kv)) state ->
  z_items createAttendanceSchema i
          (map record_json (records_of session state))
  = Ok (map (validated_record session) state).
Proof.
  intros Hmarked. revert i.
  induction Hmarked as [|[k e] rest Hk Hrest IH]; intros i; [reflexivity|].
  cbn [records_of map z_items] in *. unfold marked in Hk. cbn [snd] in Hk.
  destruct (entry_status e) as [x|] eqn:Ex; [|congruence].
  rewrite (createAttendanceSchema_marked _ x) by exact Ex.
  cbn [under]. rewrite IH. unfold validated_record.
  cbn [fst snd bulk_studentId bulk_sessionId bulk_notes]. now rewrite Ex.
Qed.

Lemma filter_all {Row : Type} (keep : Row -> bool) (rows : list Row) :
  (forall r, In r rows -> keep r = true) -> filter keep rows = rows.
Proof.
  intros Hall. rewrite (filter_ext_in keep (fun _ => true));
    [apply filter_true|exact Hall].
Qed.

(** X26.  Saving a state in which every entry has a status, for a session and
    students the store has, is answered with 201.  The rows returned say
    of each student what the state says, with empty notes stored as null;
    unless the state is empty they are afterwards all the rows of the
    session, whatever rows it had before. *)
Theorem save_request_accepted (now : timestamp) (session : Session)
        (s : State) (st : Store) :
  selectedSession s = Some session ->
  Forall (fun kv => marked (snd kv)) (attendanceState s) ->
  has_session st (session_id session) = true ->
  Forall (fun kv => has_student st (fst kv) = true) (attendanceState s) ->
  exists req_body rows st',
    save_request s = Ok req_body
    /\ post_attendance_bulk now req_body st
       = (mkResponse 201 (JsonAttendance rows), st')
    /\ map row_columns rows
       = map (entry_columns session) (attendanceState s)
    /\ (attendanceState s <> [] ->
        getAttendanceBySession (session_id session) st' = rows)
    /\ students st' = students st
    /\ sessions st' = sessions st.
Proof.
  intros Hsel Hmarked Hsession Hstudents.
  assert (Hcolumns : forall kv,
             marked (snd kv) ->
             (fun f : Z * Z * AttendanceStatus * option string =>
                (fst (fst (fst f)), snd (fst (fst f)),
                 Some (snd (fst f)), snd f))
               (insert_fields (validated_record session kv))
             = entry_columns session kv).
  { intros [k e] Hk. unfold marked in Hk. cbn [snd] in Hk.
    unfold entry_columns, insert_fields, validated_record. cbn.
    destruct (entry_status e); [|congruence].
    now destruct (notes_or_null (entry_notes e)). }
  assert (Hbody : bulkAttendanceSchema
                    (Some (JObject
                             [("records"%string,
                               JArray (map record_json
                                           (records_of session
                                                       (attendanceState s))))]))
                  = Ok (map (validated_record session) (attendanceState s))).
  { unfold bulkAttendanceSchema, field.
    change (get "records" _)
      with (Some (JArray (map record_json
                              (records_of session (attendanceState s))))).
    cbn [z_array]. now rewrite (z_items_marked session _ 0%nat Hmarked). }
  unfold save_request, post_attendance_bulk. rewrite Hsel.
  destruct (attendanceState s) as [|kv rest] eqn:Estate.
  - eexists. eexists. eexists. split; [reflexivity|]. rewrite Hbody.
    cbn [map createBulkAttendance].
    split; [reflexivity|]. split; [reflexivity|].
    split; [congruence|]. split; reflexivity.
  - assert (Hok : forallb (references_ok st)
                          (map (validated_record session) (kv :: rest))
                  = true).
    { apply forallb_forall. intros r Hr. apply in_map_iff in Hr.
      destruct Hr as [x [<- Hx]]. rewrite Forall_forall in Hstudents.
      unfold references_ok, validated_record.
      cbn [ins_record_studentId ins_record_sessionId].
      now rewrite (Hstudents x Hx), Hsession. }
    eexists. eexists. eexists. split; [reflexivity|]. rewrite Hbody.
    change (map (validated_record session) (kv :: rest))
      with (validated_record session kv
            :: map (validated_record session) rest) in *.
    rewrite (createBulkAttendance_accepted now _ _ st Hok).
    split; [reflexivity|].
    set (rows := attendance_rows (attendance_seq st) now _).
    assert (Hfields : map record_fields rows
                      = map insert_fields
                            (map (validated_record session) (kv :: rest)))
      by apply attendance_rows_fields.
    split; [|split; [|split; reflexivity]].
    + change row_columns
        with (fun r => (fun f : Z * Z * AttendanceStatus * option string =>
                          (fst (fst (fst f)), snd (fst (fst f)),
                           Some (snd (fst f)), snd f))
                         (record_fields r)).
      rewrite <- (map_map record_fields), Hfields, !map_map.
      apply map_ext_in. intros x Hx. apply Hcolumns.
      rewrite Forall_forall in Hmarked. now apply Hmarked.
    + intros _. unfold getAttendanceBySession, other_sessions.
      cbn [attendanceRecords ins_record_sessionId validated_record].
      rewrite filter_app.
      rewrite (filter_none (fun r => record_sessionId r =? session_id session))
        by (intros x Hx; now rewrite Hx).
      cbn [app]. apply filter_all. intros r Hr.
      apply (in_map record_fields) in Hr. rewrite Hfields in Hr.
      rewrite map_map in Hr. apply in_map_iff in Hr.
      destruct Hr as [x [Hx _]].
      unfold record_fields, insert_fields, validated_record in Hx.
      cbn in Hx. apply Z.eqb_eq. congruence.
Qed.

Lemma assign_In (k : Z) (e : Entry) (state : AttendanceState) :
  In (k, e) (assign k e state).
Proof.
  apply lookup_In. now rewrite lookup_assign, Z.eqb_refl.
Qed.

(** X27.  A note typed for a student who has no entry in the state makes an
    entry without a status; saving is then answered with 400 and stores
    nothing, whatever else the state holds. *)
Theorem notes_without_entry_rejected (now : timestamp) (session : Session)
        (k : Z) (text : string) (s : State) (st : Store) :
  selectedSession s = Some session ->
  lookup k (attendanceState s) = None ->
  exists req_body errors,
    save_request (handleNotesChange k text s) = Ok req_body
    /\ post_attendance_bulk now req_body st
       = (mkResponse 400 (JsonIssues errors), st).
Proof.
  intros Hsel Hnone.
  set (state := assign k (mkEntry None (Some text)) (attendanceState s)).
  set (r := mkBulkRecord k (session_id session) None
                         (notes_or_null (Some text))).
  destruct (createAttendanceSchema_unmarked r eq_refl) as [e He].
  destruct (z_items_rejects createAttendanceSchema 0
              (map record_json (records_of session state))
              (record_json r) e) as [e' He']; [|exact He|].
  { apply in_map. unfold records_of.
    apply (in_map (fun entry =>
                     mkBulkRecord (fst entry) (session_id session)
                                  (entry_status (snd entry))
                                  (notes_or_null (entry_notes (snd entry))))
                  state (k, mkEntry None (Some text))).
    apply assign_In. }
  unfold save_request, handleNotesChange.
  cbn [selectedSession attendanceState]. rewrite Hsel, Hnone.
  cbn [with_notes]. fold state. eexists. eexists. split; [reflexivity|].
  unfold post_attendance_bulk, bulkAttendanceSchema, field.
  change (get "records" _)
    with (Some (JArray (map record_json (records_of session state)))).
  cbn [z_array]. rewrite He'. cbn [under]. reflexivity.
Qed.

(** * The student form *)

Import StudentsPage.

Lemma z_string_min1_text (msg a : string) :
  a <> EmptyString -> z_string_min1 msg (Some (JString a)) = Ok a.
Proof.
  intros Ha. unfold z_string_min1. cbn [z_string bind].
  destruct a; [congruence|reflexivity].
Qed.

Section StudentForm.
Context {syntax : EmailSyntax}.

Lemma z_string_email_text (msg a : string) :
  is_email a = true -> z_string_email msg (Some (JString a)) = Ok a.
Proof.
  intros Ha. unfold z_string_email. cbn [z_string bind]. now rewrite Ha.
Qed.

Lemma studentFormSchema_accepted (values : json) (data : StudentFormValues) :
  studentFormSchema (Some values) = Ok data ->
  form_studentId data <> EmptyString
  /\ form_firstName data <> EmptyString
  /\ form_lastName data <> EmptyString
  /\ is_email (form_email data) = true.
Proof.
  unfold studentFormSchema. destruct values as [| | | | |o];
    try discriminate.
  unfold field.
  destruct (under (Key "studentId") _) as [a|] eqn:Ea; [|discriminate].
  destruct (under (Key "firstName") _) as [b|] eqn:Eb; [|discriminate].
  destruct (under (Key "lastName") _) as [c|] eqn:Ec; [|discriminate].
  destruct (under (Key "email") _) as [d|] eqn:Ed; [|discriminate].
  destruct (under (Key "photoUrl") _) as [e|] eqn:Ee; [|discriminate].
  intros H. injection H as <-. cbn.
  apply under_accepts, z_string_min1_accepts in Ea, Eb, Ec.
  apply under_accepts, z_string_email_accepts in Ed.
  intuition.
Qed.

Lemma createStudentSchema_request_body (data : StudentFormValues)
      (photo : option string) :
  form_studentId data <> EmptyString ->
  form_firstName data <> EmptyString ->
  form_lastName data <> EmptyString ->
  is_email (form_email data) = true ->
  createStudentSchema (Some (request_body data photo))
  = Ok (mkInsertStudent (form_studentId data) (form_firstName data)
                        (form_lastName data) (form_email data)
                        (option_map Some photo)).
Proof.
  intros Ha Hb Hc Hd. unfold createStudentSchema, request_body, field.
  destruct photo as [url|].
  - change (get "studentId" _) with (Some (JString (form_studentId data))).
    change (get "firstName" _) with (Some (JString (form_firstName data))).
    change (get "lastName" _) with (Some (JString (form_lastName data))).
    change (get "email" _) with (Some (JString (form_email data))).
    change (get "photoUrl" _) with (Some (JString url)).
    now rewrite !z_string_min1_text, z_string_email_text by assumption.
  - change (get "studentId" _) with (Some (JString (form_studentId data))).
    change (get "firstName" _) with (Some (JString (form_firstName data))).
    change (get "lastName" _) with (Some (JString (form_lastName data))).
    change (get "email" _) with (Some (JString (form_email data))).
    change (get "photoUrl" _) with (@None json).
    now rewrite !z_string_min1_text, z_string_email_text by assumption.
Qed.

(** X28.  What the form submits passes the validation of both student routes
    with the values of the form, the photo being the one of the dialog;
    the update it asks for always names values to set. *)
Theorem submit_passes_validation (values : json) (photo : option string)
        (req_body : json) :
  submit values photo = Ok req_body ->
  exists data,
    studentFormSchema (Some values) = Ok data
    /\ createStudentSchema (Some req_body)
       = Ok (mkInsertStudent (form_studentId data) (form_firstName data)
                             (form_lastName data) (form_email data)
                             (option_map Some photo))
    /\ exists p,
        updateStudentSchema (Some req_body) = Ok p
        /\ upd_photoUrl p = option_map Some photo
        /\ no_values p = false.
Proof.
  unfold submit.
  destruct (studentFormSchema (Some values)) as [data|e] eqn:Edata;
    [|discriminate].
  cbn [bind]. intros H. injection H as <-.
  destruct (studentFormSchema_accepted values data Edata)
    as [Ha [Hb [Hc Hd]]].
  pose proof (createStudentSchema_request_body data photo Ha Hb Hc Hd)
    as Hcreate.
  exists data. split; [reflexivity|]. split; [exact Hcreate|].
  eexists. split.
  - apply (updateStudentSchema_all_fields _ _ Hcreate).
  - split; reflexivity.
Qed.

(** X29.  Editing a student with the form, its [studentId] left as it is, is
    answered with 200: the names and the email become those of the form,
    and the photo becomes the one of the dialog, or stays when the dialog
    has none. *)
Theorem edit_form_updates (values : json) (data : StudentFormValues)
        (photo : option string) (s : Student) (st : Store) :
  studentFormSchema (Some values) = Ok data ->
  form_studentId data = studentId s ->
  (String.length (studentId s) <= 50)%nat ->
  NoDup (map id (students st)) ->
  unique_student_ids st ->
  In s (students st) ->
  let updated :=
    mkStudent (id s) (studentId s) (form_firstName data)
              (form_lastName data) (form_email data)
              match photo with
              | Some url => Some url
              | None => photoUrl s
              end in
  exists st',
    patch_students (id s) (request_body data photo) st
    = (mkResponse 200 (JsonStudent updated), st')
    /\ getStudent (id s) st' = Some updated
    /\ length (students st') = length (students st).
Proof.
  intros Edata Hsame Hlen Hkeys Hunique Hs updated.
  destruct (studentFormSchema_accepted values data Edata)
    as [Ha [Hb [Hc Hd]]].
  pose proof (createStudentSchema_request_body data photo Ha Hb Hc Hd)
    as Hcreate.
  unfold patch_students, request_body in *.
  rewrite (updateStudentSchema_all_fields _ _ Hcreate).
  cbn [ins_studentId ins_firstName ins_lastName ins_email ins_photoUrl].
  set (p := mkPartialStudent _ _ _ _ _).
  assert (Hcheck : check_student_id (id s) p st = None).
  { unfold check_student_id, p. cbn [upd_studentId]. rewrite Hsame.
    replace (50 <? String.length (studentId s))%nat with false
      by (symmetry; now apply Nat.ltb_ge).
    replace (existsb _ (students st)) with false; [reflexivity|].
    symmetry. apply not_true_iff_false. intros H.
    apply existsb_exists in H. destruct H as [x [Hx Hboth]].
    apply andb_true_iff in Hboth. destruct Hboth as [Hother Heq].
    assert (Hin : In x (filter (fun y => String.eqb (studentId y)
                                                      (studentId s))
                               (students st)))
      by (apply filter_In; now split).
    rewrite (filter_unique_key studentId _ s Hunique Hs) in Hin.
    destruct Hin as [<-|[]]. now rewrite Z.eqb_refl in Hother. }
  rewrite (updateStudent_merges p s st Hkeys Hs eq_refl Hcheck).
  assert (Hset : set_student p s = updated).
  { unfold set_student, p, updated. cbn. rewrite Hsame.
    now destruct photo. }
  rewrite Hset. eexists. split; [reflexivity|].
  unfold getStudent. cbn [students]. split; [|apply length_map].
  rewrite getStudent_after_set, Z.eqb_refl.
  replace (filter (fun x => id x =? id s) (students st)) with [s];
    [cbn; now rewrite Hset|].
  symmetry. rewrite (filter_ext _ (fun b => id s =? id b))
    by (intros a; apply Z.eqb_sym).
  rewrite (filter_primary_key id _ _ Hkeys).
  destruct (row_with_key id (id s) (students st)) as [b|] eqn:Eb.
  - apply (row_with_key_In id) in Eb. destruct Eb as [Hb' Hid].
    now rewrite (NoDup_key_inj id (students st) b s Hkeys Hb' Hs Hid).
  - apply (row_with_key_None id) in Eb.
    assert (Hin : existsb (fun b => id b =? id s) (students st) = true).
    { apply existsb_exists. exists s. split; [exact Hs|apply Z.eqb_refl]. }
    congruence.
Qed.

End StudentForm.

(** * The further properties at work on the classroom *)

Ltac keys_below := repeat (constructor; [cbn; lia|]); constructor.

Lemma createStudent_stores_witness :
  exists st',
    createStudent Examples.cy Examples.classroom = (Ok Examples.cy_row, st')
    /\ getStudent 3 st' = Some Examples.cy_row
    /\ students st' = [Examples.ann; Examples.bob; Examples.cy_row].
Proof.
  destruct (createStudent_stores Examples.cy Examples.classroom)
    as [st' [Hcall [_ [Hrows [Hget _]]]]].
  - keys_below.
  - cbn. lia.
  - intros x [<-|[<-|[]]]; discriminate.
  - exists st'. split; [exact Hcall|]. split; [exact Hget|exact Hrows].
Defined.


Lemma createAttendanceRecord_twice_witness :
  exists row1 row2 st1 st2,
    createAttendanceRecord 30 Examples.ann_late Examples.classroom
    = (Ok row1, st1)
    /\ createAttendanceRecord 31 Examples.ann_late st1 = (Ok row2, st2)
    /\ attendanceRecords st2
       = attendanceRecords Examples.classroom ++ [row1; row2]
    /\ record_fields row1 = insert_fields Examples.ann_late
    /\ record_fields row2 = insert_fields Examples.ann_late
    /\ record_id row1 <> record_id row2.
Proof.
  apply (createAttendanceRecord_twice 30 31 Examples.ann_late
                                      Examples.classroom).
  reflexivity.
Defined.

Lemma createAttendanceRecord_refused_witness :
  exists st',
    createAttendanceRecord 30 Examples.stranger Examples.classroom
    = (Err ForeignKeyViolation, st')
    /\ students st' = students Examples.classroom
    /\ sessions st' = sessions Examples.classroom
    /\ attendanceRecords st' = attendanceRecords Examples.classroom.
Proof.
  apply (createAttendanceRecord_refused 30 Examples.stranger
                                        Examples.classroom).
  reflexivity.
Defined.

Lemma createBulkAttendance_by_session_witness :
  exists rows st',
    createBulkAttendance 30 Examples.both_lectures Examples.classroom
    = (Ok rows, st')
    /\ length rows = 2%nat
    /\ getAttendanceBySession 2 st'
       = getAttendanceBySession 2 Examples.classroom
         ++ filter (fun r => record_sessionId r =? 2) rows.
Proof.
  apply (createBulkAttendance_by_session
           30 Examples.ann_late
           [mkInsertAttendanceRecord 2 2 excused (Some (Some "note"%string))]
           2 Examples.classroom).
  reflexivity.
Defined.

Lemma createBulkAttendance_refused_empties_witness :
  exists st',
    createBulkAttendance 30 [Examples.ann_late; Examples.stranger]
                         Examples.classroom
    = (Err ForeignKeyViolation, st')
    /\ getAttendanceBySession 1 st' = []
    /\ attendanceRecords st' = other_sessions 1 Examples.classroom
    /\ students st' = students Examples.classroom
    /\ sessions st' = sessions Examples.classroom.
Proof.
  apply (createBulkAttendance_refused_empties
           30 Examples.ann_late [Examples.stranger] Examples.classroom).
  reflexivity.
Defined.

Lemma createBulkAttendance_twice_other_session_witness :
  let once :=
    snd (createBulkAttendance 30 Examples.both_lectures Examples.classroom) in
  let twice := snd (createBulkAttendance 31 Examples.both_lectures once) in
  map record_fields (getAttendanceBySession 2 twice)
  = map record_fields (getAttendanceBySession 2 once)
    ++ [(2, 2, excused, Some "note"%string)].
Proof.
  apply (createBulkAttendance_twice_other_session
           30 31 Examples.ann_late
           [mkInsertAttendanceRecord 2 2 excused (Some (Some "note"%string))]
           2 Examples.classroom).
  - reflexivity.
  - cbn. lia.
Defined.

Lemma delete_students_found_witness :
  exists st',
    delete_students 1 Examples.classroom = (mkResponse 204 NoBody, st')
    /\ getStudent 1 st' = None
    /\ (forall j, j <> 1 -> getStudent j st' = getStudent j Examples.classroom)
    /\ sessions st' = sessions Examples.classroom.
Proof. apply (delete_students_found 1 Examples.classroom). reflexivity. Defined.


Lemma updateStudent_changes_one_witness :
  exists st',
    updateStudent 1 Examples.anne Examples.classroom
    = (Ok (Some (mkStudent 1 "S1" "Anne" "Lee" "ann@x.com" None)), st')
    /\ getStudent 1 st' = Some (mkStudent 1 "S1" "Anne" "Lee" "ann@x.com" None)
    /\ getStudent 2 st' = Some Examples.bob.
Proof.
  destruct (updateStudent_changes_one Examples.anne Examples.ann
                                      Examples.classroom)
    as [st' [Hcall [Hget [Hothers _]]]].
  - distinct_keys.
  - left. reflexivity.
  - reflexivity.
  - reflexivity.
  - exists st'. split; [exact Hcall|]. split; [exact Hget|].
    apply (Hothers 2). cbn. lia.
Defined.


Lemma patch_students_taken_studentId_witness :
  patch_students 1 (JObject [("studentId"%string, JString "S2")])
                 Examples.classroom
  = (mkResponse 500 (JsonError "Failed to update student"),
     Examples.classroom).
Proof.
  apply (patch_students_taken_studentId
           (JObject [("studentId"%string, JString "S2")])
           (mkPartialStudent (Some "S2"%string) None None None None)
           Examples.ann Examples.bob Examples.classroom).
  - reflexivity.
  - left. reflexivity.
  - right. left. reflexivity.
  - cbn. lia.
  - reflexivity.
Defined.


Lemma post_students_invalid_email_witness :
  exists errors,
    post_students (JObject Examples.no_at) Examples.classroom
    = (mkResponse 400 (JsonIssues errors), Examples.classroom)
    /\ In (mkIssue [Key "email"] "Invalid email address") errors.
Proof.
  apply (post_students_invalid_email Examples.no_at "nobody"
                                     Examples.classroom); reflexivity.
Defined.


Lemma overallAttendanceRate_percentage_witness :
  (exists n,
      overallAttendanceRate (getDashboardStats 8775 Examples.classroom)
      = JsNumber.of_int n
      /\ 0 <= n <= 100)
  /\ (count_status present
                   (map status (attendanceRecords Examples.classroom)) = 0 ->
      overallAttendanceRate (getDashboardStats 8775 Examples.classroom)
      = JsNumber.of_int 0).
Proof.
  apply (overallAttendanceRate_percentage 8775 Examples.classroom).
  reflexivity.
Defined.

Lemma roster_loaded_all_marked_witness :
  let s := fold_left handle
                     [StatusChange 2 absent; NotesChange 1 "left early";
                      MarkAllPresent (Some [Examples.ann; Examples.bob])]
                     Examples.first_lecture_page in
  selectedSession s <> None
  /\ (forall k, In k (map fst (attendanceState s))
                <-> In k (map id [Examples.ann; Examples.bob]))
  /\ Forall (fun kv => marked (snd kv)) (attendanceState s).
Proof.
  apply (roster_loaded_all_marked
           [Examples.ann; Examples.bob] Examples.lecture1 initial
           [StatusChange 2 absent; NotesChange 1 "left early";
            MarkAllPresent (Some [Examples.ann; Examples.bob])]).
  constructor; [cbn; right; left; reflexivity|].
  constructor; [cbn; left; reflexivity|].
  constructor; [reflexivity|constructor].
Defined.

Lemma save_request_accepted_witness :
  exists req_body rows st',
    save_request Examples.first_lecture_page = Ok req_body
    /\ post_attendance_bulk 30 req_body Examples.classroom
       = (mkResponse 201 (JsonAttendance rows), st')
    /\ map row_columns rows
       = map (entry_columns Examples.lecture1)
             (attendanceState Examples.first_lecture_page)
    /\ (attendanceState Examples.first_lecture_page <> [] ->
        getAttendanceBySession 1 st' = rows)
    /\ students st' = students Examples.classroom
    /\ sessions st' = sessions Examples.classroom.
Proof.
  apply (save_request_accepted 30 Examples.lecture1
                               Examples.first_lecture_page
                               Examples.classroom).
  - reflexivity.
  - repeat (constructor; [discriminate|]). constructor.
  - reflexivity.
  - repeat (constructor; [reflexivity|]). constructor.
Defined.

Lemma notes_without_entry_rejected_witness :
  exists req_body errors,
    save_request (handleNotesChange 1 "left early" Examples.early_page)
    = Ok req_body
    /\ post_attendance_bulk 30 req_body Examples.classroom
       = (mkResponse 400 (JsonIssues errors), Examples.classroom).
Proof.
  apply (notes_without_entry_rejected 30 Examples.lecture1 1 "left early"
                                      Examples.early_page Examples.classroom);
    reflexivity.
Defined.

Lemma submit_passes_validation_witness :
  exists data,
    studentFormSchema (Some Examples.anne_form) = Ok data
    /\ createStudentSchema
         (Some (request_body
                  (mkFormValues "S1" "Anne" "Lee" "ann@x.com"
                                (Some EmptyString))
                  None))
       = Ok (mkInsertStudent (form_studentId data) (form_firstName data)
                             (form_lastName data) (form_email data)
                             (option_map Some None))
    /\ exists p,
        updateStudentSchema
          (Some (request_body
                   (mkFormValues "S1" "Anne" "Lee" "ann@x.com"
                                 (Some EmptyString))
                   None))
        = Ok p
        /\ upd_photoUrl p = option_map Some None
        /\ no_values p = false.
Proof.
  apply (submit_passes_validation Examples.anne_form None). reflexivity.
Defined.

Lemma edit_form_updates_witness :
  exists st',
    patch_students
      1
      (request_body (mkFormValues "S1" "Anne" "Lee" "ann@x.com"
                                  (Some EmptyString))
                    None)
      Examples.classroom
    = (mkResponse 200
                  (JsonStudent (mkStudent 1 "S1" "Anne" "Lee" "ann@x.com"
                                          None)),
       st')
    /\ getStudent 1 st'
       = Some (mkStudent 1 "S1" "Anne" "Lee" "ann@x.com" None)
    /\ length (students st') = length (students Examples.classroom).
Proof.
  apply (edit_form_updates
           Examples.anne_form
           (mkFormValues "S1" "Anne" "Lee" "ann@x.com" (Some EmptyString))
           None Examples.ann Examples.classroom).
  - reflexivity.
  - reflexivity.
  - cbn. lia.
  - distinct_keys.
  - unfold unique_student_ids. distinct_keys.
  - left. reflexivity.
Defined.
